(** * Seat inventory, reservation lifecycle and scheduling of the movie
      reservation backend

    A shallow embedding of the Mongoose models [Showtime] and [Reservation]
    (src/models/Reservation.js) and of the Express controllers that drive
    them (src/controllers/reportController.js for reservations,
    src/controllers/showtimeController.js for showtimes).

    Conventions of the embedding
    - a JS [Date] is its millisecond time stamp, an integer ([Z]);
    - a JS [Number] holding money or a time quotient is an exact rational
      ([Q]); IEEE rounding is outside the model;
    - a Mongo [ObjectId] is an integer;
    - a Mongoose document is a record; a method that mutates [this] is a
      function from the document to the mutated document;
    - a thrown exception is a value of [Exn]; a method that may throw after
      having mutated [this] returns the mutated document next to the
      exception;
    - the collections are lists of documents; [save] of a loaded document
      rewrites the stored document with the same [_id], [save] of a new
      document appends it, after the validation and the hooks of the schema;
      whether the storage layer accepts a write is an input of the handler
      (a boolean), and so is every clock reading. *)

From Stdlib Require Import ZArith QArith Qround List Permutation String Ascii Bool Lia.
Import ListNotations.
Local Open Scope string_scope.
Local Open Scope list_scope.
Local Open Scope Z_scope.

Definition ObjectId := Z.
Definition Date := Z.

(** ** The seat records of a showtime document *)

Inductive SeatType := regular | premium | vip.

(** A seat as a request names it: [{ row, number }]. *)
Module Seat.
Record t := mk { row : string; number : Z }.
End Seat.

(** An element of [showtime.availableSeats]. *)
Module AvailableSeat.
Record t := mk {
    row : string;
    number : Z;
    type : SeatType;
    price : Q;
    isAvailable : bool
  }.

  (** [seat.isAvailable = b] *)
Definition setAvailable (b : bool) (s : t) : t :=
    mk (row s) (number s) (type s) (price s) b.
End AvailableSeat.

(** An element of [showtime.reservedSeats]: the claim record. *)
Module ReservedSeat.
Record t := mk {
    row : string;
    number : Z;
    reservedBy : ObjectId;
    reservedAt : Date
  }.
End ReservedSeat.

Module Showtime.
Record t := mk {
    _id : ObjectId;
    movie : ObjectId;
    theater : ObjectId;
    startTime : Date;
    endTime : Date;
    basePrice : Q;
    availableSeats : list AvailableSeat.t;
    reservedSeats : list ReservedSeat.t;
    isActive : bool
  }.

Definition withSeats (av : list AvailableSeat.t) (rs : list ReservedSeat.t)
      (d : t) : t :=
    mk (_id d) (movie d) (theater d) (startTime d) (endTime d) (basePrice d)
       av rs (isActive d).

Definition withActive (b : bool) (d : t) : t :=
    mk (_id d) (movie d) (theater d) (startTime d) (endTime d) (basePrice d)
       (availableSeats d) (reservedSeats d) b.
End Showtime.

(** What the model methods and the storage layer throw. *)
Inductive Exn :=
| SeatNotAvailable (row : string) (number : Z)
    (* Error(`Seat ${row}${number} is not available`) *)
| CannotBeCancelled
    (* Error('This reservation cannot be cancelled') *)
| TypeError
    (* a property read on null or undefined *)
| EndNotAfterStart
    (* Error('End time must be after start time') *)
| ShowtimeInThePast
    (* Error('Cannot create showtime in the past') *)
| PaymentMismatch
    (* Error('Payment amount must match total amount') *)
| NumberRequired
    (* ValidationError: 'Reservation number is required' *)
| StorageError.
    (* the write was refused by the storage layer *)

(** ** Array helpers *)

(** [arr.find(p)] is [List.find p arr].  [updFirst p f arr] is the array
    after [const x = arr.find(p); if (x) mutate x by f]: the first element
    that satisfies [p] is replaced by its image, the others are kept. *)
Fixpoint updFirst {A : Type} (p : A -> bool) (f : A -> A) (l : list A) : list A :=
  match l with
  | [] => []
  | x :: rest => if p x then f x :: rest else x :: updFirst p f rest
  end.

(** [s.row === seat.row && s.number === seat.number] *)
Definition sameSeat (k : Seat.t) (s : AvailableSeat.t) : bool :=
  String.eqb (AvailableSeat.row s) (Seat.row k)
  && Z.eqb (AvailableSeat.number s) (Seat.number k).

(** [s.row === seat.row && s.number === seat.number && s.isAvailable] *)
Definition sameSeatAvailable (k : Seat.t) (s : AvailableSeat.t) : bool :=
  sameSeat k s && AvailableSeat.isAvailable s.

(** [seat.row === seatToRelease.row && seat.number === seatToRelease.number]
    on a claim record. *)
Definition sameClaim (k : Seat.t) (c : ReservedSeat.t) : bool :=
  String.eqb (ReservedSeat.row c) (Seat.row k)
  && Z.eqb (ReservedSeat.number c) (Seat.number k).

(** ** [showtimeSchema.methods.reserveSeats] *)

(** The [for] loop of [reserveSeats]: [av] is [this.availableSeats] as
    mutated so far, [acc] the local array [reservedSeats].  On a seat that
    is not found the loop throws, and the flags flipped by the earlier
    iterations stay flipped in the document. *)
Fixpoint reserveLoop (seats : list Seat.t) (userId : ObjectId) (now : Date)
    (av : list AvailableSeat.t) (acc : list ReservedSeat.t)
  : list AvailableSeat.t * (Exn + list ReservedSeat.t) :=
  match seats with
  | [] => (av, inr acc)
  | seatRequest :: rest =>
      match find (sameSeatAvailable seatRequest) av with
      | None =>
          (av, inl (SeatNotAvailable (Seat.row seatRequest) (Seat.number seatRequest)))
      | Some seat =>
          reserveLoop rest userId now
            (updFirst (sameSeatAvailable seatRequest)
                      (AvailableSeat.setAvailable false) av)
            (acc ++ [ReservedSeat.mk (AvailableSeat.row seat)
                                     (AvailableSeat.number seat) userId now])
      end
  end.

(** [showtime.reserveSeats(seats, userId)]: the document after the call and
    either the exception or the returned claim records. *)
Definition reserveSeats (seats : list Seat.t) (userId : ObjectId) (now : Date)
    (d : Showtime.t) : Showtime.t * (Exn + list ReservedSeat.t) :=
  match reserveLoop seats userId now (Showtime.availableSeats d) [] with
  | (av, inl e) => (Showtime.withSeats av (Showtime.reservedSeats d) d, inl e)
  | (av, inr claims) =>
      (Showtime.withSeats av (Showtime.reservedSeats d ++ claims) d, inr claims)
  end.

(** ** [showtimeSchema.methods.releaseSeats] *)

(** One iteration of the loop of [releaseSeats]. *)
Definition releaseOne (seatToRelease : Seat.t) (d : Showtime.t) : Showtime.t :=
  Showtime.withSeats
    (updFirst (sameSeat seatToRelease) (AvailableSeat.setAvailable true)
              (Showtime.availableSeats d))
    (filter (fun c => negb (sameClaim seatToRelease c)) (Showtime.reservedSeats d))
    d.

(** [showtime.releaseSeats(seats)]; it has no [throw] and returns nothing. *)
Definition releaseSeats (seats : list Seat.t) (d : Showtime.t) : Showtime.t :=
  fold_left (fun doc seatToRelease => releaseOne seatToRelease doc) seats d.

(** [showtime.getSeatPrice(row, number)] *)
Definition getSeatPrice (k : Seat.t) (d : Showtime.t) : option Q :=
  option_map AvailableSeat.price (find (sameSeat k) (Showtime.availableSeats d)).

(** ** The reservation document *)

(** An element of [reservation.seats]: the seat with its captured class and
    price. *)
Module ReservationSeat.
Record t := mk {
    row : string;
    number : Z;
    type : SeatType;
    price : Q
  }.

  (** The part of the record that [releaseSeats] reads. *)
Definition key (s : t) : Seat.t := Seat.mk (row s) (number s).
End ReservationSeat.

(** [a < b] on JS numbers. *)
Definition Qltb (a b : Q) : bool := negb (Qle_bool b a).

Module Reservation.
  (** [status] is a string with the Mongoose enum
      ['pending', 'confirmed', 'cancelled', 'completed', 'no_show'];
      [paymentAmount] is [paymentDetails.amount].  The fields that no
      operation below reads (contact data, gift data, reminders) are left
      out. *)
Record t := mk {
    _id : ObjectId;
    user : ObjectId;
    showtime : ObjectId;
    seats : list ReservationSeat.t;
    totalAmount : Q;
    paymentAmount : Q;
    status : string;
    checkInTime : option Date;
    cancellationReason : option string;
    cancelledAt : option Date;
    refundAmount : option Q
  }.

Definition withStatus (s : string) (r : t) : t :=
    mk (_id r) (user r) (showtime r) (seats r) (totalAmount r) (paymentAmount r)
       s (checkInTime r) (cancellationReason r) (cancelledAt r) (refundAmount r).

Definition withCheckInTime (c : option Date) (r : t) : t :=
    mk (_id r) (user r) (showtime r) (seats r) (totalAmount r) (paymentAmount r)
       (status r) c (cancellationReason r) (cancelledAt r) (refundAmount r).

Definition withCancellation (reason : option string) (at_ : Date) (r : t) : t :=
    mk (_id r) (user r) (showtime r) (seats r) (totalAmount r) (paymentAmount r)
       (status r) (checkInTime r) reason (Some at_) (refundAmount r).

Definition withRefund (q : Q) (r : t) : t :=
    mk (_id r) (user r) (showtime r) (seats r) (totalAmount r) (paymentAmount r)
       (status r) (checkInTime r) (cancellationReason r) (cancelledAt r) (Some q).

  (** The virtual [isCancellable].  [populated] is [this.showtime] after
      [populate('showtime')]: the showtime document, or [None] when there is
      none to read a start time from; [now] is [Date.now()]. *)
Definition isCancellable (populated : option Showtime.t) (now : Date) (r : t) : bool :=
    if String.eqb (status r) "cancelled" || String.eqb (status r) "completed"
    then false
    else match populated with
         | Some sh =>
             let twoHoursFromNow := now + 2 * 60 * 60 * 1000 in
             twoHoursFromNow <? Showtime.startTime sh
         | None => true
         end.

  (** [(this.showtime.startTime - new Date()) / (1000 * 60 * 60)] *)
Definition hoursUntilShowtime (sh : Showtime.t) (now : Date) : Q :=
    (inject_Z (Showtime.startTime sh - now) / inject_Z (1000 * 60 * 60))%Q.

  (** The refund tiers at the end of [cancel]. *)
Definition refundFor (total hours : Q) : Q :=
    if Qltb 24 hours then (total * 0.9)%Q
    else if Qltb 2 hours then (total * 0.5)%Q
    else 0%Q.

  (** [reservation.cancel(reason)].  The three clock readings of the method
      are its arguments: [tCheck] in [isCancellable], [tStamp] for
      [cancelledAt], [tRefund] in the refund computation.  The result is the
      document after the call and the exception, if one was thrown. *)
Definition cancel (reason : option string) (populated : option Showtime.t)
      (tCheck tStamp tRefund : Date) (r : t) : t * option Exn :=
    if negb (isCancellable populated tCheck r) then (r, Some CannotBeCancelled)
    else
      let r1 := withCancellation reason tStamp (withStatus "cancelled" r) in
      match populated with
      | None => (r1, Some TypeError)
      | Some sh =>
          (withRefund (refundFor (totalAmount r1) (hoursUntilShowtime sh tRefund)) r1,
           None)
      end.

Definition confirm (r : t) : t := withStatus "confirmed" r.
Definition complete (r : t) : t := withStatus "completed" r.
Definition markAsNoShow (r : t) : t := withStatus "no_show" r.

  (** [reservation.checkIn()]; [now] is its [new Date()]. *)
Definition checkIn (now : Date) (r : t) : t := withCheckInTime (Some now) r.

  (** The pre-save hook that compares the payment with the total. *)
Definition preSave (r : t) : option Exn :=
    if negb (Qeq_bool (paymentAmount r) (totalAmount r))
    then Some PaymentMismatch else None.
End Reservation.

(** ** A reservation that is not stored yet *)

(** The document that [new Reservation({...})] makes.  A stored reservation
    has passed the validation of the schema, which requires
    [reservationNumber]; a new one carries the number only if the argument of
    the constructor does. *)
Module NewReservation.
Record t := mk {
    fields : Reservation.t;
    reservationNumber : option string
  }.

  (** The validation that [save()] runs before the [pre('save')] hooks of the
      schema, on the one required path that the handlers do not copy from
      the validated request: [reservationNumber], [required] (an empty string
      does not pass either). *)
Definition validate (n : t) : option Exn :=
    match reservationNumber n with
    | None => Some NumberRequired
    | Some number => if String.eqb number "" then Some NumberRequired else None
    end.

  (** The first [pre('save')] hook:
      [if (this.isNew && !this.reservationNumber)
         this.reservationNumber = this.generateReservationNumber()];
      [generated] is what [generateReservationNumber()] returns. *)
Definition numberHook (isNew : bool) (generated : string) (n : t) : t :=
    if isNew && match reservationNumber n with
                | None => true
                | Some number => String.eqb number ""
                end
    then mk (fields n) (Some generated)
    else n.
End NewReservation.

(** ** Catalog documents read by the showtime controller *)

Module Movie.
Record t := mk { _id : ObjectId; isActive : bool }.
End Movie.

Module TheaterSeat.
Record t := mk { row : string; number : Z; type : SeatType; isActive : bool }.
End TheaterSeat.

Module Theater.
Record t := mk {
    _id : ObjectId;
    isActive : bool;
    seats : list TheaterSeat.t;
    priceMultiplier : SeatType -> Q
  }.
End Theater.

(** ** The collections *)

Record Store := mkStore {
  showtimes : list Showtime.t;
  reservations : list Reservation.t;
  movies : list Movie.t;
  theaters : list Theater.t
}.

Definition setShowtimes (l : list Showtime.t) (st : Store) : Store :=
  mkStore l (reservations st) (movies st) (theaters st).

Definition setReservations (l : list Reservation.t) (st : Store) : Store :=
  mkStore (showtimes st) l (movies st) (theaters st).

(** [Model.findById(id)] on a collection whose documents carry [idOf]. *)
Definition findById {D : Type} (idOf : D -> ObjectId) (id : ObjectId)
    (coll : list D) : option D :=
  find (fun d => idOf d =? id) coll.

(** The stored document with the [_id] of [doc] is rewritten with [doc]. *)
Definition replaceById {D : Type} (idOf : D -> ObjectId) (doc : D)
    (coll : list D) : list D :=
  map (fun d => if idOf d =? idOf doc then doc else d) coll.

(** The pre-save hook of the showtime schema; [isNew] tells a document that
    was never saved. *)
Definition showtimePreSave (isNew : bool) (now : Date) (d : Showtime.t) : option Exn :=
  if Showtime.endTime d <=? Showtime.startTime d then Some EndNotAfterStart
  else if isNew && (Showtime.startTime d <? now) then Some ShowtimeInThePast
  else None.

(** [await showtimeDoc.save()] on a loaded document.  [accepted] is the
    verdict of the storage layer on the write. *)
Definition saveShowtime (accepted : bool) (now : Date) (d : Showtime.t)
    (st : Store) : Exn + Store :=
  match showtimePreSave false now d with
  | Some e => inl e
  | None =>
      if accepted
      then inr (setShowtimes (replaceById Showtime._id d (showtimes st)) st)
      else inl StorageError
  end.

(** [await showtime.save()] on a document made by [new Showtime(...)]. *)
Definition insertShowtime (accepted : bool) (now : Date) (d : Showtime.t)
    (st : Store) : Exn + Store :=
  match showtimePreSave true now d with
  | Some e => inl e
  | None =>
      if accepted
      then inr (setShowtimes (showtimes st ++ [d]) st)
      else inl StorageError
  end.

(** [await reservation.save()] on a loaded document. *)
Definition saveReservation (accepted : bool) (r : Reservation.t)
    (st : Store) : Exn + Store :=
  match Reservation.preSave r with
  | Some e => inl e
  | None =>
      if accepted
      then inr (setReservations (replaceById Reservation._id r (reservations st)) st)
      else inl StorageError
  end.

(** [await reservation.save()] on a document made by [new Reservation(...)]:
    the validation, then the [pre('save')] hooks in the order of the schema,
    then the write.  A document that has passed the validation has its
    number, so the first hook ([NewReservation.numberHook]) finds nothing to
    generate; the second is the payment check. *)
Definition insertReservation (accepted : bool) (n : NewReservation.t)
    (st : Store) : Exn + Store :=
  match NewReservation.validate n with
  | Some e => inl e
  | None =>
      match Reservation.preSave (NewReservation.fields n) with
      | Some e => inl e
      | None =>
          if accepted
          then inr (setReservations
                      (reservations st ++ [NewReservation.fields n]) st)
          else inl StorageError
      end
  end.

(** ** Requests and responses *)

(** [req.user] as the authentication middleware leaves it. *)
Record User := mkUser { uid : ObjectId; role : string }.

Inductive Info :=
| NoInfo
| SeatList (l : list Seat.t)   (* the seats named by the message *)
| Thrown (e : Exn).            (* [error.message] of a caught exception *)

Inductive Body :=
| ReservationBody (r : Reservation.t)
| CancelledBody (id : ObjectId) (status : string) (refundAmount : option Q)
    (cancellationReason : option string) (cancelledAt : option Date)
| CheckInBody (id : ObjectId) (checkInTime : option Date)
| StatusBody (id : ObjectId) (status : string)
| ShowtimeBody (s : Showtime.t).

(** [res.status(code).json(...)]: a success carries its body, a failure the
    [error] field of the JSON answer. *)
Inductive Response :=
| Json (code : Z) (b : Body)
| Fail (code : Z) (error : string) (info : Info).

(** ** [createReservation] (reservation controller) *)

(** The part of [req.body] that the seat logic reads.  The payment and
    contact fields are copied into the reservation unchanged, except
    [paymentDetails.amount], which the handler overwrites with the total. *)
Record Booking := mkBooking {
  bookingShowtime : ObjectId;
  bookingSeats : list Seat.t
}.

(** What one run of the handler receives from its environment: the clock,
    the [_id] that [new Reservation] draws, and the verdicts of the storage
    layer on the two writes. *)
Record BookingEnv := mkBookingEnv {
  bookingNow : Date;
  newReservationId : ObjectId;
  showtimeSaveAccepted : bool;
  reservationSaveAccepted : bool
}.

(** The first loop of the handler: the requested seats for which
    [availableSeats.find(same seat && isAvailable)] finds nothing.  The
    source pushes the text [`${seat.row}${seat.number}`] of each; the model
    keeps the seat. *)
Definition unavailableSeats (requestedSeats : list Seat.t)
    (av : list AvailableSeat.t) : list Seat.t :=
  filter (fun seat =>
            match find (sameSeatAvailable seat) av with
            | None => true
            | Some _ => false
            end) requestedSeats.

(** The second loop: captures class and price of every requested seat and
    sums the prices.  [availableSeat.type] on a seat that [find] did not
    return is a [TypeError] ([None]). *)
Fixpoint priceLoop (requestedSeats : list Seat.t) (av : list AvailableSeat.t)
    (reservationSeats : list ReservationSeat.t) (totalAmount : Q)
  : option (list ReservationSeat.t * Q) :=
  match requestedSeats with
  | [] => Some (reservationSeats, totalAmount)
  | seat :: rest =>
      match find (sameSeat seat) av with
      | None => None
      | Some availableSeat =>
          priceLoop rest av
            (reservationSeats ++
               [ReservationSeat.mk (Seat.row seat) (Seat.number seat)
                  (AvailableSeat.type availableSeat)
                  (AvailableSeat.price availableSeat)])
            (totalAmount + AvailableSeat.price availableSeat)%Q
      end
  end.

(** [await Showtime.findById(showtime)] *)
Definition loadPhase (req : Booking) (st : Store) : option Showtime.t :=
  findById Showtime._id (bookingShowtime req) (showtimes st).

(** What [await showtimeDoc.save()] does to the store, given the document
    as [findById] returned it and the document as [reserveSeats] left it.
    Which paths of a document Mongoose sends, and what it does when the
    stored document has changed since it was loaded, is not code of this
    repository. *)
Definition ShowtimeWrite : Type := Showtime.t -> Showtime.t -> Store -> Exn + Store.

(** From the answer of [findById] to the answer of [showtimeDoc.save()]:
    the checks, the construction of the reservation, [reserveSeats] on the
    loaded document and the write of that document.  The result is the
    response, when the handler has answered, or the reservation that is
    still to be saved.  [new Reservation({...})] is given no
    [reservationNumber]. *)
Definition claimPhaseWith (write : ShowtimeWrite) (env : BookingEnv)
    (req : Booking) (user : User) (loaded : option Showtime.t) (st : Store)
  : Store * (Response + NewReservation.t) :=
  match loaded with
  | None => (st, inl (Fail 400 "Invalid showtime" NoInfo))
  | Some showtimeDoc =>
      if negb (Showtime.isActive showtimeDoc)
      then (st, inl (Fail 400 "Invalid showtime" NoInfo))
      else if Showtime.startTime showtimeDoc <=? bookingNow env
      then (st, inl (Fail 400 "Showtime unavailable" NoInfo))
      else
        let requestedSeats := bookingSeats req in
        let unavailable :=
          unavailableSeats requestedSeats (Showtime.availableSeats showtimeDoc) in
        if (0 <? List.length unavailable)%nat
        then (st, inl (Fail 400 "Seats unavailable" (SeatList unavailable)))
        else
          match priceLoop requestedSeats (Showtime.availableSeats showtimeDoc) [] 0%Q with
          | None => (st, inl (Fail 500 "Failed to create reservation" (Thrown TypeError)))
          | Some (reservationSeats, totalAmount) =>
              let reservation :=
                NewReservation.mk
                  (Reservation.mk (newReservationId env) (uid user)
                     (bookingShowtime req) reservationSeats totalAmount totalAmount
                     "pending" None None None None)
                  None in
              match reserveSeats requestedSeats (uid user) (bookingNow env) showtimeDoc with
              | (_, inl e) => (st, inl (Fail 400 "Seat reservation failed" (Thrown e)))
              | (claimed, inr _) =>
                  match write showtimeDoc claimed st with
                  | inl e => (st, inl (Fail 400 "Seat reservation failed" (Thrown e)))
                  | inr st1 => (st1, inr reservation)
                  end
              end
          end
  end.

(** The write of a handler that no other handler interrupts: the stored
    document is the loaded one, and the document as claimed replaces it. *)
Definition writeAlone (env : BookingEnv) : ShowtimeWrite :=
  fun _ claimed st =>
    saveShowtime (showtimeSaveAccepted env) (bookingNow env) claimed st.

Definition claimPhase (env : BookingEnv) (req : Booking) (user : User)
    (loaded : option Showtime.t) (st : Store)
  : Store * (Response + NewReservation.t) :=
  claimPhaseWith (writeAlone env) env req user loaded st.

(** [await reservation.save()] and the answer.  The [catch] around it
    answers 400 and does nothing else. *)
Definition persistPhase (env : BookingEnv) (reservation : NewReservation.t)
    (st : Store) : Store * Response :=
  match insertReservation (reservationSaveAccepted env) reservation st with
  | inl e => (st, Fail 400 "Seat reservation failed" (Thrown e))
  | inr st1 => (st1, Json 201 (ReservationBody (NewReservation.fields reservation)))
  end.

(** The handler run from its first line to its answer with no other
    handler in between. *)
Definition createReservation (env : BookingEnv) (req : Booking) (user : User)
    (st : Store) : Store * Response :=
  match claimPhase env req user (loadPhase req st) st with
  | (st1, inl resp) => (st1, resp)
  | (st1, inr reservation) => persistPhase env reservation st1
  end.

(** *** Two handlers on one event loop

    A handler gives up control at each [await]; another handler may run
    between the answer of [findById] and the rest.  A handler is therefore
    a small machine whose steps are the three phases above, each holding
    its own copy of the loaded document.  What the write of that copy does
    to a stored document that another handler has written in between is a
    parameter of the machine. *)
Inductive Handler :=
| Received
| Loaded (showtimeDoc : option Showtime.t)
| Claimed (reservation : NewReservation.t)
| Answered (resp : Response).




Record World := mkWorld {
  store : Store;
  handler1 : Handler;
  handler2 : Handler
}.



(** ** [cancelReservation] *)

(** The clock readings of one run ([guardNow] in the handler's own test of
    [isCancellable], the other three inside [reservation.cancel]) and the
    verdicts of the storage layer on the two writes. *)
Record CancelEnv := mkCancelEnv {
  guardNow : Date;
  checkNow : Date;
  stampNow : Date;
  refundNow : Date;
  cancelSaveAccepted : bool;
  releaseSaveAccepted : bool
}.

Definition cancelledBody (r : Reservation.t) : Body :=
  CancelledBody (Reservation._id r) (Reservation.status r)
    (Reservation.refundAmount r) (Reservation.cancellationReason r)
    (Reservation.cancelledAt r).

Definition cancelReservation (env : CancelEnv) (id : ObjectId)
    (reason : option string) (user : User) (st : Store) : Store * Response :=
  match findById Reservation._id id (reservations st) with
  | None => (st, Fail 404 "Reservation not found" NoInfo)
  | Some reservation =>
      (* .populate('showtime') *)
      let populated :=
        findById Showtime._id (Reservation.showtime reservation) (showtimes st) in
      if negb (String.eqb (role user) "admin")
         && negb (Reservation.user reservation =? uid user)
      then (st, Fail 403 "Access denied" NoInfo)
      else if negb (Reservation.isCancellable populated (guardNow env) reservation)
      then (st, Fail 400 "Cannot cancel reservation" NoInfo)
      else
        match Reservation.cancel reason populated
                (checkNow env) (stampNow env) (refundNow env) reservation with
        | (_, Some e) => (st, Fail 500 "Failed to cancel reservation" (Thrown e))
        | (cancelled, None) =>
            match saveReservation (cancelSaveAccepted env) cancelled st with
            | inl e => (st, Fail 500 "Failed to cancel reservation" (Thrown e))
            | inr st1 =>
                match populated with
                | None => (st1, Fail 500 "Failed to cancel reservation" (Thrown TypeError))
                | Some sh =>
                    match findById Showtime._id (Showtime._id sh) (showtimes st1) with
                    | None => (st1, Json 200 (cancelledBody cancelled))
                    | Some showtime =>
                        match saveShowtime (releaseSaveAccepted env) (guardNow env)
                                (releaseSeats
                                   (map ReservationSeat.key (Reservation.seats cancelled))
                                   showtime) st1 with
                        | inl e =>
                            (st1, Fail 500 "Failed to cancel reservation" (Thrown e))
                        | inr st2 => (st2, Json 200 (cancelledBody cancelled))
                        end
                    end
                end
            end
        end
  end.

(** ** [checkInReservation] *)

Record CheckInEnv := mkCheckInEnv {
  checkInNow : Date;       (* [const now = new Date()] of the handler *)
  checkInStamp : Date;     (* [new Date()] inside [reservation.checkIn] *)
  checkInSaveAccepted : bool
}.

(** [(showtimeStart - now) / (1000 * 60)] *)
Definition timeDiff (showtimeStart now : Date) : Q :=
  (inject_Z (showtimeStart - now) / inject_Z (1000 * 60))%Q.

Definition checkInReservation (env : CheckInEnv) (id : ObjectId) (st : Store)
  : Store * Response :=
  match findById Reservation._id id (reservations st) with
  | None => (st, Fail 404 "Reservation not found" NoInfo)
  | Some reservation =>
      if negb (String.eqb (Reservation.status reservation) "confirmed")
      then (st, Fail 400 "Invalid reservation status" NoInfo)
      else
        match findById Showtime._id (Reservation.showtime reservation) (showtimes st) with
        | None => (st, Fail 500 "Failed to check in" (Thrown TypeError))
        | Some sh =>
            let diff := timeDiff (Showtime.startTime sh) (checkInNow env) in
            if Qltb 120 diff
            then (st, Fail 400 "Too early for check-in" NoInfo)
            else if Qltb diff (-30)
            then (st, Fail 400 "Too late for check-in" NoInfo)
            else
              let checkedIn := Reservation.checkIn (checkInStamp env) reservation in
              match saveReservation (checkInSaveAccepted env) checkedIn st with
              | inl e => (st, Fail 500 "Failed to check in" (Thrown e))
              | inr st1 =>
                  (st1, Json 200 (CheckInBody (Reservation._id checkedIn)
                                              (Reservation.checkInTime checkedIn)))
              end
        end
  end.

(** ** [updateReservationStatus] (administrative) *)

Definition validStatuses : list string :=
  ["pending"; "confirmed"; "cancelled"; "completed"; "no_show"].

Definition updateReservationStatus (accepted : bool) (id : ObjectId)
    (status : string) (st : Store) : Store * Response :=
  if negb (existsb (String.eqb status) validStatuses)
  then (st, Fail 400 "Invalid status" NoInfo)
  else
    match findById Reservation._id id (reservations st) with
    | None => (st, Fail 404 "Reservation not found" NoInfo)
    | Some reservation =>
        let updated :=
          if String.eqb status "confirmed" then Reservation.confirm reservation
          else if String.eqb status "completed" then Reservation.complete reservation
          else if String.eqb status "no_show" then Reservation.markAsNoShow reservation
          else Reservation.withStatus status reservation in
        match saveReservation accepted updated st with
        | inl e => (st, Fail 500 "Failed to update reservation status" (Thrown e))
        | inr st1 =>
            (st1, Json 200 (StatusBody (Reservation._id updated)
                                       (Reservation.status updated)))
        end
    end.

(** ** [createShowtime] and [updateShowtime] (showtime controller) *)

Record ShowtimeRequest := mkShowtimeRequest {
  reqMovie : ObjectId;
  reqTheater : ObjectId;
  reqStartTime : Date;
  reqEndTime : Date;
  reqBasePrice : Q
}.

Record ShowtimeEnv := mkShowtimeEnv {
  showtimeNow : Date;
  newShowtimeId : ObjectId;
  showtimeAccepted : bool
}.

(** The filter of the conflict query:
    [{ theater, isActive: true, startTime: { $lt: endTime },
       endTime: { $gt: startTime } }]. *)
Definition conflictFilter (theater : ObjectId) (startTime endTime : Date)
    (s : Showtime.t) : bool :=
  (Showtime.theater s =? theater)
  && Bool.eqb (Showtime.isActive s) true
  && (Showtime.startTime s <? endTime)
  && (startTime <? Showtime.endTime s).

(** The same filter with [_id: { $ne: id }] in front. *)
Definition conflictFilterExcept (id theater : ObjectId) (startTime endTime : Date)
    (s : Showtime.t) : bool :=
  negb (Showtime._id s =? id) && conflictFilter theater startTime endTime s.

(** The seat list of a new showtime: the active seats of the theater, each
    priced at [basePrice * priceMultiplier[seat.type]]. *)
Definition seatsFromTheater (basePrice : Q) (th : Theater.t) : list AvailableSeat.t :=
  map (fun seat =>
         AvailableSeat.mk (TheaterSeat.row seat) (TheaterSeat.number seat)
           (TheaterSeat.type seat)
           (basePrice * Theater.priceMultiplier th (TheaterSeat.type seat))%Q
           true)
      (filter TheaterSeat.isActive (Theater.seats th)).

Definition createShowtime (env : ShowtimeEnv) (req : ShowtimeRequest) (st : Store)
  : Store * Response :=
  match findById Movie._id (reqMovie req) (movies st) with
  | None => (st, Fail 400 "Invalid movie" NoInfo)
  | Some movieDoc =>
      if negb (Movie.isActive movieDoc) then (st, Fail 400 "Invalid movie" NoInfo)
      else
        match findById Theater._id (reqTheater req) (theaters st) with
        | None => (st, Fail 400 "Invalid theater" NoInfo)
        | Some theaterDoc =>
            if negb (Theater.isActive theaterDoc)
            then (st, Fail 400 "Invalid theater" NoInfo)
            else
              match find (conflictFilter (reqTheater req) (reqStartTime req)
                            (reqEndTime req)) (showtimes st) with
              | Some _ => (st, Fail 400 "Scheduling conflict" NoInfo)
              | None =>
                  let showtime :=
                    Showtime.mk (newShowtimeId env) (reqMovie req) (reqTheater req)
                      (reqStartTime req) (reqEndTime req) (reqBasePrice req)
                      (seatsFromTheater (reqBasePrice req) theaterDoc) [] true in
                  match insertShowtime (showtimeAccepted env) (showtimeNow env)
                          showtime st with
                  | inl e => (st, Fail 500 "Failed to create showtime" (Thrown e))
                  | inr st1 => (st1, Json 201 (ShowtimeBody showtime))
                  end
              end
        end
  end.

(** [req.body] of an update: a key for each path of the showtime record
    but [_id], present or not.  [validateShowtime] checks the first five
    and lets any other key through; a body that carries [_id] is outside
    the model. *)
Record UpdateData := mkUpdateData {
  updMovie : option ObjectId;
  updTheater : option ObjectId;
  updStartTime : option Date;
  updEndTime : option Date;
  updBasePrice : option Q;
  updAvailableSeats : option (list AvailableSeat.t);
  updReservedSeats : option (list ReservedSeat.t);
  updIsActive : option bool
}.

(** The value of a key that may be missing from the body, or else [b].  For
    the keys that the conflict check reads this is [a || b]: an id or a date
    in the body is truthy. *)
Definition orElse {A : Type} (a : option A) (b : A) : A :=
  match a with
  | Some x => x
  | None => b
  end.

Definition present {A : Type} (a : option A) : bool :=
  match a with
  | Some _ => true
  | None => false
  end.

(** [Object.assign(showtime, updateData)]: every key of the body is copied
    onto the document. *)
Definition assignUpdate (u : UpdateData) (d : Showtime.t) : Showtime.t :=
  Showtime.mk (Showtime._id d)
    (orElse (updMovie u) (Showtime.movie d))
    (orElse (updTheater u) (Showtime.theater d))
    (orElse (updStartTime u) (Showtime.startTime d))
    (orElse (updEndTime u) (Showtime.endTime d))
    (orElse (updBasePrice u) (Showtime.basePrice d))
    (orElse (updAvailableSeats u) (Showtime.availableSeats d))
    (orElse (updReservedSeats u) (Showtime.reservedSeats d))
    (orElse (updIsActive u) (Showtime.isActive d)).

Definition updateShowtime (env : ShowtimeEnv) (id : ObjectId)
    (updateData : UpdateData) (st : Store) : Store * Response :=
  match findById Showtime._id id (showtimes st) with
  | None => (st, Fail 404 "Showtime not found" NoInfo)
  | Some showtime =>
      if Showtime.startTime showtime <? showtimeNow env
      then (st, Fail 400 "Cannot update past showtime" NoInfo)
      else if (0 <? List.length (Showtime.reservedSeats showtime))%nat
      then (st, Fail 400 "Cannot update showtime with reservations" NoInfo)
      else
        let conflictingShowtime :=
          if present (updTheater updateData) || present (updStartTime updateData)
             || present (updEndTime updateData)
          then
            let theater := orElse (updTheater updateData) (Showtime.theater showtime) in
            let startTime := orElse (updStartTime updateData) (Showtime.startTime showtime) in
            let endTime := orElse (updEndTime updateData) (Showtime.endTime showtime) in
            find (conflictFilterExcept id theater startTime endTime) (showtimes st)
          else None in
        match conflictingShowtime with
        | Some _ => (st, Fail 400 "Scheduling conflict" NoInfo)
        | None =>
            let updated := assignUpdate updateData showtime in
            match saveShowtime (showtimeAccepted env) (showtimeNow env) updated st with
            | inl e => (st, Fail 500 "Failed to update showtime" (Thrown e))
            | inr st1 => (st1, Json 200 (ShowtimeBody updated))
            end
        end
  end.

(** ** Vocabulary of the statements *)

(** The key of an inventory record and of a claim record. *)
Definition keyOfSeat (s : AvailableSeat.t) : Seat.t :=
  Seat.mk (AvailableSeat.row s) (AvailableSeat.number s).

Definition keyOfClaim (c : ReservedSeat.t) : Seat.t :=
  Seat.mk (ReservedSeat.row c) (ReservedSeat.number c).

(** The availability flag of seat [k]: the flag of the record that
    [availableSeats.find] returns for the key, if there is one. *)
Definition flagOf (k : Seat.t) (av : list AvailableSeat.t) : option bool :=
  option_map AvailableSeat.isAvailable (find (sameSeat k) av).

(** Every seat key occurs once in the inventory. *)
Definition uniqueKeys (av : list AvailableSeat.t) : Prop :=
  NoDup (map keyOfSeat av).

(** The flags agree with the claim records: a seat under a claim record is
    in the inventory and flagged unavailable. *)
Definition consistent (d : Showtime.t) : Prop :=
  forall c, In c (Showtime.reservedSeats d) ->
            flagOf (keyOfClaim c) (Showtime.availableSeats d) = Some false.

(** The claim record that [reserveSeats] makes for a requested seat. *)
Definition claimFor (userId : ObjectId) (now : Date) (k : Seat.t) : ReservedSeat.t :=
  ReservedSeat.mk (Seat.row k) (Seat.number k) userId now.

(** The effect of flag writes on the record found for a key: untouched, or
    the same record with the flag set to [b]. *)
Definition flagged (b : bool) (before after : option AvailableSeat.t) : Prop :=
  after = before
  \/ exists s, before = Some s /\ after = Some (AvailableSeat.setAvailable b s).

(** The seat of a reservation as the handler captures it for key [k]: row
    and number of the request, class and price of the record found. *)
Definition captured (av : list AvailableSeat.t) (k : Seat.t)
  : option ReservationSeat.t :=
  option_map (fun s => ReservationSeat.mk (Seat.row k) (Seat.number k)
                         (AvailableSeat.type s) (AvailableSeat.price s))
             (find (sameSeat k) av).


(** Seat [k] can be claimed: some record of the inventory carries the key
    and is available.  A seat that cannot is unavailable or unknown. *)
Definition bookable (k : Seat.t) (av : list AvailableSeat.t) : Prop :=
  exists s, In s av /\ keyOfSeat s = k /\ AvailableSeat.isAvailable s = true.

(** The seats of the request are held in the stored screening: each is
    found there and flagged unavailable. *)
Definition seatsHeld (req : Booking) (st : Store) : Prop :=
  exists d,
    findById Showtime._id (bookingShowtime req) (showtimes st) = Some d
    /\ forall k, In k (bookingSeats req) ->
                 flagOf k (Showtime.availableSeats d) = Some false.

(** The reservation of the call is in storage. *)
Definition recordStored (env : BookingEnv) (st : Store) : Prop :=
  exists r, In r (reservations st) /\ Reservation._id r = newReservationId env.

(** What the specification asks of one call of the booking handler: in the
    store that the call leaves, the reservation record exists if and only
    if its seats are held. *)
Definition noOrphanClaim (env : BookingEnv) (req : Booking) (user : User)
    (st : Store) : Prop :=
  recordStored env (fst (createReservation env req user st))
  <-> seatsHeld req (fst (createReservation env req user st)).

(** Two calls on one event loop, from two fresh handlers. *)
Definition start (st : Store) : World := mkWorld st Received Received.







(** ** Sample data

    The scenario of the specification: a screening from 19:00 to 21:00 with
    the seats A1 and A2, regular, 10 each; the users U and V. *)

Definition hour : Z := 60 * 60 * 1000.

Definition seatA1 : Seat.t := Seat.mk "A" 1.
Definition seatA2 : Seat.t := Seat.mk "A" 2.
Definition seatB7 : Seat.t := Seat.mk "B" 7.

Definition screeningS : Showtime.t :=
  Showtime.mk 1 100 200 (19 * hour) (21 * hour) 10
    [AvailableSeat.mk "A" 1 regular 10 true;
     AvailableSeat.mk "A" 2 regular 10 true]
    [] true.

Definition theaterT : Theater.t :=
  Theater.mk 200 true
    [TheaterSeat.mk "A" 1 regular true; TheaterSeat.mk "A" 2 regular true]
    (fun ty => match ty with regular => 1 | premium => 1.5 | vip => 2 end)%Q.

Definition storeS : Store :=
  mkStore [screeningS] [] [Movie.mk 100 true] [theaterT].

Definition userU : User := mkUser 10 "user".
Definition userV : User := mkUser 20 "user".
Definition adminUser : User := mkUser 1 "admin".

(** The clock reads 09:00; [accepted] is the verdict on the reservation
    write, the screening write is accepted. *)
Definition bookingEnv (id : ObjectId) (accepted : bool) : BookingEnv :=
  mkBookingEnv (9 * hour) id true accepted.



(** A reservation of U on the sample screening: A1 and A2, 20 in total,
    with the given status. *)
Definition reservationOfU (status : string) : Reservation.t :=
  Reservation.mk 501 10 1
    [ReservationSeat.mk "A" 1 regular 10; ReservationSeat.mk "A" 2 regular 10]
    20 20 status None None None None.

(** The sample screening with A1 and A2 held by U, and a store that holds
    it together with the reservation of U. *)
Definition screeningHeld : Showtime.t :=
  Showtime.mk 1 100 200 (19 * hour) (21 * hour) 10
    [AvailableSeat.mk "A" 1 regular 10 false;
     AvailableSeat.mk "A" 2 regular 10 false]
    [ReservedSeat.mk "A" 1 10 (8 * hour); ReservedSeat.mk "A" 2 10 (8 * hour)]
    true.

Definition storeWith (status : string) : Store :=
  mkStore [screeningHeld] [reservationOfU status] [Movie.mk 100 true] [theaterT].

(** Every clock reading of a cancellation is [now]; both writes are
    accepted. *)
Definition cancelEnvAt (now : Date) : CancelEnv :=
  mkCancelEnv now now now now true true.

(** ** Release vocabulary *)

(** What the specification asks of a release on a screening state: if every
    released seat is already available or absent from the screening, the
    state is left as it is. *)
Definition releaseOfFreeIsNoOp (seats : list Seat.t) (d : Showtime.t) : Prop :=
  (forall k, In k seats ->
     flagOf k (Showtime.availableSeats d) = Some true
     \/ flagOf k (Showtime.availableSeats d) = None) ->
  releaseSeats seats d = d.

(** The sample screening with two stale claim records: one on A1, which is
    flagged available, and one on B7, which the screening does not have; and
    the body of an update that writes them. *)
Definition screeningStale : Showtime.t :=
  Showtime.mk 1 100 200 (19 * hour) (21 * hour) 10
    [AvailableSeat.mk "A" 1 regular 10 true;
     AvailableSeat.mk "A" 2 regular 10 true]
    [ReservedSeat.mk "A" 1 10 (8 * hour); ReservedSeat.mk "B" 7 10 (8 * hour)]
    true.

Definition staleClaims : UpdateData :=
  mkUpdateData None None None None None None
    (Some [ReservedSeat.mk "A" 1 10 (8 * hour); ReservedSeat.mk "B" 7 10 (8 * hour)])
    None.

(** ** Check-in vocabulary *)

Definition minute : Z := 60 * 1000.

(** [now] lies in the check-in window of a screening that starts at
    [start]: from two hours before to thirty minutes after. *)
Definition inCheckInWindow (start now : Date) : Prop :=
  start - 2 * hour <= now /\ now <= start + 30 * minute.

(** The two answers that report a violation of the check-in window. *)
Definition isWindowViolation (resp : Response) : bool :=
  match resp with
  | Fail _ error _ =>
      String.eqb error "Too early for check-in"
      || String.eqb error "Too late for check-in"
  | Json _ _ => false
  end.

(** What the specification asks of a check-in outside the window: a window
    violation, whatever the status of the reservation. *)
Definition windowViolationOutside (env : CheckInEnv) (id : ObjectId) (st : Store)
  : Prop :=
  forall r sh,
    findById Reservation._id id (reservations st) = Some r ->
    findById Showtime._id (Reservation.showtime r) (showtimes st) = Some sh ->
    ~ inCheckInWindow (Showtime.startTime sh) (checkInNow env) ->
    isWindowViolation (snd (checkInReservation env id st)) = true.

(** Both clock readings of a check-in are [now]; the write is accepted. *)
Definition checkInEnvAt (now : Date) : CheckInEnv := mkCheckInEnv now now true.

(** ** Lifecycle vocabulary *)

(** The terminal states of the lifecycle. *)
Definition terminal (status : string) : bool :=
  String.eqb status "cancelled" || String.eqb status "completed"
  || String.eqb status "no_show".

(** What the specification asks of an administrative status update on a
    reservation in a terminal state: a refusal, and the stored status of
    before. *)
Definition terminalIsFinal (accepted : bool) (id : ObjectId) (target : string)
    (st : Store) : Prop :=
  forall r,
    findById Reservation._id id (reservations st) = Some r ->
    terminal (Reservation.status r) = true ->
    (exists code error info,
        snd (updateReservationStatus accepted id target st) = Fail code error info)
    /\ option_map Reservation.status
         (findById Reservation._id id
            (reservations (fst (updateReservationStatus accepted id target st))))
       = Some (Reservation.status r).

(** ** Scheduling vocabulary *)

(** Half-open overlap of [[s, e)] and [[s2, e2)]. *)
Definition overlaps (s e s2 e2 : Date) : Prop := s < e2 /\ s2 < e.

(** The screening [o] is an active screening of the theater whose window
    overlaps [[s, e)]. *)
Definition collides (theater : ObjectId) (s e : Date) (o : Showtime.t) : Prop :=
  Showtime.theater o = theater
  /\ Showtime.isActive o = true
  /\ overlaps s e (Showtime.startTime o) (Showtime.endTime o).

(** The clock reads 09:00, the new screening is numbered 2, the write is
    accepted. *)
Definition showtimeEnv : ShowtimeEnv := mkShowtimeEnv (9 * hour) 2 true.

(** A request for the theater of the sample screening. *)
Definition requestAt (s e : Date) : ShowtimeRequest :=
  mkShowtimeRequest 100 200 s e 10.

(** A second screening in the same theater, from 22:00 to 23:00. *)
Definition screeningLate : Showtime.t :=
  Showtime.mk 2 100 200 (22 * hour) (23 * hour) 10 [] [] true.

Definition storeTwo : Store :=
  mkStore [screeningS; screeningLate] [] [Movie.mk 100 true] [theaterT].

(** An update that moves the window and nothing else. *)
Definition moveTo (s e : Date) : UpdateData :=
  mkUpdateData None None (Some s) (Some e) None None None None.

(** The sample screening with A1 held by V and A2 by U. *)
Definition screeningShared : Showtime.t :=
  Showtime.mk 1 100 200 (19 * hour) (21 * hour) 10
    [AvailableSeat.mk "A" 1 regular 10 false;
     AvailableSeat.mk "A" 2 regular 10 false]
    [ReservedSeat.mk "A" 1 20 (8 * hour); ReservedSeat.mk "A" 2 10 (8 * hour)]
    true.

(** * The rest of the models and controllers *)

(** ** Virtuals of the showtime schema *)

(** [this.availableSeats.filter(seat => seat.isAvailable).length] *)
Definition availableSeatsCount (d : Showtime.t) : nat :=
  List.length (filter AvailableSeat.isAvailable (Showtime.availableSeats d)).

(** [this.reservedSeats.length] *)
Definition reservedSeatsCount (d : Showtime.t) : nat :=
  List.length (Showtime.reservedSeats d).

(** [this.availableSeats.length] *)
Definition totalCapacity (d : Showtime.t) : nat :=
  List.length (Showtime.availableSeats d).

(** [Math.round(x)]: the integer nearest to [x], halves going up. *)
Definition mathRound (x : Q) : Z := Qfloor (x + 0.5)%Q.

(** The virtual [occupancyPercentage]. *)
Definition occupancyPercentage (d : Showtime.t) : Z :=
  if (totalCapacity d =? 0)%nat then 0
  else mathRound
         ((inject_Z (Z.of_nat (reservedSeatsCount d))
           / inject_Z (Z.of_nat (totalCapacity d))) * 100)%Q.

(** The virtual [duration]: [Math.ceil((endTime - startTime) / (1000 * 60))]. *)
Definition duration (d : Showtime.t) : Z :=
  Qceiling (inject_Z (Showtime.endTime d - Showtime.startTime d)
            / inject_Z (1000 * 60))%Q.

(** The virtual [isPast]; [now] is its [new Date()]. *)
Definition isPast (now : Date) (d : Showtime.t) : bool :=
  Showtime.startTime d <? now.

(** The virtual [isStartingSoon]. *)
Definition isStartingSoon (now : Date) (d : Showtime.t) : bool :=
  let thirtyMinutesFromNow := now + 30 * 60 * 1000 in
  (Showtime.startTime d <=? thirtyMinutesFromNow) && (now <? Showtime.startTime d).

(** [price || 0] on the answer of [getSeatPrice]: a missing price and a
    price of zero both give zero. *)
Definition priceOrZero (price : option Q) : Q :=
  match price with
  | Some p => if Qeq_bool p 0 then 0%Q else p
  | None => 0%Q
  end.

(** [showtime.calculateTotalPrice(seats)] *)
Definition calculateTotalPrice (seats : list Seat.t) (d : Showtime.t) : Q :=
  fold_left (fun total seat => (total + priceOrZero (getSeatPrice seat d))%Q)
            seats 0%Q.

(** ** Virtuals of the reservation schema *)

(** [this.seats.length] *)
Definition seatCount (r : Reservation.t) : nat := List.length (Reservation.seats r).

(** The virtual [isEditable]; [populated] and [now] as for [isCancellable]. *)
Definition isEditable (populated : option Showtime.t) (now : Date)
    (r : Reservation.t) : bool :=
  if negb (String.eqb (Reservation.status r) "confirmed") then false
  else match populated with
       | Some sh =>
           let twentyFourHoursFromNow := now + 24 * 60 * 60 * 1000 in
           twentyFourHoursFromNow <? Showtime.startTime sh
       | None => true
       end.

(** ** [theaterSchema.methods.generateSeats] *)

(** [String.fromCharCode(65 + i)], for the codes below 256. *)
Definition rowName (i : nat) : string :=
  String (ascii_of_nat (65 + i)) EmptyString.

(** The class that the inner loop gives seat [j] of row [i]: premium in the
    first two rows, vip for the seats 4 to 7 of the first row, regular
    elsewhere. *)
Definition generatedType (i : nat) (j : Z) : SeatType :=
  let seatType := regular in
  let seatType := if (i <? 2)%nat then premium else seatType in
  if (i =? 0)%nat && (4 <=? j) && (j <=? 7) then vip else seatType.

(** The inner loop: the seats 1 to [seatsInThisRow] of row [i]. *)
Definition generatedRow (capacity : Z) (i : nat) : list TheaterSeat.t :=
  let seatsPerRow := 10 in
  let seatsInThisRow := Z.min seatsPerRow (capacity - Z.of_nat i * seatsPerRow) in
  map (fun j => TheaterSeat.mk (rowName i) (Z.of_nat j)
                  (generatedType i (Z.of_nat j)) true)
      (seq 1 (Z.to_nat seatsInThisRow)).

(** [theater.generateSeats()]: the value it assigns to [this.seats], from
    [this.capacity]. *)
Definition generateSeats (capacity : Z) : list TheaterSeat.t :=
  let seatsPerRow := 10 in
  let rows := Qceiling (inject_Z capacity / inject_Z seatsPerRow)%Q in
  flat_map (generatedRow capacity) (seq 0 (Z.to_nat rows)).

(** The pre-save hook of the theater schema, on a theater of the given
    capacity. *)
Definition theaterPreSave (capacity : Z) (th : Theater.t) : Theater.t :=
  if (List.length (Theater.seats th) =? 0)%nat && (0 <? capacity)
  then Theater.mk (Theater._id th) (Theater.isActive th) (generateSeats capacity)
         (Theater.priceMultiplier th)
  else th.

(** [theater.getSeat(row, number)] *)
Definition getSeat (row : string) (number : Z) (th : Theater.t)
  : option TheaterSeat.t :=
  find (fun seat => String.eqb (TheaterSeat.row seat) row
                    && (TheaterSeat.number seat =? number))
       (Theater.seats th).

(** ** Handlers that answer without a reservation or showtime body *)

(** [res.status(code).json(...)] of the handlers below: a success with
    what it carries, or a failure with its [error] field. *)
Inductive Reply (A : Type) :=
| Done (code : Z) (a : A)
| Refused (code : Z) (error : string).

Arguments Done {A} code a.
Arguments Refused {A} code error.

(** *** [deleteShowtime] *)

(** The filter of [Reservation.countDocuments]:
    [{ showtime: id, status: { $in: ['pending', 'confirmed'] } }]. *)
Definition activeReservationOf (id : ObjectId) (r : Reservation.t) : bool :=
  (Reservation.showtime r =? id)
  && (String.eqb (Reservation.status r) "pending"
      || String.eqb (Reservation.status r) "confirmed").

Definition deleteShowtime (accepted : bool) (now : Date) (id : ObjectId)
    (st : Store) : Store * Reply unit :=
  match findById Showtime._id id (showtimes st) with
  | None => (st, Refused 404 "Showtime not found")
  | Some showtime =>
      let reservationCount :=
        List.length (filter (activeReservationOf id) (reservations st)) in
      if (0 <? reservationCount)%nat
      then (st, Refused 400 "Cannot delete showtime")
      else
        match saveShowtime accepted now (Showtime.withActive false showtime) st with
        | inl _ => (st, Refused 500 "Failed to delete showtime")
        | inr st1 => (st1, Done 200 tt)
        end
  end.

(** *** [getAvailableSeats] *)

(** The [seats] object of the answer. *)
Record SeatMap := mkSeatMap {
  mapAvailable : list AvailableSeat.t;
  mapReserved : list ReservedSeat.t;
  mapTotalCapacity : nat;
  mapAvailableCount : nat;
  mapReservedCount : nat
}.

Definition getAvailableSeats (now : Date) (id : ObjectId) (st : Store)
  : Reply SeatMap :=
  match findById Showtime._id id (showtimes st) with
  | None => Refused 404 "Showtime not found"
  | Some showtime =>
      if negb (Showtime.isActive showtime) then Refused 400 "Showtime inactive"
      else if Showtime.startTime showtime <? now
      then Refused 400 "Showtime has started"
      else Done 200
             (mkSeatMap
                (filter AvailableSeat.isAvailable (Showtime.availableSeats showtime))
                (Showtime.reservedSeats showtime)
                (totalCapacity showtime)
                (availableSeatsCount showtime)
                (reservedSeatsCount showtime))
  end.

(** *** [getShowtimeById]; [user] is [req.user], absent for an anonymous
    caller. *)
Definition getShowtimeById (user : option User) (id : ObjectId) (st : Store)
  : Reply Showtime.t :=
  match findById Showtime._id id (showtimes st) with
  | None => Refused 404 "Showtime not found"
  | Some showtime =>
      if negb (Showtime.isActive showtime)
         && match user with
            | None => true
            | Some u => negb (String.eqb (role u) "admin")
            end
      then Refused 404 "Showtime not found"
      else Done 200 showtime
  end.

(** ** The middleware [requireReservationAccess] and the routes behind it *)

(** [next()] or the answer of the middleware. *)
Inductive Gate :=
| Next
| Stop (code : Z) (error : string).

(** [id] is [req.params.id], which may be missing. *)
Definition requireReservationAccess (user : option User) (id : option ObjectId)
    (st : Store) : Gate :=
  match user with
  | None => Stop 401 "Authentication required"
  | Some u =>
      if String.eqb (role u) "admin" then Next
      else
        match id with
        | None => Next
        | Some reservationId =>
            match findById Reservation._id reservationId (reservations st) with
            | None => Stop 404 "Reservation not found"
            | Some reservation =>
                if negb (Reservation.user reservation =? uid u)
                then Stop 403 "Access denied"
                else Next
            end
        end
  end.

(** [router.put('/:id/checkin', authenticateToken, validateObjectId('id'),
    requireReservationAccess, checkInReservation)], from the authenticated
    user on. *)
Definition checkInRoute (env : CheckInEnv) (user : User) (id : ObjectId)
    (st : Store) : Store * Response :=
  match requireReservationAccess (Some user) (Some id) st with
  | Stop code error => (st, Fail code error NoInfo)
  | Next => checkInReservation env id st
  end.

(** [router.put('/:id/cancel', ..., requireReservationAccess,
    cancelReservation)], from the authenticated user on. *)
Definition cancelRoute (env : CancelEnv) (user : User) (id : ObjectId)
    (reason : option string) (st : Store) : Store * Response :=
  match requireReservationAccess (Some user) (Some id) st with
  | Stop code error => (st, Fail code error NoInfo)
  | Next => cancelReservation env id reason user st
  end.

(** ** Vocabulary of the further statements *)

(** The inventory with the flag of every seat named by [seats] set to
    [b]. *)
Definition flagAll (b : bool) (seats : list Seat.t) (av : list AvailableSeat.t)
  : list AvailableSeat.t :=
  map (fun s => if existsb (fun k => sameSeat k s) seats
                then AvailableSeat.setAvailable b s else s) av.

(** No two documents of the collection share an [_id]. *)
Definition uniqueIds (coll : list Showtime.t) : Prop :=
  NoDup (map Showtime._id coll).

(** The key of a theater seat. *)
Definition keyOfTheaterSeat (s : TheaterSeat.t) : Seat.t :=
  Seat.mk (TheaterSeat.row s) (TheaterSeat.number s).

(** The sum of the captured prices of a reservation. *)
Definition sumOfPrices (seats : list ReservationSeat.t) : Q :=
  fold_left (fun t c => (t + ReservationSeat.price c)%Q) seats 0%Q.

(** The answer is a success. *)
Definition isJson (resp : Response) : bool :=
  match resp with
  | Json _ _ => true
  | Fail _ _ _ => false
  end.

(** The answer of a call whose claim has been written and whose reservation
    is refused by its validation. *)
Definition claimedThenRefused : Response :=
  Fail 400 "Seat reservation failed" (Thrown NumberRequired).

(** The store in which the stored screening [doc] is rewritten with the
    seats of the request claimed for the caller. *)
Definition claimedStore (env : BookingEnv) (req : Booking) (user : User)
    (doc : Showtime.t) (st : Store) : Store :=
  setShowtimes
    (replaceById Showtime._id
       (fst (reserveSeats (bookingSeats req) (uid user) (bookingNow env) doc))
       (showtimes st)) st.

(** What a seat record is apart from its flag: key, class and price. *)
Definition seatIdentity (s : AvailableSeat.t) : Seat.t * SeatType * Q :=
  (keyOfSeat s, AvailableSeat.type s, AvailableSeat.price s).

(** Two screenings clash: both are active, in the same theater, and their
    windows overlap. *)
Definition clash (a b : Showtime.t) : Prop :=
  Showtime.theater a = Showtime.theater b
  /\ Showtime.isActive a = true
  /\ Showtime.isActive b = true
  /\ overlaps (Showtime.startTime a) (Showtime.endTime a)
       (Showtime.startTime b) (Showtime.endTime b).

(** No two screenings of the collection clash. *)
Definition conflictFree (coll : list Showtime.t) : Prop :=
  ForallOrdPairs (fun a b => ~ clash a b) coll.

(** The two documents are the same screening on the schedule: same [_id],
    movie, theater, window, base price and active flag. *)
Definition sameSchedule (a b : Showtime.t) : Prop :=
  Showtime._id a = Showtime._id b
  /\ Showtime.movie a = Showtime.movie b
  /\ Showtime.theater a = Showtime.theater b
  /\ Showtime.startTime a = Showtime.startTime b
  /\ Showtime.endTime a = Showtime.endTime b
  /\ (Showtime.basePrice a = Showtime.basePrice b)
  /\ Showtime.isActive a = Showtime.isActive b.

(** What a handler on reservations may do to a stored screening: nothing
    to its place on the schedule, and nothing at all unless it is the
    screening [id]. *)
Definition touchesOnlySeatsOf (id : ObjectId) (before after : Showtime.t) : Prop :=
  sameSchedule before after /\ (Showtime._id before <> id -> before = after).

(** The books of a screening are in order: seat keys are unique, no key
    carries two claim records, and the keys under a claim record are the
    keys of the seats flagged unavailable. *)
Definition accounted (d : Showtime.t) : Prop :=
  uniqueKeys (Showtime.availableSeats d)
  /\ NoDup (map keyOfClaim (Showtime.reservedSeats d))
  /\ forall k, In k (map keyOfClaim (Showtime.reservedSeats d))
               <-> exists s, In s (Showtime.availableSeats d)
                             /\ keyOfSeat s = k
                             /\ AvailableSeat.isAvailable s = false.

(** ** Further sample data *)

(** The booking of U on the sample store: the request, the reservation
    that the handler builds and the store that the call leaves. *)
Definition bookingOfU : Booking := mkBooking 1 [seatA1; seatA2].

Definition reservationBuilt : NewReservation.t :=
  NewReservation.mk
    (Reservation.mk 501 10 1
       [ReservationSeat.mk "A" 1 regular 10; ReservationSeat.mk "A" 2 regular 10]
       (0 + 10 + 10)%Q (0 + 10 + 10)%Q "pending" None None None None)
    None.

Definition storeClaimed : Store :=
  claimedStore (bookingEnv 501 true) bookingOfU userU screeningS storeS.

(** A second screening in the theater of the sample screening, from 20:00
    to 22:00, inactive; and a body that sets [isActive] and nothing else. *)
Definition screeningDormant : Showtime.t :=
  Showtime.mk 2 100 200 (20 * hour) (22 * hour) 10 [] [] false.

Definition storeDormant : Store :=
  mkStore [screeningS; screeningDormant] [] [Movie.mk 100 true] [theaterT].

Definition reactivate : UpdateData :=
  mkUpdateData None None None None None None None (Some true).

(** A theater of 25 places with generated seats. *)
Definition theaterGenerated : Theater.t :=
  Theater.mk 300 true (generateSeats 25)
    (fun ty => match ty with regular => 1 | premium => 1.5 | vip => 2 end)%Q.

(** * Proofs *)

(** ** Arrays: [find] after an in-place update *)

Section ArrayFacts.
Context {A : Type}.
Variables (p : A -> bool) (f : A -> A).

Lemma updFirst_none (l : list A) :
  find p l = None -> updFirst p f l = l.
Proof.
  induction l as [|x rest IH]; simpl; [reflexivity|].
  destruct (p x); [discriminate|].
  intros H. now rewrite IH.
Qed.

Lemma updFirst_fixed (l : list A) :
  (forall x, find p l = Some x -> f x = x) -> updFirst p f l = l.
Proof.
  induction l as [|x rest IH]; simpl; [reflexivity|].
  destruct (p x).
  - intros H. now rewrite (H x eq_refl).
  - intros H. now rewrite IH.
Qed.

Lemma updFirst_length (l : list A) :
  List.length (updFirst p f l) = List.length l.
Proof.
  induction l as [|x rest IH]; simpl; [reflexivity|].
  destruct (p x); simpl; congruence.
Qed.

Lemma updFirst_map {B : Type} (g : A -> B) (l : list A) :
  (forall x, g (f x) = g x) -> map g (updFirst p f l) = map g l.
Proof.
  intros Hg. induction l as [|x rest IH]; simpl; [reflexivity|].
  destruct (p x); simpl; congruence.
Qed.

Lemma find_all_false (l : list A) :
  (forall x, In x l -> p x = false) -> find p l = None.
Proof.
  induction l as [|x rest IH]; simpl; intros H; [reflexivity|].
  rewrite (H x (or_introl eq_refl)). apply IH. intros y Hy. apply H. now right.
Qed.

End ArrayFacts.

(** ** Seat keys *)

Lemma sameSeat_key (k : Seat.t) (s : AvailableSeat.t) :
  sameSeat k s = true <-> keyOfSeat s = k.
Proof.
  unfold sameSeat, keyOfSeat. rewrite andb_true_iff, String.eqb_eq, Z.eqb_eq.
  destruct k as [r n]; simpl. split.
  - intros [-> ->]. reflexivity.
  - intros H. injection H. auto.
Qed.

Lemma sameClaim_key (k : Seat.t) (c : ReservedSeat.t) :
  sameClaim k c = true <-> keyOfClaim c = k.
Proof.
  unfold sameClaim, keyOfClaim. rewrite andb_true_iff, String.eqb_eq, Z.eqb_eq.
  destruct k as [r n]; simpl. split.
  - intros [-> ->]. reflexivity.
  - intros H. injection H. auto.
Qed.

Lemma sameSeat_setAvailable (k : Seat.t) (b : bool) (s : AvailableSeat.t) :
  sameSeat k (AvailableSeat.setAvailable b s) = sameSeat k s.
Proof. reflexivity. Qed.

Lemma setAvailable_same (s : AvailableSeat.t) :
  AvailableSeat.setAvailable (AvailableSeat.isAvailable s) s = s.
Proof. now destruct s. Qed.

Lemma setAvailable_twice (b : bool) (s : AvailableSeat.t) :
  AvailableSeat.setAvailable b (AvailableSeat.setAvailable b s)
  = AvailableSeat.setAvailable b s.
Proof. reflexivity. Qed.

(** Setting the flag of some first match leaves the record that [find]
    returns for key [k] in place, with its flag set or untouched. *)
Lemma find_key_updFirst (p : AvailableSeat.t -> bool) (b : bool) (k : Seat.t)
    (l : list AvailableSeat.t) :
  find (sameSeat k) (updFirst p (AvailableSeat.setAvailable b) l)
    = find (sameSeat k) l
  \/ exists s, find (sameSeat k) l = Some s
               /\ find (sameSeat k) (updFirst p (AvailableSeat.setAvailable b) l)
                  = Some (AvailableSeat.setAvailable b s).
Proof.
  induction l as [|x rest IH]; simpl; [now left|].
  destruct (p x) eqn:Hp; simpl.
  - rewrite sameSeat_setAvailable. destruct (sameSeat k x).
    + right. now exists x.
    + now left.
  - destruct (sameSeat k x); [now left | exact IH].
Qed.

(** Releasing key [k] sets the flag of the record found for [k]. *)
Lemma find_key_release (b : bool) (k : Seat.t) (l : list AvailableSeat.t) :
  find (sameSeat k) (updFirst (sameSeat k) (AvailableSeat.setAvailable b) l)
  = option_map (AvailableSeat.setAvailable b) (find (sameSeat k) l).
Proof.
  induction l as [|x rest IH]; simpl; [reflexivity|].
  destruct (sameSeat k x) eqn:Hx; simpl.
  - now rewrite sameSeat_setAvailable, Hx.
  - now rewrite Hx.
Qed.

(** Claiming key [k] leaves the record found for [k] flagged unavailable:
    either it was the available record that the claim flipped, or it was
    unavailable before. *)
Lemma find_key_claim (k : Seat.t) (l : list AvailableSeat.t) (s : AvailableSeat.t) :
  find (sameSeatAvailable k) l = Some s ->
  exists u, find (sameSeat k) l = Some u
            /\ find (sameSeat k)
                 (updFirst (sameSeatAvailable k) (AvailableSeat.setAvailable false) l)
               = Some (AvailableSeat.setAvailable false u).
Proof.
  unfold sameSeatAvailable.
  induction l as [|x rest IH]; simpl; [discriminate|].
  destruct (sameSeat k x) eqn:Hx; simpl.
  - destruct (AvailableSeat.isAvailable x) eqn:Ha; simpl.
    + intros _. exists x. now rewrite sameSeat_setAvailable, Hx.
    + intros _. exists x. rewrite Hx. split; [reflexivity|].
      now rewrite <- Ha, setAvailable_same.
  - rewrite Hx. exact IH.
Qed.

(** ** [releaseSeats] *)

Lemma releaseSeats_cons (k : Seat.t) (seats : list Seat.t) (d : Showtime.t) :
  releaseSeats (k :: seats) d = releaseSeats seats (releaseOne k d).
Proof. reflexivity. Qed.

Lemma releaseSeats_app (l1 l2 : list Seat.t) (d : Showtime.t) :
  releaseSeats (l1 ++ l2) d = releaseSeats l2 (releaseSeats l1 d).
Proof. unfold releaseSeats. apply fold_left_app. Qed.

(** The claim records after a release are the records whose key is none of
    the released keys. *)
Lemma releaseSeats_reserved (seats : list Seat.t) (d : Showtime.t) :
  Showtime.reservedSeats (releaseSeats seats d)
  = filter (fun c => negb (existsb (fun k => sameClaim k c) seats))
           (Showtime.reservedSeats d).
Proof.
  revert d. induction seats as [|k rest IH]; intros d.
  - simpl. induction (Showtime.reservedSeats d) as [|c l IHl]; simpl; congruence.
  - rewrite releaseSeats_cons, IH. simpl.
    induction (Showtime.reservedSeats d) as [|c l IHl]; simpl; [reflexivity|].
    destruct (sameClaim k c); simpl; [exact IHl|].
    destruct (existsb (fun k0 => sameClaim k0 c) rest); simpl; congruence.
Qed.

(** A release sets flags to available and does nothing else to the record
    found for a key. *)
Lemma releaseSeats_find (seats : list Seat.t) (k : Seat.t) (d : Showtime.t) :
  find (sameSeat k) (Showtime.availableSeats (releaseSeats seats d))
    = find (sameSeat k) (Showtime.availableSeats d)
  \/ exists s, find (sameSeat k) (Showtime.availableSeats d) = Some s
               /\ find (sameSeat k) (Showtime.availableSeats (releaseSeats seats d))
                  = Some (AvailableSeat.setAvailable true s).
Proof.
  revert d. induction seats as [|k1 rest IH]; intros d; [now left|].
  rewrite releaseSeats_cons.
  destruct (find_key_updFirst (sameSeat k1) true k (Showtime.availableSeats d))
    as [Hsame | [s [Hs Hset]]];
    destruct (IH (releaseOne k1 d)) as [H1 | [s1 [Hs1 H1]]]; simpl in *.
  - left. congruence.
  - right. exists s1. split; congruence.
  - right. exists s. split; congruence.
  - right. exists s. split; [assumption|].
    rewrite H1. rewrite Hset in Hs1. injection Hs1 as <-. reflexivity.
Qed.

Lemma releaseSeats_find_released (seats : list Seat.t) (k : Seat.t) (d : Showtime.t) :
  In k seats ->
  find (sameSeat k) (Showtime.availableSeats (releaseSeats seats d))
  = option_map (AvailableSeat.setAvailable true)
      (find (sameSeat k) (Showtime.availableSeats d)).
Proof.
  intros Hin. apply in_split in Hin. destruct Hin as [l1 [l2 ->]].
  rewrite releaseSeats_app, releaseSeats_cons.
  set (d1 := releaseSeats l1 d).
  assert (Hk : find (sameSeat k) (Showtime.availableSeats (releaseOne k d1))
               = option_map (AvailableSeat.setAvailable true)
                   (find (sameSeat k) (Showtime.availableSeats d))).
  { simpl. rewrite find_key_release.
    destruct (releaseSeats_find l1 k d) as [H | [s [Hs H]]]; fold d1 in H.
    - now rewrite H.
    - rewrite H, Hs. reflexivity. }
  destruct (releaseSeats_find l2 k (releaseOne k d1)) as [H | [s [Hs H]]].
  - congruence.
  - rewrite H. rewrite Hk in Hs.
    destruct (find (sameSeat k) (Showtime.availableSeats d)); simpl in *;
      [|discriminate].
    injection Hs as <-. reflexivity.
Qed.

Lemma withSeats_same (d : Showtime.t) :
  Showtime.withSeats (Showtime.availableSeats d) (Showtime.reservedSeats d) d = d.
Proof. now destruct d. Qed.

Lemma filter_keeps_all {A : Type} (q : A -> bool) (l : list A) :
  (forall x, In x l -> q x = true) -> filter q l = l.
Proof.
  induction l as [|x rest IH]; simpl; intros H; [reflexivity|].
  rewrite (H x (or_introl eq_refl)). f_equal. apply IH. intros y Hy. apply H. now right.
Qed.

(** Releasing seats that carry no claim record and are not flagged
    unavailable changes nothing. *)
Lemma releaseSeats_noop (seats : list Seat.t) (d : Showtime.t) :
  (forall k, In k seats ->
     (forall c, In c (Showtime.reservedSeats d) -> sameClaim k c = false)
     /\ flagOf k (Showtime.availableSeats d) <> Some false) ->
  releaseSeats seats d = d.
Proof.
  induction seats as [|k rest IH]; intros H; [reflexivity|].
  rewrite releaseSeats_cons.
  assert (Hone : releaseOne k d = d).
  { destruct (H k (or_introl eq_refl)) as [Hclaims Hflag].
    unfold releaseOne. rewrite updFirst_fixed, filter_keeps_all.
    - apply withSeats_same.
    - intros c Hc. now rewrite (Hclaims c Hc).
    - intros x Hx. unfold flagOf in Hflag. rewrite Hx in Hflag. simpl in Hflag.
      destruct (AvailableSeat.isAvailable x) eqn:Ha; [|congruence].
      now rewrite <- Ha, setAvailable_same. }
  rewrite Hone. apply IH. intros k1 Hk1. apply H. now right.
Qed.

Lemma releaseSeats_idempotent (seats : list Seat.t) (d : Showtime.t) :
  releaseSeats seats (releaseSeats seats d) = releaseSeats seats d.
Proof.
  apply releaseSeats_noop. intros k Hk. split.
  - intros c Hc. rewrite releaseSeats_reserved in Hc.
    apply filter_In in Hc. destruct Hc as [_ Hc].
    apply negb_true_iff in Hc.
    destruct (sameClaim k c) eqn:Hkc; [|reflexivity].
    assert (Hex : existsb (fun k0 => sameClaim k0 c) seats = true)
      by (apply existsb_exists; now exists k).
    congruence.
  - unfold flagOf. rewrite (releaseSeats_find_released seats k d Hk).
    destruct (find (sameSeat k) (Showtime.availableSeats d)); simpl; congruence.
Qed.

(** A seat that no released key names keeps the record found for it. *)
Lemma find_key_updFirst_other (b : bool) (k k1 : Seat.t) (l : list AvailableSeat.t) :
  k <> k1 ->
  find (sameSeat k) (updFirst (sameSeat k1) (AvailableSeat.setAvailable b) l)
  = find (sameSeat k) l.
Proof.
  intros Hne. induction l as [|x rest IH]; simpl; [reflexivity|].
  destruct (sameSeat k1 x) eqn:H1; simpl.
  - rewrite sameSeat_setAvailable.
    destruct (sameSeat k x) eqn:Hx; [|reflexivity].
    apply sameSeat_key in H1. apply sameSeat_key in Hx. congruence.
  - destruct (sameSeat k x); [reflexivity | exact IH].
Qed.

Lemma releaseSeats_find_other (seats : list Seat.t) (k : Seat.t) (d : Showtime.t) :
  ~ In k seats ->
  find (sameSeat k) (Showtime.availableSeats (releaseSeats seats d))
  = find (sameSeat k) (Showtime.availableSeats d).
Proof.
  revert d. induction seats as [|k1 rest IH]; intros d Hnot; [reflexivity|].
  rewrite releaseSeats_cons, IH by (intros Hin; apply Hnot; now right).
  simpl. apply find_key_updFirst_other. intros ->. apply Hnot. now left.
Qed.

(** [releaseSeats] keeps the flags and the claim records in agreement. *)
Lemma releaseSeats_consistent (seats : list Seat.t) (d : Showtime.t) :
  consistent d -> consistent (releaseSeats seats d).
Proof.
  intros Hc c Hin. rewrite releaseSeats_reserved in Hin.
  apply filter_In in Hin. destruct Hin as [Hin Hkeep].
  unfold flagOf. rewrite releaseSeats_find_other.
  - exact (Hc c Hin).
  - intros Hk. apply negb_true_iff in Hkeep.
    assert (Hex : existsb (fun k0 => sameClaim k0 c) seats = true).
    { apply existsb_exists. exists (keyOfClaim c). split; [assumption|].
      now apply sameClaim_key. }
    congruence.
Qed.

(** C9, as the code has it.  [releaseSeats] is total and idempotent.  It
    is a function from documents to documents with no exception in its
    result, so it answers on every screening state and every list of seat
    keys; releasing the same keys a second time leaves the state that the
    first release produced; and on a state whose flags agree with its claim
    records, releasing seats that are already available or absent from the
    screening returns the state unchanged. *)
Theorem releaseSeats_idempotent_total :
  forall (seats : list Seat.t) (d : Showtime.t),
    (exists d', releaseSeats seats d = d')
    /\ releaseSeats seats (releaseSeats seats d) = releaseSeats seats d
    /\ (consistent d ->
        (forall k, In k seats ->
           flagOf k (Showtime.availableSeats d) = Some true
           \/ flagOf k (Showtime.availableSeats d) = None) ->
        releaseSeats seats d = d).
Proof.
  intros seats d. split; [eexists; reflexivity|].
  split; [apply releaseSeats_idempotent|].
  intros Hcons Hfree. apply releaseSeats_noop. intros k Hk. split.
  - intros c Hc. destruct (sameClaim k c) eqn:Hkc; [|reflexivity].
    apply sameClaim_key in Hkc. specialize (Hcons c Hc). rewrite Hkc in Hcons.
    destruct (Hfree k Hk) as [H | H]; congruence.
  - destruct (Hfree k Hk) as [H | H]; congruence.
Qed.

(** C10.  [releaseSeats] matches claim records by row and number only.
    Whoever holds the claim [c] on a released key [k], the record is gone
    after the release, no claim record on [k] is left, and the seat found
    for [k] is flagged available. *)
Theorem releaseSeats_ignores_holder :
  forall (seats : list Seat.t) (d : Showtime.t) (k : Seat.t) (c : ReservedSeat.t),
    In k seats ->
    In c (Showtime.reservedSeats d) ->
    keyOfClaim c = k ->
    ~ In c (Showtime.reservedSeats (releaseSeats seats d))
    /\ (forall c', In c' (Showtime.reservedSeats (releaseSeats seats d)) ->
                   keyOfClaim c' <> k)
    /\ (forall s, find (sameSeat k) (Showtime.availableSeats d) = Some s ->
                  find (sameSeat k) (Showtime.availableSeats (releaseSeats seats d))
                  = Some (AvailableSeat.setAvailable true s)).
Proof.
  intros seats d k c Hk Hc Hkey.
  assert (Hgone : forall c', In c' (Showtime.reservedSeats (releaseSeats seats d)) ->
                             keyOfClaim c' <> k).
  { intros c' Hin Heq. rewrite releaseSeats_reserved in Hin.
    apply filter_In in Hin. destruct Hin as [_ Hkeep].
    apply negb_true_iff in Hkeep.
    assert (Hex : existsb (fun k0 => sameClaim k0 c') seats = true).
    { apply existsb_exists. exists k. split; [assumption|]. now apply sameClaim_key. }
    congruence. }
  split; [|split].
  - intros Hin. exact (Hgone c Hin Hkey).
  - exact Hgone.
  - intros s Hs. rewrite (releaseSeats_find_released seats k d Hk), Hs. reflexivity.
Qed.

(** ** [reserveSeats] *)

Lemma flagged_refl (b : bool) (o : option AvailableSeat.t) : flagged b o o.
Proof. now left. Qed.

Lemma flagged_trans (b : bool) (o1 o2 o3 : option AvailableSeat.t) :
  flagged b o1 o2 -> flagged b o2 o3 -> flagged b o1 o3.
Proof.
  intros [-> | [s [-> ->]]] [-> | [s' [Hs' ->]]].
  - now left.
  - right. now exists s'.
  - right. now exists s.
  - right. exists s. split; [reflexivity|]. injection Hs' as <-. reflexivity.
Qed.

Lemma flagged_set (b : bool) (s : AvailableSeat.t) (o : option AvailableSeat.t) :
  flagged b (Some (AvailableSeat.setAvailable b s)) o ->
  o = Some (AvailableSeat.setAvailable b s).
Proof. intros [-> | [s' [Hs' ->]]]; [reflexivity|]. injection Hs' as <-. reflexivity. Qed.

Lemma found_available_key (k : Seat.t) (av : list AvailableSeat.t)
    (s : AvailableSeat.t) :
  find (sameSeatAvailable k) av = Some s ->
  keyOfSeat s = k /\ AvailableSeat.isAvailable s = true.
Proof.
  intros H. apply find_some in H. destruct H as [_ H].
  unfold sameSeatAvailable in H. apply andb_true_iff in H.
  destruct H as [H1 H2]. split; [now apply sameSeat_key | assumption].
Qed.

(** What a run of the loop of [reserveSeats] that does not throw has done:
    it has made one claim record per requested seat, in request order, for
    the caller; the record found for each requested key is the former
    record with the flag cleared; every other key finds its former record,
    flag cleared or untouched; and the keys of the inventory are the same. *)
Lemma reserveLoop_done (seats : list Seat.t) (userId : ObjectId) (now : Date) :
  forall av acc av' claims,
    reserveLoop seats userId now av acc = (av', inr claims) ->
    claims = acc ++ map (claimFor userId now) seats
    /\ (forall k, In k seats ->
          exists s, find (sameSeat k) av = Some s
                    /\ find (sameSeat k) av' = Some (AvailableSeat.setAvailable false s))
    /\ (forall k, flagged false (find (sameSeat k) av) (find (sameSeat k) av'))
    /\ map keyOfSeat av' = map keyOfSeat av.
Proof.
  induction seats as [|k rest IH]; intros av acc av' claims H; simpl in H.
  - injection H as <- <-. rewrite app_nil_r.
    repeat split; try reflexivity.
    + intros k [].
    + intros k. apply flagged_refl.
  - destruct (find (sameSeatAvailable k) av) as [seat|] eqn:Hfind; [|discriminate].
    apply IH in H. destruct H as [Hclaims [Hreq [Hmono Hkeys]]].
    destruct (found_available_key _ _ _ Hfind) as [Hkey _].
    assert (Hstep : forall k0,
               flagged false (find (sameSeat k0) av)
                 (find (sameSeat k0)
                    (updFirst (sameSeatAvailable k)
                       (AvailableSeat.setAvailable false) av))).
    { intros k0.
      destruct (find_key_updFirst (sameSeatAvailable k) false k0 av) as [E | E].
      - left. exact E.
      - right. exact E. }
    split; [|split; [|split]].
    + rewrite Hclaims, <- app_assoc. simpl. do 2 f_equal.
      unfold claimFor. rewrite <- Hkey. reflexivity.
    + intros k0 [<- | Hin].
      * destruct (find_key_claim _ _ _ Hfind) as [u [Hu Hu']].
        exists u. split; [assumption|].
        apply (flagged_set false u). rewrite <- Hu'. apply Hmono.
      * destruct (Hreq k0 Hin) as [s1 [Hs1 Hs1']].
        destruct (Hstep k0) as [E | [s [Hs E]]].
        -- exists s1. split; congruence.
        -- exists s. split; [assumption|].
           rewrite Hs1'. rewrite E in Hs1. injection Hs1 as <-. reflexivity.
    + intros k0. eapply flagged_trans; [apply Hstep | apply Hmono].
    + rewrite Hkeys. apply updFirst_map. reflexivity.
Qed.

(** The same for the method. *)
Lemma reserveSeats_done (seats : list Seat.t) (userId : ObjectId) (now : Date)
    (d claimed : Showtime.t) (claims : list ReservedSeat.t) :
  reserveSeats seats userId now d = (claimed, inr claims) ->
  claims = map (claimFor userId now) seats
  /\ Showtime.reservedSeats claimed = Showtime.reservedSeats d ++ claims
  /\ (forall k, In k seats ->
        exists s, find (sameSeat k) (Showtime.availableSeats d) = Some s
                  /\ find (sameSeat k) (Showtime.availableSeats claimed)
                     = Some (AvailableSeat.setAvailable false s))
  /\ (forall k, flagged false (find (sameSeat k) (Showtime.availableSeats d))
                  (find (sameSeat k) (Showtime.availableSeats claimed)))
  /\ map keyOfSeat (Showtime.availableSeats claimed)
     = map keyOfSeat (Showtime.availableSeats d)
  /\ Showtime._id claimed = Showtime._id d
  /\ Showtime.startTime claimed = Showtime.startTime d
  /\ Showtime.endTime claimed = Showtime.endTime d
  /\ Showtime.isActive claimed = Showtime.isActive d.
Proof.
  unfold reserveSeats.
  destruct (reserveLoop seats userId now (Showtime.availableSeats d) [])
    as [av' [e | cl]] eqn:Hloop; [discriminate|].
  intros H. injection H as <- <-.
  apply reserveLoop_done in Hloop. destruct Hloop as [Hcl [Hreq [Hmono Hkeys]]].
  simpl in Hcl. simpl. repeat split; assumption || reflexivity.
Qed.

(** When [reserveSeats] throws, it has pushed no claim record, but the
    flags that its loop cleared before the throw stay cleared in the
    document it was called on. *)
Lemma reserveSeats_thrown (seats : list Seat.t) (userId : ObjectId) (now : Date)
    (d d' : Showtime.t) (e : Exn) :
  reserveSeats seats userId now d = (d', inl e) ->
  Showtime.reservedSeats d' = Showtime.reservedSeats d.
Proof.
  unfold reserveSeats.
  destruct (reserveLoop seats userId now (Showtime.availableSeats d) [])
    as [av' [e' | cl]]; [|discriminate].
  intros H. injection H as <- _. reflexivity.
Qed.

(** [reserveSeats] keeps the flags and the claim records in agreement. *)
Lemma reserveSeats_consistent (seats : list Seat.t) (userId : ObjectId) (now : Date)
    (d claimed : Showtime.t) (claims : list ReservedSeat.t) :
  consistent d ->
  reserveSeats seats userId now d = (claimed, inr claims) ->
  consistent claimed.
Proof.
  intros Hc H. apply reserveSeats_done in H.
  destruct H as [Hcl [Hres [Hreq [Hmono _]]]].
  intros c Hin. rewrite Hres in Hin. apply in_app_or in Hin. unfold flagOf.
  destruct Hin as [Hold | Hnew].
  - specialize (Hc c Hold). unfold flagOf in Hc.
    destruct (Hmono (keyOfClaim c)) as [-> | [s [Hs ->]]]; [exact Hc|].
    reflexivity.
  - rewrite Hcl in Hnew. apply in_map_iff in Hnew. destruct Hnew as [k [<- Hk]].
    destruct (Hreq k Hk) as [s [_ Hs]].
    replace (keyOfClaim (claimFor userId now k)) with k by now destruct k.
    now rewrite Hs.
Qed.

(** ** The collections *)

Section Collections.
Context {D : Type}.
Variable idOf : D -> ObjectId.

Lemma findById_id (id : ObjectId) (coll : list D) (d : D) :
  findById idOf id coll = Some d -> idOf d = id.
Proof.
  intros H. apply find_some in H. destruct H as [_ H]. now apply Z.eqb_eq.
Qed.

Lemma findById_In (id : ObjectId) (coll : list D) (d : D) :
  findById idOf id coll = Some d -> In d coll.
Proof. intros H. apply find_some in H. tauto. Qed.

(** A rewritten document is what [findById] returns afterwards. *)
Lemma findById_replaceById (coll : list D) (d d' : D) :
  findById idOf (idOf d') coll = Some d ->
  findById idOf (idOf d') (replaceById idOf d' coll) = Some d'.
Proof.
  unfold findById, replaceById.
  induction coll as [|x rest IH]; simpl; [discriminate|].
  destruct (idOf x =? idOf d') eqn:Hx; simpl.
  - intros _. now rewrite Z.eqb_refl.
  - rewrite Hx. exact IH.
Qed.

Lemma findById_replaced (id : ObjectId) (coll : list D) (d d' : D) :
  findById idOf id coll = Some d ->
  idOf d' = id ->
  findById idOf id (replaceById idOf d' coll) = Some d'.
Proof. intros H <-. now apply findById_replaceById with (d := d). Qed.

Lemma findById_replaceById_other (coll : list D) (d' : D) (id : ObjectId) :
  id <> idOf d' ->
  findById idOf id (replaceById idOf d' coll) = findById idOf id coll.
Proof.
  intros Hne. unfold findById, replaceById.
  induction coll as [|x rest IH]; simpl; [reflexivity|].
  destruct (idOf x =? idOf d') eqn:Hx; simpl.
  - apply Z.eqb_eq in Hx.
    destruct (idOf d' =? id) eqn:H1; [apply Z.eqb_eq in H1; congruence|].
    destruct (idOf x =? id) eqn:H2; [apply Z.eqb_eq in H2; congruence|].
    exact IH.
  - destruct (idOf x =? id); [reflexivity | exact IH].
Qed.

End Collections.

Lemma saveShowtime_written (accepted : bool) (now : Date) (d : Showtime.t)
    (st st1 : Store) :
  saveShowtime accepted now d st = inr st1 ->
  st1 = setShowtimes (replaceById Showtime._id d (showtimes st)) st
  /\ accepted = true.
Proof.
  unfold saveShowtime. destruct (showtimePreSave false now d); [discriminate|].
  destruct accepted; [|discriminate]. intros H. injection H as <-. now split.
Qed.

Lemma insertReservation_written (accepted : bool) (n : NewReservation.t)
    (st st1 : Store) :
  insertReservation accepted n st = inr st1 ->
  st1 = setReservations (reservations st ++ [NewReservation.fields n]) st
  /\ accepted = true.
Proof.
  unfold insertReservation. destruct (NewReservation.validate n); [discriminate|].
  destruct (Reservation.preSave (NewReservation.fields n)); [discriminate|].
  destruct accepted; [|discriminate]. intros H. injection H as <-. now split.
Qed.

(** The hook that generates the number finds nothing to do on a document
    that has passed the validation. *)
Lemma numberHook_after_validate (n : NewReservation.t) (generated : string) :
  NewReservation.validate n = None ->
  NewReservation.numberHook true generated n = n.
Proof.
  unfold NewReservation.validate, NewReservation.numberHook.
  destruct (NewReservation.reservationNumber n) as [number|]; [|discriminate].
  destruct (String.eqb number ""); [discriminate | reflexivity].
Qed.

(** ** [createReservation] *)

(** The reservation document that the handler builds. *)
Lemma claimPhaseWith_claimed (write : ShowtimeWrite) (env : BookingEnv)
    (req : Booking) (user : User) (loaded : option Showtime.t) (st st1 : Store)
    (n : NewReservation.t) :
  claimPhaseWith write env req user loaded st = (st1, inr n) ->
  exists doc rs tot claimed claims,
    loaded = Some doc
    /\ Showtime.isActive doc = true
    /\ bookingNow env < Showtime.startTime doc
    /\ unavailableSeats (bookingSeats req) (Showtime.availableSeats doc) = []
    /\ priceLoop (bookingSeats req) (Showtime.availableSeats doc) [] 0%Q
       = Some (rs, tot)
    /\ n = NewReservation.mk
             (Reservation.mk (newReservationId env) (uid user) (bookingShowtime req)
                rs tot tot "pending" None None None None)
             None
    /\ reserveSeats (bookingSeats req) (uid user) (bookingNow env) doc
       = (claimed, inr claims)
    /\ write doc claimed st = inr st1.
Proof.
  unfold claimPhaseWith. destruct loaded as [doc|]; [|discriminate].
  destruct (Showtime.isActive doc) eqn:Hact; simpl; [|discriminate].
  destruct (Showtime.startTime doc <=? bookingNow env) eqn:Hfut; [discriminate|].
  destruct (unavailableSeats (bookingSeats req) (Showtime.availableSeats doc))
    as [|u us] eqn:Hun; simpl; [|discriminate].
  destruct (priceLoop (bookingSeats req) (Showtime.availableSeats doc) [] 0%Q)
    as [[rs tot]|] eqn:Hprice; [|discriminate].
  destruct (reserveSeats (bookingSeats req) (uid user) (bookingNow env) doc)
    as [claimed [e | claims]] eqn:Hres; [discriminate|].
  destruct (write doc claimed st) as [e | st2] eqn:Hsave; [discriminate|].
  intros H. injection H as <- <-.
  exists doc, rs, tot, claimed, claims. apply Z.leb_gt in Hfut.
  repeat split; try assumption; reflexivity.
Qed.

Lemma claimPhase_claimed (env : BookingEnv) (req : Booking) (user : User)
    (loaded : option Showtime.t) (st st1 : Store) (n : NewReservation.t) :
  claimPhase env req user loaded st = (st1, inr n) ->
  exists doc rs tot claimed claims,
    loaded = Some doc
    /\ Showtime.isActive doc = true
    /\ bookingNow env < Showtime.startTime doc
    /\ unavailableSeats (bookingSeats req) (Showtime.availableSeats doc) = []
    /\ priceLoop (bookingSeats req) (Showtime.availableSeats doc) [] 0%Q
       = Some (rs, tot)
    /\ n = NewReservation.mk
             (Reservation.mk (newReservationId env) (uid user) (bookingShowtime req)
                rs tot tot "pending" None None None None)
             None
    /\ reserveSeats (bookingSeats req) (uid user) (bookingNow env) doc
       = (claimed, inr claims)
    /\ saveShowtime (showtimeSaveAccepted env) (bookingNow env) claimed st = inr st1.
Proof.
  intros H. exact (claimPhaseWith_claimed _ _ _ _ _ _ _ _ H).
Qed.

(** A handler that answers in the claim phase answers a failure and has
    written nothing. *)
Lemma claimPhaseWith_refused (write : ShowtimeWrite) (env : BookingEnv)
    (req : Booking) (user : User) (loaded : option Showtime.t) (st st1 : Store)
    (resp : Response) :
  claimPhaseWith write env req user loaded st = (st1, inl resp) ->
  st1 = st /\ exists code error info, resp = Fail code error info.
Proof.
  unfold claimPhaseWith. destruct loaded as [doc|].
  2:{ intros H. injection H as <- <-. split; [reflexivity | eauto]. }
  destruct (negb (Showtime.isActive doc)).
  { intros H. injection H as <- <-. split; [reflexivity | eauto]. }
  destruct (Showtime.startTime doc <=? bookingNow env).
  { intros H. injection H as <- <-. split; [reflexivity | eauto]. }
  simpl.
  destruct (0 <? List.length
                   (unavailableSeats (bookingSeats req) (Showtime.availableSeats doc)))%nat.
  { intros H. injection H as <- <-. split; [reflexivity | eauto]. }
  destruct (priceLoop (bookingSeats req) (Showtime.availableSeats doc) [] 0%Q)
    as [[rs tot]|].
  2:{ intros H. injection H as <- <-. split; [reflexivity | eauto]. }
  destruct (reserveSeats (bookingSeats req) (uid user) (bookingNow env) doc)
    as [claimed [e | claims]].
  { intros H. injection H as <- <-. split; [reflexivity | eauto]. }
  destruct (write doc claimed st) as [e | st2]; [|discriminate].
  intros H. injection H as <- <-. split; [reflexivity | eauto].
Qed.

Lemma claimPhase_refused (env : BookingEnv) (req : Booking) (user : User)
    (loaded : option Showtime.t) (st st1 : Store) (resp : Response) :
  claimPhase env req user loaded st = (st1, inl resp) ->
  st1 = st /\ exists code error info, resp = Fail code error info.
Proof.
  apply claimPhaseWith_refused.
Qed.

(** The reservation of the claim phase has no number, and the validation
    refuses it: the third phase answers 400 and writes nothing. *)
Lemma claimPhaseWith_unnumbered (write : ShowtimeWrite) (env : BookingEnv)
    (req : Booking) (user : User) (loaded : option Showtime.t) (st st1 : Store)
    (n : NewReservation.t) :
  claimPhaseWith write env req user loaded st = (st1, inr n) ->
  NewReservation.reservationNumber n = None.
Proof.
  intros H. apply claimPhaseWith_claimed in H.
  destruct H as [doc [rs [tot [claimed [claims [_ [_ [_ [_ [_ [-> _]]]]]]]]]]].
  reflexivity.
Qed.

Lemma persistPhase_unnumbered (env : BookingEnv) (n : NewReservation.t)
    (st : Store) :
  NewReservation.reservationNumber n = None ->
  persistPhase env n st
  = (st, Fail 400 "Seat reservation failed" (Thrown NumberRequired)).
Proof.
  unfold persistPhase, insertReservation, NewReservation.validate.
  intros ->. reflexivity.
Qed.

(** The two ways in which the handler answers: in the claim phase, with the
    store untouched, or after the claim has been written, on the
    validation of the reservation. *)
Lemma createReservation_cases (env : BookingEnv) (req : Booking) (user : User)
    (st : Store) :
  (exists code error info,
      claimPhase env req user (loadPhase req st) st
      = (st, inl (Fail code error info))
      /\ createReservation env req user st = (st, Fail code error info))
  \/ (exists st1 n,
        claimPhase env req user (loadPhase req st) st = (st1, inr n)
        /\ createReservation env req user st
           = (st1, Fail 400 "Seat reservation failed" (Thrown NumberRequired))).
Proof.
  unfold createReservation.
  destruct (claimPhase env req user (loadPhase req st) st) as [st1 [resp | n]] eqn:Hc.
  - destruct (claimPhase_refused _ _ _ _ _ _ _ Hc) as [-> [c [e [i ->]]]].
    left. exists c, e, i. now split.
  - right. exists st1, n. split; [reflexivity|].
    apply persistPhase_unnumbered.
    exact (claimPhaseWith_unnumbered _ _ _ _ _ _ _ _ Hc).
Qed.

(** Class, price and total as the second loop of the handler captures
    them. *)
Lemma priceLoop_done (seats : list Seat.t) (av : list AvailableSeat.t) :
  forall acc total rs tot,
    priceLoop seats av acc total = Some (rs, tot) ->
    exists caps,
      rs = acc ++ caps
      /\ Forall2 (fun k c => captured av k = Some c) seats caps
      /\ tot = fold_left (fun t c => (t + ReservationSeat.price c)%Q) caps total.
Proof.
  induction seats as [|k rest IH]; intros acc total rs tot H; simpl in H.
  - injection H as <- <-. exists []. rewrite app_nil_r. repeat split. constructor.
  - destruct (find (sameSeat k) av) as [s|] eqn:Hs; [|discriminate].
    apply IH in H. destruct H as [caps [-> [Hcaps ->]]].
    eexists (_ :: caps). rewrite <- app_assoc. simpl. repeat split.
    constructor; [|exact Hcaps]. unfold captured. now rewrite Hs.
Qed.

Lemma find_available_none (k : Seat.t) (av : list AvailableSeat.t) :
  find (sameSeatAvailable k) av = None <-> ~ bookable k av.
Proof.
  split.
  - intros Hnone [s [Hin [Hkey Hav]]].
    apply (find_none _ _ Hnone) in Hin. unfold sameSeatAvailable in Hin.
    apply sameSeat_key in Hkey. rewrite Hkey, Hav in Hin. discriminate.
  - intros Hnot. destruct (find (sameSeatAvailable k) av) as [s|] eqn:Hs;
      [|reflexivity].
    exfalso. apply Hnot. exists s.
    destruct (found_available_key _ _ _ Hs) as [Hkey Hav].
    apply find_some in Hs. tauto.
Qed.

(** The seats that the refusal names are the requested seats that cannot
    be claimed. *)
Lemma unavailableSeats_spec (seats : list Seat.t) (av : list AvailableSeat.t)
    (k : Seat.t) :
  In k (unavailableSeats seats av) <-> In k seats /\ ~ bookable k av.
Proof.
  unfold unavailableSeats. rewrite filter_In, <- find_available_none.
  destruct (find (sameSeatAvailable k) av); intuition congruence.
Qed.

(** What a claim that has gone through leaves in the store. *)
Lemma claimPhase_stored (env : BookingEnv) (req : Booking) (user : User)
    (st st1 : Store) (doc : Showtime.t) (n : NewReservation.t) :
  loadPhase req st = Some doc ->
  claimPhase env req user (Some doc) st = (st1, inr n) ->
  st1 = setShowtimes
          (replaceById Showtime._id
             (fst (reserveSeats (bookingSeats req) (uid user) (bookingNow env) doc))
             (showtimes st)) st
  /\ exists claimed,
       findById Showtime._id (bookingShowtime req) (showtimes st1) = Some claimed
       /\ claimed = fst (reserveSeats (bookingSeats req) (uid user) (bookingNow env) doc)
       /\ Showtime.reservedSeats claimed
          = Showtime.reservedSeats doc
            ++ map (claimFor (uid user) (bookingNow env)) (bookingSeats req)
       /\ (forall k, In k (bookingSeats req) ->
             exists s,
               find (sameSeat k) (Showtime.availableSeats doc) = Some s
               /\ find (sameSeat k) (Showtime.availableSeats claimed)
                  = Some (AvailableSeat.setAvailable false s)).
Proof.
  intros Hload Hclaim. apply claimPhase_claimed in Hclaim.
  destruct Hclaim as [doc0 [rs [tot [claimed [claims Hc]]]]].
  destruct Hc as [Hdoc [_ [_ [_ [_ [_ [Hres Hsave]]]]]]].
  injection Hdoc as <-.
  apply saveShowtime_written in Hsave. destruct Hsave as [-> _].
  rewrite Hres. simpl. split; [reflexivity|].
  apply reserveSeats_done in Hres.
  destruct Hres as [Hcl [Hrs [Hreq [_ [_ [Hid _]]]]]].
  exists claimed.
  assert (Hdocid : Showtime._id doc = bookingShowtime req)
    by (eapply findById_id; exact Hload).
  repeat split.
  - rewrite <- Hdocid, <- Hid. apply findById_replaceById with (d := doc).
    rewrite Hid, Hdocid. exact Hload.
  - now rewrite Hrs, Hcl.
  - exact Hreq.
Qed.

(** C5.  The claim is all or nothing.  On a screening that is active and
    still to start: if some requested seat is unavailable or unknown, the
    request is refused with 'Seats unavailable', the refusal names exactly
    the requested seats that cannot be claimed, and the store is the store
    of before (no flag is changed, no claim record is made); when the claim
    goes through, the stored screening has one more claim record per
    requested seat, bound to the caller, every requested seat is the former
    record with its flag cleared, and the reservation that the handler has
    built carries each requested seat with the class and the price of its
    record; and there is nothing in between: a call leaves the store as it
    was, or its claim has gone through. *)
Theorem claim_all_or_nothing :
  forall (env : BookingEnv) (req : Booking) (user : User) (st : Store)
         (doc : Showtime.t),
    loadPhase req st = Some doc ->
    Showtime.isActive doc = true ->
    bookingNow env < Showtime.startTime doc ->
    ((exists k, In k (bookingSeats req)
                /\ ~ bookable k (Showtime.availableSeats doc)) ->
     createReservation env req user st
       = (st, Fail 400 "Seats unavailable"
                (SeatList (unavailableSeats (bookingSeats req)
                             (Showtime.availableSeats doc))))
     /\ forall k, In k (unavailableSeats (bookingSeats req)
                          (Showtime.availableSeats doc))
                  <-> In k (bookingSeats req)
                      /\ ~ bookable k (Showtime.availableSeats doc))
    /\ (forall st1 r,
          claimPhase env req user (Some doc) st = (st1, inr r) ->
          fst (createReservation env req user st) = st1
          /\ exists claimed,
               findById Showtime._id (bookingShowtime req) (showtimes st1)
               = Some claimed
               /\ Showtime.reservedSeats claimed
                  = Showtime.reservedSeats doc
                    ++ map (claimFor (uid user) (bookingNow env)) (bookingSeats req)
               /\ (forall k, In k (bookingSeats req) ->
                     exists s,
                       find (sameSeat k) (Showtime.availableSeats doc) = Some s
                       /\ find (sameSeat k) (Showtime.availableSeats claimed)
                          = Some (AvailableSeat.setAvailable false s))
               /\ Reservation.user (NewReservation.fields r) = uid user
               /\ Forall2 (fun k c => captured (Showtime.availableSeats doc) k = Some c)
                    (bookingSeats req)
                    (Reservation.seats (NewReservation.fields r)))
    /\ (forall st' resp,
          createReservation env req user st = (st', resp) ->
          st' = st
          \/ exists r, claimPhase env req user (Some doc) st = (st', inr r)).
Proof.
  intros env req user st doc Hload Hact Hfut. split; [|split].
  - intros [k [Hk Hno]]. split; [|intros k0; apply unavailableSeats_spec].
    unfold createReservation, claimPhase, claimPhaseWith. rewrite Hload, Hact. simpl.
    apply Z.leb_gt in Hfut. rewrite Hfut.
    assert (Hin : In k (unavailableSeats (bookingSeats req)
                          (Showtime.availableSeats doc)))
      by (apply unavailableSeats_spec; tauto).
    destruct (unavailableSeats (bookingSeats req) (Showtime.availableSeats doc));
      [destruct Hin | reflexivity].
  - intros st1 r Hclaim. split.
    + unfold createReservation. rewrite Hload, Hclaim.
      rewrite persistPhase_unnumbered; [reflexivity|].
      exact (claimPhaseWith_unnumbered _ _ _ _ _ _ _ _ Hclaim).
    + destruct (claimPhase_stored _ _ _ _ _ _ _ Hload Hclaim)
        as [_ [claimed [Hfound [_ [Hrs Hflags]]]]].
      apply claimPhase_claimed in Hclaim.
      destruct Hclaim as [doc0 [rs [tot [claimed0 [claims Hc]]]]].
      destruct Hc as [Hdoc [_ [_ [_ [Hprice [Hr _]]]]]].
      injection Hdoc as <-.
      apply priceLoop_done in Hprice. destruct Hprice as [caps [Hcaps [Hall _]]].
      exists claimed. rewrite Hr. simpl.
      repeat split; try assumption.
      rewrite Hcaps. exact Hall.
  - intros st' resp Hrun.
    destruct (createReservation_cases env req user st)
      as [[c [e [i [_ Hans]]]] | [st1 [n [Hclaim Hans]]]];
      rewrite Hans in Hrun; injection Hrun as <- <-.
    + now left.
    + right. exists n. now rewrite <- Hload.
Qed.

(** After a successful claim phase the seats of the request are held in
    the store and the reservations are those of before. *)
Lemma claimPhase_holds (env : BookingEnv) (req : Booking) (user : User)
    (st st1 : Store) (r : NewReservation.t) :
  claimPhase env req user (loadPhase req st) st = (st1, inr r) ->
  seatsHeld req st1 /\ reservations st1 = reservations st.
Proof.
  intros H. apply claimPhase_claimed in H.
  destruct H as [doc [rs [tot [claimed [claims H]]]]].
  destruct H as [Hload [_ [_ [_ [_ [_ [Hres Hsave]]]]]]].
  apply saveShowtime_written in Hsave. destruct Hsave as [-> _].
  apply reserveSeats_done in Hres.
  destruct Hres as [_ [_ [Hreq [_ [_ [Hid _]]]]]].
  split; [|reflexivity].
  exists claimed. simpl. split.
  - assert (Hdocid : Showtime._id doc = bookingShowtime req)
      by (eapply findById_id; exact Hload).
    rewrite <- Hdocid, <- Hid. apply findById_replaceById with (d := doc).
    rewrite Hid, Hdocid. exact Hload.
  - intros k Hk. destruct (Hreq k Hk) as [s [_ Hs]].
    unfold flagOf. now rewrite Hs.
Qed.

(** C1, as the code has it.  When the claim has been saved and the write
    of the reservation is refused, the handler answers 'Seat reservation
    failed' and leaves the store as the claim made it: the seats stay held
    and no reservation is stored.  In the other direction the requirement
    holds: a call that adds a reservation record has claimed its seats, and
    they are held in the store it leaves. *)
Theorem reservation_only_if_claimed :
  forall (env : BookingEnv) (req : Booking) (user : User) (st st' : Store)
         (resp : Response),
    createReservation env req user st = (st', resp) ->
    (forall st1 r e,
        claimPhase env req user (loadPhase req st) st = (st1, inr r) ->
        insertReservation (reservationSaveAccepted env) r st1 = inl e ->
        st' = st1
        /\ resp = Fail 400 "Seat reservation failed" (Thrown e)
        /\ reservations st' = reservations st
        /\ seatsHeld req st')
    /\ (reservations st' <> reservations st ->
        seatsHeld req st'
        /\ exists r, resp = Json 201 (ReservationBody r)
                     /\ reservations st' = reservations st ++ [r]).
Proof.
  intros env req user st st' resp Hrun. unfold createReservation in Hrun.
  destruct (claimPhase env req user (loadPhase req st) st)
    as [st1 [resp1 | r]] eqn:Hclaim.
  - destruct (claimPhase_refused _ _ _ _ _ _ _ Hclaim) as [-> _].
    injection Hrun as <- <-. split.
    + intros st2 r e H. discriminate.
    + intros Hne. now elim Hne.
  - destruct (claimPhase_holds _ _ _ _ _ _ Hclaim) as [Hheld Hsame].
    unfold persistPhase in Hrun.
    destruct (insertReservation (reservationSaveAccepted env) r st1)
      as [e | st2] eqn:Hins; injection Hrun as <- <-.
    + split.
      * intros st3 r3 e3 H3 Hfail. injection H3 as <- <-.
        rewrite Hins in Hfail. injection Hfail as <-. now repeat split.
      * intros Hne. now elim Hne.
    + pose proof Hins as Hok.
      apply insertReservation_written in Hins. destruct Hins as [-> _]. split.
      * intros st3 r3 e3 H3 Hfail. injection H3 as <- <-.
        rewrite Hok in Hfail. discriminate.
      * intros _. split; [exact Hheld|].
        exists (NewReservation.fields r). simpl. now rewrite Hsame.
Qed.

(** C1, refuted as stated.  User U books A1 and A2 on the sample screening
    and the storage layer refuses the reservation: the seats are held in
    the store that the call leaves, and no reservation record is. *)
Lemma orphan_claim_on_failed_save :
  ~ noOrphanClaim (bookingEnv 501 false) (mkBooking 1 [seatA1; seatA2]) userU storeS.
Proof.
  unfold noOrphanClaim. intros [_ Hback].
  assert (Hheld : seatsHeld (mkBooking 1 [seatA1; seatA2])
                    (fst (createReservation (bookingEnv 501 false)
                            (mkBooking 1 [seatA1; seatA2]) userU storeS))).
  { eexists. split; [cbv; reflexivity|].
    intros k [<- | [<- | []]]; reflexivity. }
  destruct (Hback Hheld) as [r [Hin _]]. cbv in Hin. exact Hin.
Qed.

(** The same call through the theorem: the store that it leaves holds the
    seats and no reservation. *)
Lemma reservation_only_if_claimed_witness :
  reservations (fst (createReservation (bookingEnv 501 false)
                       (mkBooking 1 [seatA1; seatA2]) userU storeS)) = []
  /\ seatsHeld (mkBooking 1 [seatA1; seatA2])
       (fst (createReservation (bookingEnv 501 false)
               (mkBooking 1 [seatA1; seatA2]) userU storeS)).
Proof.
  destruct (reservation_only_if_claimed (bookingEnv 501 false)
              (mkBooking 1 [seatA1; seatA2]) userU storeS _ _ eq_refl)
    as [Hfail _].
  edestruct Hfail as [_ [_ [Hsame Hheld]]].
  - cbv. reflexivity.
  - cbv. reflexivity.
  - split; [exact Hsame | exact Hheld].
Defined.

(** ** Two calls for the same seat *)

Lemma unique_key_record (av : list AvailableSeat.t) (s s' : AvailableSeat.t) :
  uniqueKeys av -> In s av -> In s' av -> keyOfSeat s = keyOfSeat s' -> s = s'.
Proof.
  unfold uniqueKeys. induction av as [|x rest IH]; simpl; [tauto|].
  intros Hnd Hs Hs' Hkey. inversion Hnd as [|? ? Hnot Hrest]; subst.
  destruct Hs as [-> | Hs], Hs' as [-> | Hs'].
  - reflexivity.
  - exfalso. apply Hnot. rewrite Hkey. now apply in_map.
  - exfalso. apply Hnot. rewrite <- Hkey. now apply in_map.
  - now apply IH.
Qed.

(** With unique keys, a seat whose record is flagged unavailable cannot be
    claimed. *)
Lemma held_not_bookable (k : Seat.t) (av : list AvailableSeat.t)
    (s : AvailableSeat.t) :
  uniqueKeys av ->
  find (sameSeat k) av = Some s ->
  AvailableSeat.isAvailable s = false ->
  ~ bookable k av.
Proof.
  intros Hu Hs Hflag [s' [Hin' [Hkey' Hav']]].
  apply find_some in Hs. destruct Hs as [Hin Hsame].
  apply sameSeat_key in Hsame.
  assert (s = s') by (apply (unique_key_record av); congruence).
  congruence.
Qed.

(** A request that names a seat that cannot be claimed is answered in the
    claim phase, with the store untouched. *)
Lemma claimPhase_unbookable (env : BookingEnv) (req : Booking) (user : User)
    (doc : Showtime.t) (st : Store) (k : Seat.t) :
  In k (bookingSeats req) ->
  ~ bookable k (Showtime.availableSeats doc) ->
  exists code error info,
    claimPhase env req user (Some doc) st = (st, inl (Fail code error info)).
Proof.
  intros Hk Hno.
  destruct (claimPhase env req user (Some doc) st) as [st1 [resp | r]] eqn:Hc.
  - destruct (claimPhase_refused _ _ _ _ _ _ _ Hc) as [-> [c [e [i ->]]]]. eauto.
  - apply claimPhase_claimed in Hc.
    destruct Hc as [doc0 [rs [tot [claimed [claims Hc]]]]].
    destruct Hc as [Hdoc [_ [_ [Hun _]]]]. injection Hdoc as <-.
    assert (Hin : In k (unavailableSeats (bookingSeats req)
                          (Showtime.availableSeats doc)))
      by (apply unavailableSeats_spec; tauto).
    rewrite Hun in Hin. destruct Hin.
Qed.






(** ** Cancellation and refund *)

Lemma Qltb_lt (a b : Q) : Qltb a b = true <-> (a < b)%Q.
Proof.
  unfold Qltb. rewrite negb_true_iff. split.
  - intros H. apply Qnot_le_lt. intros Hle.
    apply Qle_bool_iff in Hle. congruence.
  - intros H. destruct (Qle_bool b a) eqn:E; [|reflexivity].
    apply Qle_bool_iff in E. exfalso. exact (Qlt_not_le _ _ H E).
Qed.

Lemma Qltb_ge (a b : Q) : Qltb a b = false <-> (b <= a)%Q.
Proof.
  unfold Qltb. rewrite negb_false_iff. apply Qle_bool_iff.
Qed.

(** The three tiers of [refundFor]. *)
Lemma refundFor_tiers (total hours : Q) :
  ((24 < hours)%Q -> Reservation.refundFor total hours = (total * 0.9)%Q)
  /\ ((2 < hours)%Q /\ (hours <= 24)%Q ->
      Reservation.refundFor total hours = (total * 0.5)%Q)
  /\ ((hours <= 2)%Q -> Reservation.refundFor total hours = 0%Q).
Proof.
  unfold Reservation.refundFor. repeat split.
  - intros H. apply Qltb_lt in H. now rewrite H.
  - intros [H2 H24]. apply Qltb_ge in H24. apply Qltb_lt in H2. now rewrite H24, H2.
  - intros H. assert (H24 : (hours <= 24)%Q).
    { eapply Qle_trans; [exact H|]. discriminate. }
    apply Qltb_ge in H. apply Qltb_ge in H24. now rewrite H24, H.
Qed.

(** C3.  A cancellation that goes through stores a refund that depends on
    the total and on the hours to the start only: nine tenths of the total
    above 24 hours, half of it above 2 and up to 24 hours, nothing up to 2
    hours.  The reservation is left cancelled. *)
Theorem refund_is_tiered :
  forall (reason : option string) (populated : option Showtime.t)
         (tCheck tStamp tRefund : Date) (r r' : Reservation.t),
    Reservation.cancel reason populated tCheck tStamp tRefund r = (r', None) ->
    exists sh,
      populated = Some sh
      /\ Reservation.status r' = "cancelled"
      /\ Reservation.refundAmount r'
         = Some (Reservation.refundFor (Reservation.totalAmount r)
                   (Reservation.hoursUntilShowtime sh tRefund))
      /\ ((24 < Reservation.hoursUntilShowtime sh tRefund)%Q ->
          Reservation.refundAmount r' = Some (Reservation.totalAmount r * 0.9)%Q)
      /\ ((2 < Reservation.hoursUntilShowtime sh tRefund)%Q
          /\ (Reservation.hoursUntilShowtime sh tRefund <= 24)%Q ->
          Reservation.refundAmount r' = Some (Reservation.totalAmount r * 0.5)%Q)
      /\ ((Reservation.hoursUntilShowtime sh tRefund <= 2)%Q ->
          Reservation.refundAmount r' = Some 0%Q).
Proof.
  intros reason populated tCheck tStamp tRefund r r'. unfold Reservation.cancel.
  destruct (negb (Reservation.isCancellable populated tCheck r)); [discriminate|].
  destruct populated as [sh|]; [|discriminate].
  intros H. injection H as <-. exists sh. simpl.
  destruct (refundFor_tiers (Reservation.totalAmount r)
              (Reservation.hoursUntilShowtime sh tRefund)) as [H90 [H50 H0]].
  repeat split; try reflexivity.
  - intros H. now rewrite H90.
  - intros H. now rewrite H50.
  - intros H. now rewrite H0.
Qed.

(** The scenario of the specification: U cancels 30 hours before the start
    and is refunded 18 of 20. *)
Lemma refund_is_tiered_witness :
  exists r',
    Reservation.cancel (Some "plans changed") (Some screeningS)
      (-11 * hour) (-11 * hour) (-11 * hour) (reservationOfU "confirmed")
    = (r', None)
    /\ Reservation.refundAmount r' = Some (20 * 0.9)%Q.
Proof.
  eexists. split; [reflexivity|].
  destruct (refund_is_tiered (Some "plans changed") (Some screeningS)
              (-11 * hour) (-11 * hour) (-11 * hour)
              (reservationOfU "confirmed") _ eq_refl)
    as [sh [Hsh [_ [_ [H90 _]]]]].
  injection Hsh as <-. apply H90. reflexivity.
Defined.

(** The cases in which [isCancellable] answers false: the status is
    'cancelled' or 'completed', or the start is no more than two hours
    away.  The status 'no_show' is not among them. *)
Lemma isCancellable_false_cases (populated : option Showtime.t) (now : Date)
    (r : Reservation.t) :
  (Reservation.status r = "cancelled" \/ Reservation.status r = "completed" ->
   Reservation.isCancellable populated now r = false)
  /\ (forall sh, populated = Some sh ->
                 Showtime.startTime sh <= now + 2 * hour ->
                 Reservation.isCancellable populated now r = false).
Proof.
  unfold Reservation.isCancellable. split.
  - intros [-> | ->]; reflexivity.
  - intros sh -> Hnear.
    destruct (String.eqb (Reservation.status r) "cancelled"
              || String.eqb (Reservation.status r) "completed"); [reflexivity|].
    apply Z.ltb_ge. exact Hnear.
Qed.

(** The handler cancels only what [isCancellable] lets through. *)
Lemma cancelReservation_needs_cancellable (env : CancelEnv) (id : ObjectId)
    (reason : option string) (user : User) (st st' : Store) (code : Z) (b : Body) :
  cancelReservation env id reason user st = (st', Json code b) ->
  exists r,
    findById Reservation._id id (reservations st) = Some r
    /\ Reservation.isCancellable
         (findById Showtime._id (Reservation.showtime r) (showtimes st))
         (guardNow env) r = true.
Proof.
  unfold cancelReservation.
  destruct (findById Reservation._id id (reservations st)) as [r|]; [|discriminate].
  destruct (negb (String.eqb (role user) "admin")
            && negb (Reservation.user r =? uid user)); [discriminate|].
  destruct (Reservation.isCancellable
              (findById Showtime._id (Reservation.showtime r) (showtimes st))
              (guardNow env) r) eqn:Hc; [|discriminate].
  intros _. now exists r.
Qed.

(** Cancelling a cancelled reservation again is refused, and the store is
    left as it was. *)
Lemma recancel_rejected (env : CancelEnv) (id : ObjectId) (reason : option string)
    (user : User) (st : Store) (r : Reservation.t) :
  findById Reservation._id id (reservations st) = Some r ->
  Reservation.status r = "cancelled" ->
  cancelReservation env id reason user st
    = (st, Fail 403 "Access denied" NoInfo)
  \/ cancelReservation env id reason user st
    = (st, Fail 400 "Cannot cancel reservation" NoInfo).
Proof.
  intros Hfind Hstatus. unfold cancelReservation. rewrite Hfind.
  destruct (negb (String.eqb (role user) "admin")
            && negb (Reservation.user r =? uid user)); [now left|].
  right. unfold Reservation.isCancellable. now rewrite Hstatus.
Qed.

(** C6, at the input where the code departs from it.  The reservation of U
    is marked 'no_show' and the screening starts in ten hours:
    [isCancellable] answers true, and the cancellation goes through, with
    status 'cancelled' and half of the total refunded, and is stored. *)
Theorem no_show_reservation_is_cancelled :
  Reservation.isCancellable (Some screeningHeld) (9 * hour)
    (reservationOfU "no_show") = true
  /\ snd (cancelReservation (cancelEnvAt (9 * hour)) 501 None userU
            (storeWith "no_show"))
     = Json 200 (CancelledBody 501 "cancelled" (Some (20 * 0.5)%Q) None
                   (Some (9 * hour)))
  /\ option_map Reservation.status
       (findById Reservation._id 501
          (reservations
             (fst (cancelReservation (cancelEnvAt (9 * hour)) 501 None userU
                     (storeWith "no_show")))))
     = Some "cancelled".
Proof. repeat split. Qed.

(** ** Check-in *)

(** The two tests of the handler on the quotient in minutes, as tests on
    the time stamps. *)
Lemma timeDiff_early (start now : Date) :
  Qltb 120 (timeDiff start now) = true <-> now < start - 2 * hour.
Proof.
  rewrite Qltb_lt. unfold timeDiff, Qlt, Qdiv, Qmult, Qinv, inject_Z, hour.
  simpl. lia.
Qed.

Lemma timeDiff_late (start now : Date) :
  Qltb (timeDiff start now) (-30) = true <-> start + 30 * minute < now.
Proof.
  rewrite Qltb_lt. unfold timeDiff, Qlt, Qdiv, Qmult, Qinv, inject_Z, minute.
  simpl. lia.
Qed.

Lemma preSave_checkIn (now : Date) (r : Reservation.t) :
  Reservation.preSave (Reservation.checkIn now r) = Reservation.preSave r.
Proof. reflexivity. Qed.

Lemma preSave_withStatus (s : string) (r : Reservation.t) :
  Reservation.preSave (Reservation.withStatus s r) = Reservation.preSave r.
Proof. reflexivity. Qed.

(** The answer of the handler on a reservation that is found, with its
    screening, when the write is accepted. *)
Lemma checkIn_cases (env : CheckInEnv) (id : ObjectId) (st : Store)
    (r : Reservation.t) (sh : Showtime.t) :
  findById Reservation._id id (reservations st) = Some r ->
  findById Showtime._id (Reservation.showtime r) (showtimes st) = Some sh ->
  Reservation.preSave r = None ->
  checkInSaveAccepted env = true ->
  checkInReservation env id st
  = if negb (String.eqb (Reservation.status r) "confirmed")
    then (st, Fail 400 "Invalid reservation status" NoInfo)
    else if Qltb 120 (timeDiff (Showtime.startTime sh) (checkInNow env))
    then (st, Fail 400 "Too early for check-in" NoInfo)
    else if Qltb (timeDiff (Showtime.startTime sh) (checkInNow env)) (-30)
    then (st, Fail 400 "Too late for check-in" NoInfo)
    else (setReservations
            (replaceById Reservation._id
               (Reservation.checkIn (checkInStamp env) r) (reservations st)) st,
          Json 200 (CheckInBody id (Some (checkInStamp env)))).
Proof.
  intros Hr Hsh Hpre Hacc. unfold checkInReservation. rewrite Hr, Hsh.
  unfold saveReservation. rewrite preSave_checkIn, Hpre, Hacc.
  cbn [Reservation._id Reservation.checkIn Reservation.withCheckInTime
       Reservation.checkInTime].
  rewrite (findById_id _ _ _ _ Hr). reflexivity.
Qed.

(** C4, as the code has it.  For a reservation that is found, with its
    screening, and a storage layer that accepts the write: the check-in
    succeeds if and only if the status is 'confirmed' and the clock is
    between two hours before the start and thirty minutes after it; a
    confirmed reservation outside that window is refused with a window
    violation ('Too early for check-in' or 'Too late for check-in'); a
    reservation that is not confirmed is refused with 'Invalid reservation
    status' whatever the clock reads; a refusal leaves the store as it was;
    and a successful check-in stores the time stamp and keeps the status. *)
Theorem checkIn_confirmed_in_window :
  forall (env : CheckInEnv) (id : ObjectId) (st : Store)
         (r : Reservation.t) (sh : Showtime.t),
    findById Reservation._id id (reservations st) = Some r ->
    findById Showtime._id (Reservation.showtime r) (showtimes st) = Some sh ->
    Reservation.preSave r = None ->
    checkInSaveAccepted env = true ->
    ((exists st' b, checkInReservation env id st = (st', Json 200 b))
     <-> Reservation.status r = "confirmed"
         /\ inCheckInWindow (Showtime.startTime sh) (checkInNow env))
    /\ (Reservation.status r = "confirmed" ->
        ~ inCheckInWindow (Showtime.startTime sh) (checkInNow env) ->
        fst (checkInReservation env id st) = st
        /\ isWindowViolation (snd (checkInReservation env id st)) = true)
    /\ (Reservation.status r <> "confirmed" ->
        checkInReservation env id st
        = (st, Fail 400 "Invalid reservation status" NoInfo))
    /\ (forall st' b,
          checkInReservation env id st = (st', Json 200 b) ->
          exists r',
            findById Reservation._id id (reservations st') = Some r'
            /\ Reservation.checkInTime r' = Some (checkInStamp env)
            /\ Reservation.status r' = Reservation.status r).
Proof.
  intros env id st r sh Hr Hsh Hpre Hacc.
  rewrite (checkIn_cases env id st r sh Hr Hsh Hpre Hacc).
  pose proof (timeDiff_early (Showtime.startTime sh) (checkInNow env)) as Hearly.
  pose proof (timeDiff_late (Showtime.startTime sh) (checkInNow env)) as Hlate.
  unfold inCheckInWindow.
  destruct (String.eqb (Reservation.status r) "confirmed") eqn:Hstatus; cbn [negb].
  - apply String.eqb_eq in Hstatus.
    destruct (Qltb 120 (timeDiff (Showtime.startTime sh) (checkInNow env))).
    { assert (Hlt : checkInNow env < Showtime.startTime sh - 2 * hour)
        by now apply Hearly.
      split; [|split; [|split]].
      - split.
        + intros [st' [b H']]. discriminate.
        + intros [_ [H1 _]]. lia.
      - intros _ _. split; reflexivity.
      - intros Hne. contradiction.
      - intros st' b H'. discriminate. }
    assert (Hnot1 : ~ checkInNow env < Showtime.startTime sh - 2 * hour).
    { intros H. apply Hearly in H. discriminate. }
    destruct (Qltb (timeDiff (Showtime.startTime sh) (checkInNow env)) (-30)).
    { assert (Hgt : Showtime.startTime sh + 30 * minute < checkInNow env)
        by now apply Hlate.
      split; [|split; [|split]].
      - split.
        + intros [st' [b H']]. discriminate.
        + intros [_ [_ H2]]. lia.
      - intros _ _. split; reflexivity.
      - intros Hne. contradiction.
      - intros st' b H'. discriminate. }
    assert (Hnot2 : ~ Showtime.startTime sh + 30 * minute < checkInNow env).
    { intros H. apply Hlate in H. discriminate. }
    split; [|split; [|split]].
    + split.
      * intros _. split; [assumption | lia].
      * intros _. eauto.
    + intros _ Hout. exfalso. apply Hout. lia.
    + intros Hne. contradiction.
    + intros st' b H'. injection H' as <- <-.
      exists (Reservation.checkIn (checkInStamp env) r).
      split; [|split; reflexivity].
      cbn [reservations setReservations].
      apply findById_replaced with (d := r); [exact Hr|].
      exact (findById_id _ _ _ _ Hr).
  - apply String.eqb_neq in Hstatus.
    split; [|split; [|split]].
    + split.
      * intros [st' [b H']]. discriminate.
      * intros [H' _]. contradiction.
    + intros H'. contradiction.
    + intros _. reflexivity.
    + intros st' b H'. discriminate.
Qed.

(** C4, refuted as stated.  The reservation of U is pending and the
    screening starts in thirty hours, far outside the window: the handler
    answers 'Invalid reservation status', not a window violation. *)
Lemma pending_outside_window_is_status_error :
  ~ windowViolationOutside (checkInEnvAt (-11 * hour)) 501 (storeWith "pending").
Proof.
  intros H.
  specialize (H (reservationOfU "pending") screeningHeld eq_refl eq_refl).
  assert (Hout : ~ inCheckInWindow (Showtime.startTime screeningHeld)
                     (checkInNow (checkInEnvAt (-11 * hour)))).
  { unfold inCheckInWindow. intros [H1 _]. apply H1. reflexivity. }
  specialize (H Hout). discriminate H.
Qed.

(** U, confirmed, checks in one hour before the start. *)
Lemma checkIn_confirmed_in_window_witness :
  exists st' b,
    checkInReservation (checkInEnvAt (18 * hour)) 501 (storeWith "confirmed")
    = (st', Json 200 b).
Proof.
  apply (proj1 (checkIn_confirmed_in_window (checkInEnvAt (18 * hour)) 501
                  (storeWith "confirmed") (reservationOfU "confirmed")
                  screeningHeld eq_refl eq_refl eq_refl eq_refl)).
  split; [reflexivity|].
  unfold inCheckInWindow. split; discriminate.
Defined.

(** ** Administrative status update *)

Lemma validStatuses_In (status : string) :
  existsb (String.eqb status) validStatuses = true <-> In status validStatuses.
Proof.
  rewrite existsb_exists. split.
  - intros [x [Hin Heq]]. apply String.eqb_eq in Heq. now subst.
  - intros Hin. exists status. split; [assumption | apply String.eqb_refl].
Qed.

(** Whatever branch of the [switch] runs, the document ends with the
    requested status. *)
Lemma switch_sets_status (status : string) (r : Reservation.t) :
  (if String.eqb status "confirmed" then Reservation.confirm r
   else if String.eqb status "completed" then Reservation.complete r
   else if String.eqb status "no_show" then Reservation.markAsNoShow r
   else Reservation.withStatus status r)
  = Reservation.withStatus status r.
Proof.
  destruct (String.eqb status "confirmed") eqn:E1;
    [apply String.eqb_eq in E1; now subst|].
  destruct (String.eqb status "completed") eqn:E2;
    [apply String.eqb_eq in E2; now subst|].
  destruct (String.eqb status "no_show") eqn:E3;
    [apply String.eqb_eq in E3; now subst|].
  reflexivity.
Qed.

(** C8, as the code has it.  The administrative update has no transition
    table: on a reservation that is found it stores every target that is one
    of the five status names, whatever the current status, terminal or not;
    it refuses a target that is not a status name with 'Invalid status' and
    then leaves the store as it was. *)
Theorem status_update_is_unguarded :
  forall (accepted : bool) (id : ObjectId) (target : string) (st : Store)
         (r : Reservation.t),
    findById Reservation._id id (reservations st) = Some r ->
    Reservation.preSave r = None ->
    (In target validStatuses -> accepted = true ->
     exists st',
       updateReservationStatus accepted id target st
       = (st', Json 200 (StatusBody id target))
       /\ findById Reservation._id id (reservations st')
          = Some (Reservation.withStatus target r))
    /\ (~ In target validStatuses ->
        updateReservationStatus accepted id target st
        = (st, Fail 400 "Invalid status" NoInfo)).
Proof.
  intros accepted id target st r Hr Hpre. unfold updateReservationStatus. split.
  - intros Hvalid ->. apply validStatuses_In in Hvalid. rewrite Hvalid, Hr.
    cbn [negb]. rewrite switch_sets_status. unfold saveReservation.
    rewrite preSave_withStatus, Hpre.
    cbn [Reservation._id Reservation.status Reservation.withStatus].
    rewrite (findById_id _ _ _ _ Hr).
    eexists. split; [reflexivity|].
    cbn [reservations setReservations].
    apply findById_replaced with (d := r); [exact Hr|].
    exact (findById_id _ _ _ _ Hr).
  - intros Hinvalid.
    destruct (existsb (String.eqb target) validStatuses) eqn:E; [|reflexivity].
    apply validStatuses_In in E. contradiction.
Qed.

(** C8, refuted as stated.  The reservation of U is cancelled; the
    administrative update to 'confirmed' answers 200 and stores
    'confirmed'. *)
Lemma cancelled_reservation_is_reconfirmed :
  ~ terminalIsFinal true 501 "confirmed" (storeWith "cancelled").
Proof.
  intros H.
  destruct (H (reservationOfU "cancelled") eq_refl eq_refl) as [_ Hstatus].
  discriminate Hstatus.
Qed.

Lemma status_update_is_unguarded_witness :
  exists st',
    updateReservationStatus true 501 "confirmed" (storeWith "cancelled")
    = (st', Json 200 (StatusBody 501 "confirmed"))
    /\ findById Reservation._id 501 (reservations st')
       = Some (Reservation.withStatus "confirmed" (reservationOfU "cancelled")).
Proof.
  apply (proj1 (status_update_is_unguarded true 501 "confirmed"
                  (storeWith "cancelled") (reservationOfU "cancelled")
                  eq_refl eq_refl)).
  - right. left. reflexivity.
  - reflexivity.
Defined.

(** ** Scheduling conflicts *)

Lemma conflictFilter_collides (theater : ObjectId) (s e : Date) (o : Showtime.t) :
  conflictFilter theater s e o = true <-> collides theater s e o.
Proof.
  unfold conflictFilter, collides, overlaps.
  rewrite !andb_true_iff, Z.eqb_eq, !Z.ltb_lt, Bool.eqb_true_iff. tauto.
Qed.

Lemma find_Some_iff {A : Type} (p : A -> bool) (l : list A) :
  (exists x, find p l = Some x) <-> exists x, In x l /\ p x = true.
Proof.
  split.
  - intros [x H]. exists x. now apply find_some in H.
  - intros [x [Hin Hp]]. destruct (find p l) as [y|] eqn:E; [eauto|].
    apply (find_none _ _ E) in Hin. congruence.
Qed.

Lemma conflict_query (theater : ObjectId) (s e : Date) (coll : list Showtime.t) :
  (exists o, find (conflictFilter theater s e) coll = Some o)
  <-> exists o, In o coll /\ collides theater s e o.
Proof.
  rewrite find_Some_iff. split; intros [o [Hin H]]; exists o;
    (split; [assumption | now apply conflictFilter_collides]).
Qed.

Lemma conflict_query_except (id theater : ObjectId) (s e : Date)
    (coll : list Showtime.t) :
  (exists o, find (conflictFilterExcept id theater s e) coll = Some o)
  <-> exists o, In o coll /\ Showtime._id o <> id /\ collides theater s e o.
Proof.
  rewrite find_Some_iff. unfold conflictFilterExcept.
  split; intros [o [Hin H]]; exists o; (split; [assumption|]).
  - apply andb_true_iff in H. destruct H as [Hid H].
    apply negb_true_iff, Z.eqb_neq in Hid.
    split; [assumption | now apply conflictFilter_collides].
  - destruct H as [Hid H]. apply andb_true_iff. split.
    + now apply negb_true_iff, Z.eqb_neq.
    + now apply conflictFilter_collides.
Qed.

(** C7.  A creation request that names an active movie and an active
    theater is refused with 'Scheduling conflict' if and only if some active
    screening of the theater overlaps the requested window, half-open; with
    no such screening, a window [s < e] that does not start in the past and
    an accepted write, the screening is created.  An update that carries a
    theater or a time, of a screening that has not started and has no
    reserved seat, is refused with 'Scheduling conflict' if and only if some
    other active screening of the theater overlaps the new window; with no
    such screening, a window [s < e] and an accepted write, it is stored. *)
Theorem schedule_conflict_iff_overlap :
  (forall (env : ShowtimeEnv) (req : ShowtimeRequest) (st : Store)
          (movieDoc : Movie.t) (theaterDoc : Theater.t),
      findById Movie._id (reqMovie req) (movies st) = Some movieDoc ->
      Movie.isActive movieDoc = true ->
      findById Theater._id (reqTheater req) (theaters st) = Some theaterDoc ->
      Theater.isActive theaterDoc = true ->
      (createShowtime env req st = (st, Fail 400 "Scheduling conflict" NoInfo)
       <-> exists o, In o (showtimes st)
                     /\ collides (reqTheater req) (reqStartTime req)
                          (reqEndTime req) o)
      /\ (~ (exists o, In o (showtimes st)
                       /\ collides (reqTheater req) (reqStartTime req)
                            (reqEndTime req) o) ->
          reqStartTime req < reqEndTime req ->
          showtimeNow env <= reqStartTime req ->
          showtimeAccepted env = true ->
          exists sh,
            createShowtime env req st
            = (setShowtimes (showtimes st ++ [sh]) st, Json 201 (ShowtimeBody sh))
            /\ Showtime.theater sh = reqTheater req
            /\ Showtime.startTime sh = reqStartTime req
            /\ Showtime.endTime sh = reqEndTime req
            /\ Showtime.isActive sh = true))
  /\ (forall (env : ShowtimeEnv) (id : ObjectId) (upd : UpdateData) (st : Store)
             (showtime : Showtime.t),
         findById Showtime._id id (showtimes st) = Some showtime ->
         showtimeNow env <= Showtime.startTime showtime ->
         Showtime.reservedSeats showtime = [] ->
         present (updTheater upd) || present (updStartTime upd)
         || present (updEndTime upd) = true ->
         (updateShowtime env id upd st = (st, Fail 400 "Scheduling conflict" NoInfo)
          <-> exists o, In o (showtimes st)
                        /\ Showtime._id o <> id
                        /\ collides (orElse (updTheater upd) (Showtime.theater showtime))
                             (orElse (updStartTime upd) (Showtime.startTime showtime))
                             (orElse (updEndTime upd) (Showtime.endTime showtime)) o)
         /\ (~ (exists o, In o (showtimes st)
                          /\ Showtime._id o <> id
                          /\ collides
                               (orElse (updTheater upd) (Showtime.theater showtime))
                               (orElse (updStartTime upd) (Showtime.startTime showtime))
                               (orElse (updEndTime upd) (Showtime.endTime showtime)) o) ->
             orElse (updStartTime upd) (Showtime.startTime showtime)
             < orElse (updEndTime upd) (Showtime.endTime showtime) ->
             showtimeAccepted env = true ->
             updateShowtime env id upd st
             = (setShowtimes
                  (replaceById Showtime._id (assignUpdate upd showtime) (showtimes st))
                  st,
                Json 200 (ShowtimeBody (assignUpdate upd showtime))))).
Proof.
  split.
  - intros env req st movieDoc theaterDoc Hm Hma Ht Hta.
    unfold createShowtime. rewrite Hm, Hma, Ht, Hta. cbn [negb].
    rewrite <- conflict_query.
    destruct (find (conflictFilter (reqTheater req) (reqStartTime req)
                      (reqEndTime req)) (showtimes st)) as [o|] eqn:Hq.
    + split; [split; [eauto | reflexivity]|].
      intros Hno. exfalso. apply Hno. eauto.
    + split.
      * split; [|intros [o Ho]; discriminate].
        destruct (insertShowtime _ _ _ st); discriminate.
      * intros _ Hlt Hnow Hacc. eexists. split.
        { unfold insertShowtime, showtimePreSave.
          cbn [Showtime.startTime Showtime.endTime].
          apply Z.leb_gt in Hlt. rewrite Hlt.
          apply Z.ltb_ge in Hnow. rewrite Hnow, Hacc. reflexivity. }
        cbn. repeat split.
  - intros env id upd st showtime Hs Hnow Hres Hpresent.
    unfold updateShowtime. rewrite Hs.
    apply Z.ltb_ge in Hnow. rewrite Hnow, Hres, Hpresent. cbn [List.length Nat.ltb Nat.leb].
    rewrite <- conflict_query_except.
    destruct (find (conflictFilterExcept id
                      (orElse (updTheater upd) (Showtime.theater showtime))
                      (orElse (updStartTime upd) (Showtime.startTime showtime))
                      (orElse (updEndTime upd) (Showtime.endTime showtime)))
                (showtimes st)) as [o|] eqn:Hq.
    + split; [split; [eauto | reflexivity]|].
      intros Hno. exfalso. apply Hno. eauto.
    + split.
      * split; [|intros [o Ho]; discriminate].
        destruct (saveShowtime _ _ _ st); discriminate.
      * intros _ Hlt Hacc.
        unfold saveShowtime, showtimePreSave.
        cbn [Showtime.startTime Showtime.endTime assignUpdate andb].
        apply Z.leb_gt in Hlt. rewrite Hlt, Hacc. reflexivity.
Qed.

(** In the theater of the sample screening (19:00 to 21:00), a screening
    from 20:00 to 22:00 is
    refused, one from 21:00 to 23:00 is created, and moving the late
    screening (22:00 to 23:00) to 20:00 collides with the sample one. *)
Lemma schedule_conflict_iff_overlap_witness :
  createShowtime showtimeEnv (requestAt (20 * hour) (22 * hour)) storeS
    = (storeS, Fail 400 "Scheduling conflict" NoInfo)
  /\ (exists sh,
        createShowtime showtimeEnv (requestAt (21 * hour) (23 * hour)) storeS
        = (setShowtimes (showtimes storeS ++ [sh]) storeS, Json 201 (ShowtimeBody sh))
        /\ Showtime.theater sh = 200
        /\ Showtime.startTime sh = 21 * hour
        /\ Showtime.endTime sh = 23 * hour
        /\ Showtime.isActive sh = true)
  /\ updateShowtime showtimeEnv 2 (moveTo (20 * hour) (22 * hour)) storeTwo
     = (storeTwo, Fail 400 "Scheduling conflict" NoInfo).
Proof.
  destruct schedule_conflict_iff_overlap as [Hcreate Hupdate].
  split; [|split].
  - apply (proj1 (Hcreate showtimeEnv (requestAt (20 * hour) (22 * hour)) storeS
                    (Movie.mk 100 true) theaterT eq_refl eq_refl eq_refl eq_refl)).
    exists screeningS. split; [now left|]. repeat split.
  - apply (proj2 (Hcreate showtimeEnv (requestAt (21 * hour) (23 * hour)) storeS
                    (Movie.mk 100 true) theaterT eq_refl eq_refl eq_refl eq_refl)).
    + intros [o [[<- | []] [_ [_ [H _]]]]]. discriminate H.
    + reflexivity.
    + discriminate.
    + reflexivity.
  - destruct (Hupdate showtimeEnv 2 (moveTo (20 * hour) (22 * hour)) storeTwo
                screeningLate eq_refl) as [Hiff _].
    + discriminate.
    + reflexivity.
    + reflexivity.
    + apply Hiff. exists screeningS.
      split; [now left|]. split; [discriminate|]. repeat split.
Defined.

(** C9, refuted as stated.  On a screening that carries a claim record for
    A1 while A1 is flagged available, and one for B7, which it does not
    have, the release of A1 and the release of B7 each delete a claim
    record: the state is not left as it is.  [releaseSeats] filters the
    claim records by key whatever the flags say. *)
Lemma stale_claim_is_deleted :
  ~ releaseOfFreeIsNoOp [seatA1] screeningStale
  /\ ~ releaseOfFreeIsNoOp [seatB7] screeningStale.
Proof.
  unfold releaseOfFreeIsNoOp. split; intros H.
  - assert (E : releaseSeats [seatA1] screeningStale = screeningStale).
    { apply H. intros k [<- | []]. left. reflexivity. }
    discriminate E.
  - assert (E : releaseSeats [seatB7] screeningStale = screeningStale).
    { apply H. intros k [<- | []]. right. reflexivity. }
    discriminate E.
Qed.

(** Such a state can be stored: an update of the sample screening whose
    body carries [reservedSeats] writes the stale claim records. *)
Example stale_claims_are_storable :
  updateShowtime showtimeEnv 1 staleClaims storeS
  = (mkStore [screeningStale] [] [Movie.mk 100 true] [theaterT],
     Json 200 (ShowtimeBody screeningStale)).
Proof. reflexivity. Qed.

(** On the sample screening, releasing A1 (available) and B7 (absent)
    changes nothing; and
    releasing A1 twice on the held screening is releasing it once. *)
Lemma releaseSeats_idempotent_total_witness :
  releaseSeats [seatA1; seatB7] screeningS = screeningS
  /\ releaseSeats [seatA1] (releaseSeats [seatA1] screeningHeld)
     = releaseSeats [seatA1] screeningHeld.
Proof.
  split.
  - apply (proj2 (proj2 (releaseSeats_idempotent_total [seatA1; seatB7] screeningS))).
    + intros c [].
    + intros k [<- | [<- | []]]; [left | right]; reflexivity.
  - apply (proj1 (proj2 (releaseSeats_idempotent_total [seatA1] screeningHeld))).
Defined.

(** A1 is held by V; the release of the seats of the reservation of U,
    which names A1, deletes
    the claim record of V and flags A1 available. *)
Lemma releaseSeats_ignores_holder_witness :
  ~ In (ReservedSeat.mk "A" 1 20 (8 * hour))
       (Showtime.reservedSeats
          (releaseSeats
             (map ReservationSeat.key (Reservation.seats (reservationOfU "confirmed")))
             screeningShared))
  /\ flagOf seatA1
       (Showtime.availableSeats
          (releaseSeats
             (map ReservationSeat.key (Reservation.seats (reservationOfU "confirmed")))
             screeningShared))
     = Some true.
Proof.
  destruct (releaseSeats_ignores_holder
              (map ReservationSeat.key (Reservation.seats (reservationOfU "confirmed")))
              screeningShared seatA1 (ReservedSeat.mk "A" 1 20 (8 * hour)))
    as [Hgone [_ Hflag]].
  - left. reflexivity.
  - left. reflexivity.
  - reflexivity.
  - split; [exact Hgone|].
    unfold flagOf. rewrite (Hflag _ eq_refl). reflexivity.
Defined.

(** The scenario of the specification, both ways.  With A1 and A2 held by
    U, the request of V for A1 is refused, names A1, and leaves the store as
    it was; on the fresh screening, the request of U for A1 and A2 stores
    the two claim records of U and flags both seats unavailable. *)
Lemma claim_all_or_nothing_witness :
  createReservation (bookingEnv 502 true) (mkBooking 1 [seatA1]) userV
    (storeWith "confirmed")
  = (storeWith "confirmed", Fail 400 "Seats unavailable" (SeatList [seatA1]))
  /\ exists claimed,
       findById Showtime._id 1
         (showtimes (fst (createReservation (bookingEnv 501 true)
                            (mkBooking 1 [seatA1; seatA2]) userU storeS)))
       = Some claimed
       /\ Showtime.reservedSeats claimed
          = [claimFor 10 (9 * hour) seatA1; claimFor 10 (9 * hour) seatA2]
       /\ flagOf seatA1 (Showtime.availableSeats claimed) = Some false
       /\ flagOf seatA2 (Showtime.availableSeats claimed) = Some false.
Proof.
  split.
  - apply (proj1 (claim_all_or_nothing (bookingEnv 502 true) (mkBooking 1 [seatA1])
                    userV (storeWith "confirmed") screeningHeld
                    eq_refl eq_refl eq_refl)).
    exists seatA1. split; [now left|].
    intros [s [[<- | [<- | []]] [_ Hav]]]; discriminate Hav.
  - destruct (claim_all_or_nothing (bookingEnv 501 true)
                (mkBooking 1 [seatA1; seatA2]) userU storeS screeningS
                eq_refl eq_refl eq_refl) as [_ [Hall _]].
    edestruct Hall as [Hst [claimed [Hfound [Hclaims [Hflags _]]]]].
    + cbv. reflexivity.
    + rewrite Hst. exists claimed. split; [exact Hfound|]. split; [exact Hclaims|].
      unfold flagOf. split.
      * destruct (Hflags seatA1 (or_introl eq_refl)) as [s [_ ->]]. reflexivity.
      * destruct (Hflags seatA2 (or_intror (or_introl eq_refl))) as [s [_ ->]].
        reflexivity.
Defined.

(** ** The scenario, run *)

(** [reserveSeats] on its own is not all or nothing on the document it is
    called on: asked for A1 and B7 on the sample screening it throws on B7
    with the flag of A1 already cleared, and no claim record pushed.  The
    handler never saves such a document: its own test refuses the request
    before the method is called, and a throw of the method skips the
    write. *)
Example reserveSeats_throw_keeps_cleared_flag :
  reserveSeats [seatA1; seatB7] 10 (9 * hour) screeningS
  = (Showtime.withSeats
       [AvailableSeat.mk "A" 1 regular 10 false;
        AvailableSeat.mk "A" 2 regular 10 true] [] screeningS,
     inl (SeatNotAvailable "B" 7)).
Proof. reflexivity. Qed.

(** A request that names an available seat twice passes the test of the
    handler and makes [reserveSeats] throw; the store is left as it was. *)
Example twice_named_seat_is_refused :
  createReservation (bookingEnv 501 true) (mkBooking 1 [seatA1; seatA1]) userU storeS
  = (storeS, Fail 400 "Seat reservation failed" (Thrown (SeatNotAvailable "A" 1))).
Proof. reflexivity. Qed.

(** U asks for A1 and A2: both seats are claimed in the stored screening,
    the reservation is refused by its validation, and the answer is 400. *)
Example booking_of_U :
  createReservation (bookingEnv 501 true) (mkBooking 1 [seatA1; seatA2]) userU storeS
  = (mkStore
       [Showtime.withSeats
          [AvailableSeat.mk "A" 1 regular 10 false;
           AvailableSeat.mk "A" 2 regular 10 false]
          [claimFor 10 (9 * hour) seatA1; claimFor 10 (9 * hour) seatA2]
          screeningS]
       []
       [Movie.mk 100 true] [theaterT],
     Fail 400 "Seat reservation failed" (Thrown NumberRequired)).
Proof. reflexivity. Qed.

(** The reservation that the handler has built for that request: total 20,
    status 'pending', no number. *)
Example reservation_of_U :
  snd (claimPhase (bookingEnv 501 true) (mkBooking 1 [seatA1; seatA2]) userU
         (Some screeningS) storeS)
  = inr (NewReservation.mk
           (Reservation.mk 501 10 1
              [ReservationSeat.mk "A" 1 regular 10; ReservationSeat.mk "A" 2 regular 10]
              (0 + 10 + 10)%Q (0 + 10 + 10)%Q "pending" None None None None)
           None).
Proof. reflexivity. Qed.

(** U cancels 30 hours before the start: refund of nine tenths, status
    'cancelled', and both seats available again with no claim record. *)
Example cancellation_of_U :
  cancelReservation (cancelEnvAt (-11 * hour)) 501 (Some "plans changed") userU
    (storeWith "confirmed")
  = (mkStore
       [Showtime.withSeats
          [AvailableSeat.mk "A" 1 regular 10 true;
           AvailableSeat.mk "A" 2 regular 10 true] [] screeningHeld]
       [Reservation.mk 501 10 1
          [ReservationSeat.mk "A" 1 regular 10; ReservationSeat.mk "A" 2 regular 10]
          20 20 "cancelled" None (Some "plans changed") (Some (-11 * hour))
          (Some (20 * 0.9)%Q)]
       [Movie.mk 100 true] [theaterT],
     Json 200 (CancelledBody 501 "cancelled" (Some (20 * 0.9)%Q)
                 (Some "plans changed") (Some (-11 * hour)))).
Proof. reflexivity. Qed.

(** A screening as [createShowtime] builds it has no claim record, so its
    flags and claim records agree; [reserveSeats] and [releaseSeats] keep
    them in agreement. *)
Lemma no_claims_consistent (d : Showtime.t) :
  Showtime.reservedSeats d = [] -> consistent d.
Proof. intros H c Hin. rewrite H in Hin. destruct Hin. Qed.

(** * Further properties *)

(** ** The inventory under claims and releases *)

Lemma reserveLoop_identity (seats : list Seat.t) (userId : ObjectId) (now : Date) :
  forall av acc,
    map seatIdentity (fst (reserveLoop seats userId now av acc))
    = map seatIdentity av.
Proof.
  induction seats as [|k rest IH]; intros av acc; simpl; [reflexivity|].
  destruct (find (sameSeatAvailable k) av); [|reflexivity].
  rewrite IH. apply updFirst_map. reflexivity.
Qed.

Lemma releaseSeats_identity (seats : list Seat.t) (d : Showtime.t) :
  map seatIdentity (Showtime.availableSeats (releaseSeats seats d))
  = map seatIdentity (Showtime.availableSeats d).
Proof.
  revert d. induction seats as [|k rest IH]; intros d; [reflexivity|].
  rewrite releaseSeats_cons, IH. simpl. apply updFirst_map. reflexivity.
Qed.

Lemma reserveSeats_identity (seats : list Seat.t) (userId : ObjectId) (now : Date)
    (d : Showtime.t) :
  map seatIdentity (Showtime.availableSeats (fst (reserveSeats seats userId now d)))
  = map seatIdentity (Showtime.availableSeats d).
Proof.
  unfold reserveSeats.
  pose proof (reserveLoop_identity seats userId now (Showtime.availableSeats d) [])
    as H.
  destruct (reserveLoop seats userId now (Showtime.availableSeats d) [])
    as [av [e | claims]]; exact H.
Qed.

Lemma same_identity_same_length (av av' : list AvailableSeat.t) :
  map seatIdentity av' = map seatIdentity av -> List.length av' = List.length av.
Proof.
  intros H. rewrite <- (length_map seatIdentity av'), H. apply length_map.
Qed.

(** X1.  The seats of a screening are fixed.  Whatever [reserveSeats] is
    asked and whether it returns or throws, and whatever [releaseSeats] is
    asked, the document afterwards lists the same seats in the same order,
    each with its key, class and price; only flags change. *)
Theorem seat_inventory_is_fixed :
  forall (seats : list Seat.t) (userId : ObjectId) (now : Date) (d : Showtime.t),
    map seatIdentity
        (Showtime.availableSeats (fst (reserveSeats seats userId now d)))
    = map seatIdentity (Showtime.availableSeats d)
    /\ map seatIdentity (Showtime.availableSeats (releaseSeats seats d))
       = map seatIdentity (Showtime.availableSeats d)
    /\ totalCapacity (fst (reserveSeats seats userId now d)) = totalCapacity d
    /\ totalCapacity (releaseSeats seats d) = totalCapacity d.
Proof.
  intros seats userId now d.
  pose proof (reserveSeats_identity seats userId now d) as Hres.
  pose proof (releaseSeats_identity seats d) as Hrel.
  repeat split; try assumption; unfold totalCapacity;
    now apply same_identity_same_length.
Qed.

(** Clearing the flag of an available seat takes one seat out of the
    available ones. *)
Lemma claim_one_less (k : Seat.t) (av : list AvailableSeat.t) (s : AvailableSeat.t) :
  find (sameSeatAvailable k) av = Some s ->
  S (List.length (filter AvailableSeat.isAvailable
                    (updFirst (sameSeatAvailable k)
                       (AvailableSeat.setAvailable false) av)))
  = List.length (filter AvailableSeat.isAvailable av).
Proof.
  induction av as [|x rest IH]; simpl; [discriminate|].
  destruct (sameSeatAvailable k x) eqn:Hx.
  - intros _. unfold sameSeatAvailable in Hx. apply andb_true_iff in Hx.
    destruct Hx as [_ Hav]. simpl. now rewrite Hav.
  - intros H. simpl. destruct (AvailableSeat.isAvailable x); simpl; now rewrite IH.
Qed.

Lemma reserveLoop_count (seats : list Seat.t) (userId : ObjectId) (now : Date) :
  forall av acc av' claims,
    reserveLoop seats userId now av acc = (av', inr claims) ->
    (List.length (filter AvailableSeat.isAvailable av') + List.length seats
     = List.length (filter AvailableSeat.isAvailable av))%nat.
Proof.
  induction seats as [|k rest IH]; intros av acc av' claims H; simpl in H.
  - injection H as <- _. simpl. lia.
  - destruct (find (sameSeatAvailable k) av) as [s|] eqn:Hs; [|discriminate].
    apply IH in H. apply claim_one_less in Hs. simpl. lia.
Qed.

(** X2.  The counters of a screening follow a claim.  When [reserveSeats]
    returns, the number of available seats has gone down by the number of
    requested seats, the number of claim records has gone up by the same
    number, and the capacity is the same.  In particular a request for more
    seats than are available cannot return. *)
Theorem reserveSeats_counts :
  forall (seats : list Seat.t) (userId : ObjectId) (now : Date)
         (d claimed : Showtime.t) (claims : list ReservedSeat.t),
    reserveSeats seats userId now d = (claimed, inr claims) ->
    (availableSeatsCount claimed + List.length seats = availableSeatsCount d)%nat
    /\ (reservedSeatsCount claimed = reservedSeatsCount d + List.length seats)%nat
    /\ totalCapacity claimed = totalCapacity d
    /\ (List.length seats <= availableSeatsCount d)%nat.
Proof.
  intros seats userId now d claimed claims H.
  pose proof (reserveSeats_done _ _ _ _ _ _ H) as [Hcl [Hrs _]].
  pose proof (same_identity_same_length _ _ (reserveSeats_identity seats userId now d))
    as Hcap.
  rewrite H in Hcap. simpl in Hcap.
  unfold reserveSeats in H.
  destruct (reserveLoop seats userId now (Showtime.availableSeats d) [])
    as [av [e | cl]] eqn:Hloop; [discriminate|].
  injection H as <- <-. apply reserveLoop_count in Hloop.
  unfold availableSeatsCount, reservedSeatsCount. simpl.
  rewrite length_app. simpl in Hcl. rewrite Hcl, length_map.
  repeat split; try lia. exact Hcap.
Qed.

(** ** Claim, then release *)

Lemma uniqueKeys_no_second (k : Seat.t) (x : AvailableSeat.t)
    (rest : list AvailableSeat.t) :
  uniqueKeys (x :: rest) -> sameSeat k x = true ->
  forall y, In y rest -> sameSeat k y = false.
Proof.
  unfold uniqueKeys. simpl. intros Hnd Hx y Hy.
  inversion Hnd as [|? ? Hnot _]; subst.
  destruct (sameSeat k y) eqn:Hky; [|reflexivity].
  exfalso. apply Hnot. apply sameSeat_key in Hx. apply sameSeat_key in Hky.
  rewrite Hx, <- Hky. now apply in_map.
Qed.

Lemma map_fixed {A : Type} (g : A -> A) (l : list A) :
  (forall y, In y l -> g y = y) -> map g l = l.
Proof.
  induction l as [|x rest IH]; simpl; intros H; [reflexivity|].
  rewrite (H x (or_introl eq_refl)), IH; [reflexivity|].
  intros y Hy. apply H. now right.
Qed.

(** With unique keys, writing the flag of the seat found for [k] is
    writing the flag of every record with key [k]. *)
Lemma updFirst_key_as_map (b : bool) (k : Seat.t) (av : list AvailableSeat.t) :
  uniqueKeys av ->
  updFirst (sameSeat k) (AvailableSeat.setAvailable b) av = flagAll b [k] av.
Proof.
  unfold flagAll. induction av as [|x rest IH]; simpl; intros Hu; [reflexivity|].
  rewrite orb_false_r. destruct (sameSeat k x) eqn:Hx.
  - f_equal. symmetry. apply map_fixed. intros y Hy. simpl.
    now rewrite (uniqueKeys_no_second k x rest Hu Hx y Hy).
  - f_equal. apply IH. unfold uniqueKeys in *. simpl in Hu. now inversion Hu.
Qed.

Lemma updFirst_available_as_map (k : Seat.t) (av : list AvailableSeat.t)
    (t : AvailableSeat.t) :
  uniqueKeys av ->
  find (sameSeatAvailable k) av = Some t ->
  updFirst (sameSeatAvailable k) (AvailableSeat.setAvailable false) av
  = flagAll false [k] av.
Proof.
  unfold flagAll. induction av as [|x rest IH]; simpl; intros Hu Hfind;
    [reflexivity|].
  rewrite orb_false_r. unfold sameSeatAvailable in *.
  destruct (sameSeat k x) eqn:Hx; simpl in *.
  - destruct (AvailableSeat.isAvailable x) eqn:Hav.
    + f_equal. symmetry. apply map_fixed. intros y Hy. simpl.
      now rewrite (uniqueKeys_no_second k x rest Hu Hx y Hy).
    + exfalso. apply find_some in Hfind. destruct Hfind as [Hin Hp].
      apply andb_true_iff in Hp. destruct Hp as [Hp _].
      rewrite (uniqueKeys_no_second k x rest Hu Hx t Hin) in Hp. discriminate.
  - f_equal. apply IH; [|exact Hfind].
    unfold uniqueKeys in *. simpl in Hu. now inversion Hu.
Qed.

Lemma flagAll_keys (b : bool) (seats : list Seat.t) (av : list AvailableSeat.t) :
  map keyOfSeat (flagAll b seats av) = map keyOfSeat av.
Proof.
  unfold flagAll. rewrite map_map. apply map_ext. intros s.
  now destruct (existsb (fun k => sameSeat k s) seats).
Qed.

Lemma flagAll_cons (b : bool) (k : Seat.t) (seats : list Seat.t)
    (av : list AvailableSeat.t) :
  flagAll b seats (flagAll b [k] av) = flagAll b (k :: seats) av.
Proof.
  unfold flagAll. rewrite map_map. apply map_ext. intros s. simpl.
  rewrite orb_false_r. destruct (sameSeat k s) eqn:Hk; simpl.
  - assert (H : existsb (fun k0 => sameSeat k0 (AvailableSeat.setAvailable b s)) seats
                = existsb (fun k0 => sameSeat k0 s) seats) by reflexivity.
    rewrite H. now destruct (existsb (fun k0 => sameSeat k0 s) seats).
  - reflexivity.
Qed.

(** With unique keys, a claim that returns has cleared the flag of every
    requested seat and of no other, and every requested seat was available
    before. *)
Lemma reserveLoop_flagAll (seats : list Seat.t) (userId : ObjectId) (now : Date) :
  forall av acc av' claims,
    uniqueKeys av ->
    reserveLoop seats userId now av acc = (av', inr claims) ->
    av' = flagAll false seats av
    /\ forall s, In s av -> existsb (fun k => sameSeat k s) seats = true ->
                 AvailableSeat.isAvailable s = true.
Proof.
  induction seats as [|k rest IH]; intros av acc av' claims Hu H; simpl in H.
  - injection H as <- _. split.
    + unfold flagAll. simpl. symmetry. now apply map_fixed.
    + intros s _ Hs. discriminate.
  - destruct (find (sameSeatAvailable k) av) as [t|] eqn:Hfind; [|discriminate].
    rewrite (updFirst_available_as_map k av t Hu Hfind) in H.
    apply IH in H.
    2:{ unfold uniqueKeys. now rewrite flagAll_keys. }
    destruct H as [-> Hall]. split; [apply flagAll_cons|].
    intros s Hin Hex. simpl in Hex.
    destruct (sameSeat k s) eqn:Hks.
    + destruct (found_available_key _ _ _ Hfind) as [Hkt Hav].
      apply find_some in Hfind. destruct Hfind as [Htin _].
      apply sameSeat_key in Hks.
      assert (s = t) by (apply (unique_key_record av); congruence).
      now subst.
    + simpl in Hex.
      specialize (Hall (if existsb (fun k0 => sameSeat k0 s) [k]
                        then AvailableSeat.setAvailable false s else s)).
      simpl in Hall. rewrite Hks in Hall. simpl in Hall. apply Hall; [|exact Hex].
      unfold flagAll. apply in_map_iff. exists s. simpl. now rewrite Hks.
Qed.

Lemma releaseSeats_flagAll (seats : list Seat.t) (d : Showtime.t) :
  uniqueKeys (Showtime.availableSeats d) ->
  Showtime.availableSeats (releaseSeats seats d)
  = flagAll true seats (Showtime.availableSeats d).
Proof.
  revert d. induction seats as [|k rest IH]; intros d Hu.
  - unfold flagAll. simpl. symmetry. now apply map_fixed.
  - rewrite releaseSeats_cons, IH.
    + simpl. rewrite (updFirst_key_as_map true k _ Hu). apply flagAll_cons.
    + simpl. rewrite (updFirst_key_as_map true k _ Hu).
      unfold uniqueKeys. now rewrite flagAll_keys.
Qed.

(** [releaseSeats] writes the two seat arrays and nothing else. *)
Lemma releaseSeats_fields (seats : list Seat.t) (d : Showtime.t) :
  releaseSeats seats d
  = Showtime.withSeats (Showtime.availableSeats (releaseSeats seats d))
      (Showtime.reservedSeats (releaseSeats seats d)) d.
Proof.
  revert d. induction seats as [|k rest IH]; intros d.
  - simpl. symmetry. apply withSeats_same.
  - rewrite releaseSeats_cons. rewrite IH at 1. reflexivity.
Qed.

Lemma releaseSeats_after_reserveSeats (seats : list Seat.t) (userId : ObjectId)
    (now : Date) (d claimed : Showtime.t) (claims : list ReservedSeat.t) :
  uniqueKeys (Showtime.availableSeats d) ->
  consistent d ->
  reserveSeats seats userId now d = (claimed, inr claims) ->
  releaseSeats seats claimed = d.
Proof.
  intros Hu Hc H.
  pose proof (reserveSeats_done _ _ _ _ _ _ H) as [Hcl [Hrs [_ [_ [Hkeys _]]]]].
  assert (Hav : Showtime.availableSeats claimed
                = flagAll false seats (Showtime.availableSeats d)
                /\ forall s, In s (Showtime.availableSeats d) ->
                             existsb (fun k => sameSeat k s) seats = true ->
                             AvailableSeat.isAvailable s = true).
  { unfold reserveSeats in H.
    destruct (reserveLoop seats userId now (Showtime.availableSeats d) [])
      as [av [e | cl]] eqn:Hloop; [discriminate|].
    injection H as <- _. simpl. eapply reserveLoop_flagAll; eauto. }
  destruct Hav as [Hflags Hwere].
  assert (Hfields : claimed
                    = Showtime.withSeats (Showtime.availableSeats claimed)
                        (Showtime.reservedSeats claimed) d).
  { unfold reserveSeats in H.
    destruct (reserveLoop seats userId now (Showtime.availableSeats d) [])
      as [av [e | cl]]; [discriminate|].
    injection H as <- _. reflexivity. }
  rewrite releaseSeats_fields, releaseSeats_flagAll, releaseSeats_reserved
    by (unfold uniqueKeys; now rewrite Hkeys).
  rewrite Hflags, Hrs, Hcl, filter_app.
  assert (Hback : flagAll true seats (flagAll false seats (Showtime.availableSeats d))
                  = Showtime.availableSeats d).
  { unfold flagAll. rewrite map_map. apply map_fixed. intros s Hs.
    destruct (existsb (fun k => sameSeat k s) seats) eqn:Hex.
    - assert (H' : existsb (fun k => sameSeat k (AvailableSeat.setAvailable false s))
                     seats = true) by exact Hex.
      rewrite H'. rewrite <- (Hwere s Hs Hex) at 1.
      unfold AvailableSeat.setAvailable. simpl. now destruct s.
    - now rewrite Hex. }
  assert (Hold : filter (fun c => negb (existsb (fun k => sameClaim k c) seats))
                   (Showtime.reservedSeats d) = Showtime.reservedSeats d).
  { apply filter_keeps_all. intros c Hin. apply negb_true_iff.
    destruct (existsb (fun k => sameClaim k c) seats) eqn:Hex; [|reflexivity].
    exfalso. apply existsb_exists in Hex. destruct Hex as [k [Hk Hkc]].
    apply sameClaim_key in Hkc. specialize (Hc c Hin). unfold flagOf in Hc.
    destruct (find (sameSeat (keyOfClaim c)) (Showtime.availableSeats d))
      as [s|] eqn:Hs; [|discriminate].
    simpl in Hc. injection Hc as Hc.
    apply find_some in Hs. destruct Hs as [Hin' Hsame].
    rewrite (Hwere s Hin') in Hc; [discriminate|].
    apply existsb_exists. exists k. split; [assumption|]. now rewrite <- Hkc. }
  assert (Hnew : filter (fun c => negb (existsb (fun k => sameClaim k c) seats))
                   (map (claimFor userId now) seats) = []).
  { assert (Hgen : forall l, (forall k, In k l -> In k seats) ->
                     filter (fun c => negb (existsb (fun k => sameClaim k c) seats))
                       (map (claimFor userId now) l) = []).
    { induction l as [|k l IHl]; intros Hsub; [reflexivity|]. simpl.
      assert (Hex : existsb (fun k0 => sameClaim k0 (claimFor userId now k)) seats
                    = true).
      { apply existsb_exists. exists k. split; [apply Hsub; now left|].
        apply sameClaim_key. now destruct k. }
      rewrite Hex. simpl. apply IHl. intros k0 Hk0. apply Hsub. now right. }
    apply Hgen. auto. }
  rewrite Hback, Hold, Hnew, app_nil_r.
  set (a := Showtime.availableSeats claimed) in Hfields.
  set (r := Showtime.reservedSeats claimed) in Hfields.
  clearbody a r. rewrite Hfields. now destruct d.
Qed.

(** X3.  Releasing what was claimed restores the screening.  On a document
    with unique seat keys whose flags agree with its claim records, if
    [reserveSeats] returns, then [releaseSeats] of the same seats on the
    claimed document gives back the document of before: the same flags and
    the same claim records. *)
Theorem release_undoes_reserve :
  forall (seats : list Seat.t) (userId : ObjectId) (now : Date)
         (d claimed : Showtime.t) (claims : list ReservedSeat.t),
    uniqueKeys (Showtime.availableSeats d) ->
    consistent d ->
    reserveSeats seats userId now d = (claimed, inr claims) ->
    releaseSeats seats claimed = d.
Proof.
  intros seats userId now d claimed claims Hu Hc H.
  exact (releaseSeats_after_reserveSeats seats userId now d claimed claims Hu Hc H).
Qed.

(** ** What a booking comes to *)

Lemma In_updFirst_untouched {A : Type} (p : A -> bool) (f : A -> A) (l : list A)
    (x : A) :
  In x l -> p x = false -> In x (updFirst p f l).
Proof.
  induction l as [|y rest IH]; simpl; [tauto|].
  intros [-> | Hin] Hp.
  - rewrite Hp. now left.
  - destruct (p y); right; [assumption | now apply IH].
Qed.

(** Seats that can be claimed and are named once each are claimed by the
    loop of [reserveSeats]. *)
Lemma reserveLoop_returns (seats : list Seat.t) (userId : ObjectId) (now : Date) :
  forall av acc,
    NoDup seats ->
    (forall k, In k seats -> bookable k av) ->
    exists av' claims, reserveLoop seats userId now av acc = (av', inr claims).
Proof.
  induction seats as [|k rest IH]; intros av acc Hnd Hall; simpl; [eauto|].
  inversion Hnd as [|? ? Hnot Hrest]; subst.
  destruct (find (sameSeatAvailable k) av) as [t|] eqn:Hfind.
  - apply IH; [assumption|].
    intros k' Hk'. destruct (Hall k' (or_intror Hk')) as [s [Hin [Hkey Hav]]].
    exists s. split; [|split; assumption].
    apply In_updFirst_untouched; [assumption|].
    unfold sameSeatAvailable. destruct (sameSeat k s) eqn:Hks; [|reflexivity].
    apply sameSeat_key in Hks. exfalso. apply Hnot. congruence.
  - apply find_available_none in Hfind. exfalso. apply Hfind. apply Hall. now left.
Qed.

(** With unique keys, a claim that returns was asked each seat once. *)
Lemma reserveLoop_named_once (seats : list Seat.t) (userId : ObjectId) (now : Date) :
  forall av acc av' claims,
    uniqueKeys av ->
    reserveLoop seats userId now av acc = (av', inr claims) ->
    NoDup seats.
Proof.
  induction seats as [|k rest IH]; intros av acc av' claims Hu H; simpl in H;
    [constructor|].
  destruct (find (sameSeatAvailable k) av) as [t|] eqn:Hfind; [|discriminate].
  assert (Hu1 : uniqueKeys (updFirst (sameSeatAvailable k)
                              (AvailableSeat.setAvailable false) av)).
  { unfold uniqueKeys. rewrite updFirst_map; [exact Hu | reflexivity]. }
  constructor; [|eapply IH; eauto].
  intros Hin.
  destruct (reserveLoop_flagAll _ _ _ _ _ _ _ Hu1 H) as [_ Hwere].
  destruct (find_key_claim _ _ _ Hfind) as [u [_ Hu']].
  apply find_some in Hu'. destruct Hu' as [Hin' Hsame].
  specialize (Hwere _ Hin'). simpl in Hwere.
  assert (Hex : existsb (fun k0 => sameSeat k0 (AvailableSeat.setAvailable false u))
                  rest = true).
  { apply existsb_exists. exists k. split; assumption. }
  specialize (Hwere Hex). discriminate.
Qed.

Lemma priceLoop_returns (seats : list Seat.t) (av : list AvailableSeat.t) :
  forall acc total,
    (forall k, In k seats -> bookable k av) ->
    exists rs tot, priceLoop seats av acc total = Some (rs, tot).
Proof.
  induction seats as [|k rest IH]; intros acc total Hall; simpl; [eauto|].
  destruct (find (sameSeat k) av) as [s|] eqn:Hs.
  - apply IH. intros k' Hk'. apply Hall. now right.
  - exfalso. destruct (Hall k (or_introl eq_refl)) as [s [Hin [Hkey Hav]]].
    apply (find_none _ _ Hs) in Hin. apply sameSeat_key in Hkey. congruence.
Qed.

Lemma unavailableSeats_nil (seats : list Seat.t) (av : list AvailableSeat.t) :
  unavailableSeats seats av = [] <-> forall k, In k seats -> bookable k av.
Proof.
  split.
  - intros Hnil k Hk.
    destruct (find (sameSeatAvailable k) av) as [s|] eqn:Hs.
    + destruct (found_available_key _ _ _ Hs) as [Hkey Hav].
      apply find_some in Hs. exists s. tauto.
    + assert (Hin : In k (unavailableSeats seats av)).
      { apply unavailableSeats_spec. split; [assumption|].
        now apply find_available_none. }
      rewrite Hnil in Hin. destruct Hin.
  - intros Hall.
    destruct (unavailableSeats seats av) as [|k l] eqn:E; [reflexivity|].
    assert (Hin : In k (unavailableSeats seats av)) by (rewrite E; now left).
    apply unavailableSeats_spec in Hin. destruct Hin as [Hk Hno].
    exfalso. apply Hno. now apply Hall.
Qed.

(** [reserveSeats] throws nothing but its own error. *)
Lemma reserveLoop_throws (seats : list Seat.t) (userId : ObjectId) (now : Date) :
  forall av acc av' e,
    reserveLoop seats userId now av acc = (av', inl e) ->
    exists row number, e = SeatNotAvailable row number.
Proof.
  induction seats as [|k rest IH]; intros av acc av' e H; simpl in H; [discriminate|].
  destruct (find (sameSeatAvailable k) av) as [t|].
  - eapply IH; eassumption.
  - injection H as _ <-. eauto.
Qed.

(** An answer of the claim phase is not the validation error of the
    reservation. *)
Lemma claimPhase_not_number (env : BookingEnv) (req : Booking) (user : User)
    (loaded : option Showtime.t) (st st1 : Store) (code : Z) (error : string) :
  claimPhase env req user loaded st
  <> (st1, inl (Fail code error (Thrown NumberRequired))).
Proof.
  unfold claimPhase, claimPhaseWith, writeAlone. destruct loaded as [doc|];
    [|discriminate].
  destruct (negb (Showtime.isActive doc)); [discriminate|].
  destruct (Showtime.startTime doc <=? bookingNow env); [discriminate|].
  cbv zeta.
  destruct (0 <? List.length
                   (unavailableSeats (bookingSeats req) (Showtime.availableSeats doc)))%nat;
    [discriminate|].
  destruct (priceLoop (bookingSeats req) (Showtime.availableSeats doc) [] 0%Q)
    as [[rs tot]|]; [|discriminate].
  unfold reserveSeats.
  destruct (reserveLoop (bookingSeats req) (uid user) (bookingNow env)
              (Showtime.availableSeats doc) []) as [av [e | claims]] eqn:Hloop.
  - destruct (reserveLoop_throws _ _ _ _ _ _ _ Hloop) as [row [number ->]].
    discriminate.
  - unfold saveShowtime, showtimePreSave. cbn [andb].
    destruct (Showtime.endTime _ <=? Showtime.startTime _); [discriminate|].
    destruct (showtimeSaveAccepted env); discriminate.
Qed.

(** The conditions under which the claim is written. *)
Lemma claim_goes_through (env : BookingEnv) (req : Booking) (user : User)
    (st : Store) (doc : Showtime.t) :
  Showtime.isActive doc = true ->
  bookingNow env < Showtime.startTime doc ->
  Showtime.startTime doc < Showtime.endTime doc ->
  (forall k, In k (bookingSeats req) -> bookable k (Showtime.availableSeats doc)) ->
  NoDup (bookingSeats req) ->
  showtimeSaveAccepted env = true ->
  exists n,
    claimPhase env req user (Some doc) st = (claimedStore env req user doc st, inr n).
Proof.
  intros Hact Hfut Hlt Hall Hnd Hacc1.
  unfold claimedStore, claimPhase, claimPhaseWith, writeAlone. rewrite Hact. cbn [negb].
  apply Z.leb_gt in Hfut. rewrite Hfut.
  rewrite (proj2 (unavailableSeats_nil _ _) Hall). cbn [List.length Nat.ltb Nat.leb].
  destruct (priceLoop_returns (bookingSeats req) (Showtime.availableSeats doc)
              [] 0%Q Hall) as [rs [tot Hprice]].
  rewrite Hprice.
  destruct (reserveLoop_returns (bookingSeats req) (uid user) (bookingNow env)
              (Showtime.availableSeats doc) [] Hnd Hall) as [av' [claims Hloop]].
  unfold reserveSeats. rewrite Hloop.
  unfold saveShowtime, showtimePreSave. simpl.
  apply Z.leb_gt in Hlt. rewrite Hlt, Hacc1. eauto.
Qed.

(** A claim that is written is followed by the refusal of the
    reservation. *)
Lemma claimed_then_refused (env : BookingEnv) (req : Booking) (user : User)
    (st st1 : Store) (doc : Showtime.t) (n : NewReservation.t) :
  loadPhase req st = Some doc ->
  claimPhase env req user (Some doc) st = (st1, inr n) ->
  createReservation env req user st = (st1, claimedThenRefused).
Proof.
  intros Hload Hclaim. unfold createReservation. rewrite Hload, Hclaim.
  apply persistPhase_unnumbered.
  exact (claimPhaseWith_unnumbered _ _ _ _ _ _ _ _ Hclaim).
Qed.

(** X4.  What a booking comes to.  The handler never answers 201.  On a
    screening that is found and has unique seat keys, it writes the claim of
    the requested seats and then answers 400 on the validation of the
    reservation if and only if the screening is active, starts after the
    clock reading and ends after it starts, every requested seat can be
    claimed, no seat is requested twice, and the storage layer accepts the
    write of the screening. *)
Theorem booking_claims_iff :
  forall (env : BookingEnv) (req : Booking) (user : User) (st : Store)
         (doc : Showtime.t),
    loadPhase req st = Some doc ->
    uniqueKeys (Showtime.availableSeats doc) ->
    (createReservation env req user st
       = (claimedStore env req user doc st, claimedThenRefused)
     <-> Showtime.isActive doc = true
         /\ bookingNow env < Showtime.startTime doc
         /\ Showtime.startTime doc < Showtime.endTime doc
         /\ (forall k, In k (bookingSeats req) ->
                       bookable k (Showtime.availableSeats doc))
         /\ NoDup (bookingSeats req)
         /\ showtimeSaveAccepted env = true)
    /\ (forall st' code b,
          createReservation env req user st <> (st', Json code b)).
Proof.
  intros env req user st doc Hload Hu. split; [split|].
  - intros Hrun.
    destruct (createReservation_cases env req user st)
      as [[c [e [i [Hclaim Hans]]]] | [st1 [n [Hclaim Hans]]]].
    { rewrite Hans in Hrun. injection Hrun as _ -> -> ->.
      now apply claimPhase_not_number in Hclaim. }
    apply claimPhase_claimed in Hclaim.
    destruct Hclaim as [doc0 [rs [tot [claimed [claims Hc]]]]].
    destruct Hc as [Hdoc [Hact [Hfut [Hun [_ [_ [Hres Hsave]]]]]]].
    rewrite Hload in Hdoc. injection Hdoc as <-.
    pose proof (reserveSeats_done _ _ _ _ _ _ Hres)
      as [_ [_ [_ [_ [_ [_ [Hstart [Hend _]]]]]]]].
    assert (Hnd : NoDup (bookingSeats req)).
    { unfold reserveSeats in Hres.
      destruct (reserveLoop (bookingSeats req) (uid user) (bookingNow env)
                  (Showtime.availableSeats doc) []) as [av [e | cl]] eqn:Hloop;
        [discriminate|].
      eapply reserveLoop_named_once; eauto. }
    unfold saveShowtime, showtimePreSave in Hsave. simpl in Hsave.
    rewrite Hstart, Hend in Hsave.
    destruct (Showtime.endTime doc <=? Showtime.startTime doc) eqn:Hle;
      [discriminate|].
    apply Z.leb_gt in Hle.
    destruct (showtimeSaveAccepted env); [|discriminate].
    repeat split; try assumption. now apply unavailableSeats_nil.
  - intros [Hact [Hfut [Hlt [Hall [Hnd Hacc1]]]]].
    destruct (claim_goes_through env req user st doc Hact Hfut Hlt Hall Hnd Hacc1)
      as [n Hclaim].
    exact (claimed_then_refused _ _ _ _ _ _ _ Hload Hclaim).
  - intros st' code b Hrun.
    destruct (createReservation_cases env req user st)
      as [[c [e [i [_ Hans]]]] | [st1 [n [_ Hans]]]];
      rewrite Hans in Hrun; discriminate.
Qed.

(** X5.  What a booking writes.  Every call is answered with a failure and
    leaves the reservations, movies and theaters of before; and unless the
    answer is the refusal of the reservation by its validation, which comes
    after the write of the claim, the whole store is the store of before. *)
Theorem refused_booking_writes_nothing :
  forall (env : BookingEnv) (req : Booking) (user : User) (st st' : Store)
         (resp : Response),
    createReservation env req user st = (st', resp) ->
    (exists code error info, resp = Fail code error info)
    /\ reservations st' = reservations st
    /\ movies st' = movies st
    /\ theaters st' = theaters st
    /\ (resp <> claimedThenRefused -> st' = st).
Proof.
  intros env req user st st' resp Hrun.
  destruct (createReservation_cases env req user st)
    as [[c [e [i [_ Hans]]]] | [st1 [n [Hclaim Hans]]]];
    rewrite Hans in Hrun; injection Hrun as <- <-.
  - repeat split. eauto.
  - apply claimPhase_claimed in Hclaim.
    destruct Hclaim as [doc [rs [tot [claimed [claims Hc]]]]].
    destruct Hc as [_ [_ [_ [_ [_ [_ [_ Hsave]]]]]]].
    apply saveShowtime_written in Hsave. destruct Hsave as [-> _].
    repeat split.
    + unfold claimedThenRefused. eauto.
    + intros Hne. now elim Hne.
Qed.

(** ** The reservation that a booking builds *)

Lemma priceOrZero_price (p : Q) : (priceOrZero (Some p) == p)%Q.
Proof.
  unfold priceOrZero. destruct (Qeq_bool p 0) eqn:E; [|reflexivity].
  apply Qeq_bool_eq in E. now symmetry.
Qed.

(** The total of the second loop of the handler is the total that
    [calculateTotalPrice] computes for the same seats. *)
Lemma captured_total (d : Showtime.t) (seats : list Seat.t)
    (caps : list ReservationSeat.t) :
  Forall2 (fun k c => captured (Showtime.availableSeats d) k = Some c) seats caps ->
  forall t1 t2 : Q,
    (t1 == t2)%Q ->
    (fold_left (fun t c => t + ReservationSeat.price c) caps t1
     == fold_left (fun total seat => total + priceOrZero (getSeatPrice seat d))
          seats t2)%Q.
Proof.
  induction 1 as [|k c seats caps Hcap _ IH]; intros t1 t2 Ht; simpl; [exact Ht|].
  apply IH. unfold captured, getSeatPrice in *.
  destruct (find (sameSeat k) (Showtime.availableSeats d)) as [s|]; [|discriminate].
  cbn [option_map] in *. injection Hcap as <-. cbn [ReservationSeat.price].
  apply Qplus_comp; [exact Ht|]. symmetry. apply priceOrZero_price.
Qed.

Lemma captured_keys (av : list AvailableSeat.t) (seats : list Seat.t)
    (caps : list ReservationSeat.t) :
  Forall2 (fun k c => captured av k = Some c) seats caps ->
  map ReservationSeat.key caps = seats.
Proof.
  induction 1 as [|k c seats caps Hc _ IH]; [reflexivity|].
  simpl. rewrite IH. f_equal. unfold captured in Hc.
  destruct (find (sameSeat k) av); [|discriminate].
  simpl in Hc. injection Hc as <-. now destruct k.
Qed.

(** X6.  The reservation that the handler builds and hands to [save()]
    once the claim is written.  It carries the drawn [_id], the caller, the
    screening and one seat per requested seat; it is pending, with no
    check-in, cancellation or refund; its total is the sum of the captured
    seat prices, the payment amount is the total (so the payment test of the
    second hook would pass), and the total is the number that
    [calculateTotalPrice] gives for the requested seats on the screening as
    it was loaded.  It has no number, so that its save is refused by the
    validation whatever the storage layer would answer; the hook that
    generates the number comes after the validation, and the same document
    with the number of the hook would be stored. *)
Theorem built_reservation_is_priced :
  forall (env : BookingEnv) (req : Booking) (user : User) (st st1 : Store)
         (n : NewReservation.t) (doc : Showtime.t),
    claimPhase env req user (Some doc) st = (st1, inr n) ->
    Reservation._id (NewReservation.fields n) = newReservationId env
    /\ Reservation.user (NewReservation.fields n) = uid user
    /\ Reservation.showtime (NewReservation.fields n) = bookingShowtime req
    /\ Reservation.status (NewReservation.fields n) = "pending"
    /\ Reservation.checkInTime (NewReservation.fields n) = None
    /\ Reservation.cancelledAt (NewReservation.fields n) = None
    /\ Reservation.refundAmount (NewReservation.fields n) = None
    /\ seatCount (NewReservation.fields n) = List.length (bookingSeats req)
    /\ map ReservationSeat.key (Reservation.seats (NewReservation.fields n))
       = bookingSeats req
    /\ Reservation.totalAmount (NewReservation.fields n)
       = sumOfPrices (Reservation.seats (NewReservation.fields n))
    /\ Reservation.paymentAmount (NewReservation.fields n)
       = Reservation.totalAmount (NewReservation.fields n)
    /\ Reservation.preSave (NewReservation.fields n) = None
    /\ (Reservation.totalAmount (NewReservation.fields n)
        == calculateTotalPrice (bookingSeats req) doc)%Q
    /\ NewReservation.reservationNumber n = None
    /\ (forall accepted st2, insertReservation accepted n st2 = inl NumberRequired)
    /\ (forall generated st2,
          generated <> "" ->
          insertReservation true (NewReservation.numberHook true generated n) st2
          = inr (setReservations (reservations st2 ++ [NewReservation.fields n]) st2)).
Proof.
  intros env req user st st1 n doc Hclaim.
  apply claimPhase_claimed in Hclaim.
  destruct Hclaim as [doc0 [rs [tot [claimed [claims Hc]]]]].
  destruct Hc as [Hdoc [_ [_ [_ [Hprice [-> _]]]]]].
  injection Hdoc as <-.
  apply priceLoop_done in Hprice. destruct Hprice as [caps [-> [Hcaps ->]]].
  simpl. unfold seatCount, Reservation.preSave. simpl.
  rewrite Qeq_bool_refl. simpl.
  assert (Hkeys : map ReservationSeat.key caps = bookingSeats req)
    by (eapply captured_keys; exact Hcaps).
  repeat split; try assumption.
  - rewrite <- Hkeys. now rewrite length_map.
  - unfold calculateTotalPrice. apply captured_total; [exact Hcaps | reflexivity].
  - intros generated st2 Hg.
    unfold insertReservation, NewReservation.validate, Reservation.preSave. simpl.
    apply String.eqb_neq in Hg. rewrite Hg. simpl. now rewrite Qeq_bool_refl.
Qed.

(** ** What a cancellation does *)

Lemma saveReservation_written (accepted : bool) (r : Reservation.t)
    (st st1 : Store) :
  saveReservation accepted r st = inr st1 ->
  st1 = setReservations (replaceById Reservation._id r (reservations st)) st
  /\ accepted = true.
Proof.
  unfold saveReservation. destruct (Reservation.preSave r); [discriminate|].
  destruct accepted; [|discriminate]. intros H. injection H as <-. now split.
Qed.

(** A cancellation that is answered 200, taken apart. *)
Lemma cancelReservation_done (env : CancelEnv) (id : ObjectId)
    (reason : option string) (user : User) (st st' : Store) (code : Z) (b : Body) :
  cancelReservation env id reason user st = (st', Json code b) ->
  exists r sh,
    findById Reservation._id id (reservations st) = Some r
    /\ findById Showtime._id (Reservation.showtime r) (showtimes st) = Some sh
    /\ (role user = "admin" \/ Reservation.user r = uid user)
    /\ Reservation.isCancellable (Some sh) (guardNow env) r = true
    /\ reservations st'
       = replaceById Reservation._id
           (Reservation.withRefund
              (Reservation.refundFor (Reservation.totalAmount r)
                 (Reservation.hoursUntilShowtime sh (refundNow env)))
              (Reservation.withCancellation reason (stampNow env)
                 (Reservation.withStatus "cancelled" r)))
           (reservations st)
    /\ showtimes st'
       = replaceById Showtime._id
           (releaseSeats (map ReservationSeat.key (Reservation.seats r)) sh)
           (showtimes st)
    /\ code = 200
    /\ b = cancelledBody
             (Reservation.withRefund
                (Reservation.refundFor (Reservation.totalAmount r)
                   (Reservation.hoursUntilShowtime sh (refundNow env)))
                (Reservation.withCancellation reason (stampNow env)
                   (Reservation.withStatus "cancelled" r))).
Proof.
  unfold cancelReservation.
  destruct (findById Reservation._id id (reservations st)) as [r|] eqn:Hr;
    [|discriminate].
  destruct (negb (String.eqb (role user) "admin")
            && negb (Reservation.user r =? uid user)) eqn:Hacc; [discriminate|].
  destruct (findById Showtime._id (Reservation.showtime r) (showtimes st))
    as [sh|] eqn:Hsh.
  2:{ destruct (Reservation.isCancellable None (guardNow env) r); [|discriminate].
      unfold Reservation.cancel.
      destruct (negb (Reservation.isCancellable None (checkNow env) r));
        discriminate. }
  destruct (Reservation.isCancellable (Some sh) (guardNow env) r) eqn:Hc;
    [|discriminate].
  cbn [negb]. unfold Reservation.cancel.
  destruct (negb (Reservation.isCancellable (Some sh) (checkNow env) r));
    [discriminate|].
  set (r' := Reservation.withRefund _ _).
  destruct (saveReservation (cancelSaveAccepted env) r' st) as [e | st1] eqn:Hsave;
    [discriminate|].
  apply saveReservation_written in Hsave. destruct Hsave as [-> _].
  cbn [showtimes setReservations].
  rewrite (findById_id _ _ _ _ Hsh), Hsh.
  match goal with
  | |- context [saveShowtime ?a ?n ?d ?s] =>
      destruct (saveShowtime a n d s) as [e | st2] eqn:Hsave2
  end; [discriminate|].
  apply saveShowtime_written in Hsave2. destruct Hsave2 as [-> _].
  intros H. injection H as <- <- <-.
  exists r, sh. repeat split; try assumption; try reflexivity.
  apply andb_false_iff in Hacc.
  destruct Hacc as [Ha | Ha]; apply negb_false_iff in Ha.
  - left. now apply String.eqb_eq.
  - right. now apply Z.eqb_eq.
Qed.

(** X7.  A cancellation that is answered 200 has stored the reservation as
    cancelled, with the reason, the time stamp and the tiered refund, and
    has stored the screening with the seats of the reservation released: no
    claim record on any of its seats is left, whoever held it, and none of
    its seats is flagged unavailable.  Seats, total and payment of the
    reservation are kept. *)
Theorem cancellation_is_stored :
  forall (env : CancelEnv) (id : ObjectId) (reason : option string) (user : User)
         (st st' : Store) (code : Z) (b : Body),
    cancelReservation env id reason user st = (st', Json code b) ->
    exists r sh r' sh',
      findById Reservation._id id (reservations st) = Some r
      /\ findById Showtime._id (Reservation.showtime r) (showtimes st) = Some sh
      /\ findById Reservation._id id (reservations st') = Some r'
      /\ findById Showtime._id (Reservation.showtime r) (showtimes st') = Some sh'
      /\ Reservation.status r' = "cancelled"
      /\ Reservation.cancellationReason r' = reason
      /\ Reservation.cancelledAt r' = Some (stampNow env)
      /\ Reservation.refundAmount r'
         = Some (Reservation.refundFor (Reservation.totalAmount r)
                   (Reservation.hoursUntilShowtime sh (refundNow env)))
      /\ Reservation.seats r' = Reservation.seats r
      /\ Reservation.totalAmount r' = Reservation.totalAmount r
      /\ sh' = releaseSeats (map ReservationSeat.key (Reservation.seats r)) sh
      /\ (forall seat, In seat (Reservation.seats r) ->
            flagOf (ReservationSeat.key seat) (Showtime.availableSeats sh')
            <> Some false
            /\ forall c, In c (Showtime.reservedSeats sh') ->
                         keyOfClaim c <> ReservationSeat.key seat).
Proof.
  intros env id reason user st st' code b Hrun.
  apply cancelReservation_done in Hrun.
  destruct Hrun as [r [sh [Hr [Hsh [_ [_ [Hres [Hshow _]]]]]]]].
  eexists r, sh, _, _. split; [exact Hr|]. split; [exact Hsh|].
  split. { rewrite Hres. apply findById_replaced with (d := r); [exact Hr|].
           exact (findById_id _ _ _ _ Hr). }
  split. { rewrite Hshow. apply findById_replaced with (d := sh); [exact Hsh|].
           rewrite releaseSeats_fields. exact (findById_id _ _ _ _ Hsh). }
  repeat split.
  - unfold flagOf.
    rewrite releaseSeats_find_released by now apply in_map.
    destruct (find (sameSeat (ReservationSeat.key seat)) (Showtime.availableSeats sh));
      simpl; congruence.
  - intros c Hc Hkey. rewrite releaseSeats_reserved in Hc.
    apply filter_In in Hc. destruct Hc as [_ Hkeep].
    apply negb_true_iff in Hkeep.
    assert (Hex : existsb (fun k => sameClaim k c)
                    (map ReservationSeat.key (Reservation.seats r)) = true).
    { apply existsb_exists. exists (ReservationSeat.key seat).
      split; [now apply in_map | now apply sameClaim_key]. }
    congruence.
Qed.

(** X8.  A cancelled reservation is closed to its holder.  After a
    cancellation that is answered 200, a second cancellation of the same
    reservation is refused and writes nothing, whoever asks and whatever the
    clock reads, and so is a check-in. *)
Theorem cancelled_reservation_is_closed :
  forall (env : CancelEnv) (id : ObjectId) (reason : option string) (user : User)
         (st st' : Store) (code : Z) (b : Body),
    cancelReservation env id reason user st = (st', Json code b) ->
    (forall env2 reason2 user2,
        cancelReservation env2 id reason2 user2 st'
        = (st', Fail 403 "Access denied" NoInfo)
        \/ cancelReservation env2 id reason2 user2 st'
           = (st', Fail 400 "Cannot cancel reservation" NoInfo))
    /\ (forall env3,
          checkInReservation env3 id st'
          = (st', Fail 400 "Invalid reservation status" NoInfo)).
Proof.
  intros env id reason user st st' code b Hrun.
  apply cancelReservation_done in Hrun.
  destruct Hrun as [r [sh [Hr [_ [_ [_ [Hres _]]]]]]].
  assert (Hstored : exists r', findById Reservation._id id (reservations st') = Some r'
                               /\ Reservation.status r' = "cancelled").
  { eexists. split.
    - rewrite Hres. apply findById_replaced with (d := r); [exact Hr|].
      exact (findById_id _ _ _ _ Hr).
    - reflexivity. }
  destruct Hstored as [r' [Hr' Hstatus]]. split.
  - intros env2 reason2 user2. now apply recancel_rejected with (r := r').
  - intros env3. unfold checkInReservation. now rewrite Hr', Hstatus.
Qed.

(** ** Who may cancel and check in *)

(** X9.  Access to a reservation.  A caller who is neither an admin nor
    the owner of the reservation is answered 403 'Access denied' on the
    cancel route, by the cancel handler itself, and on the check-in route,
    and nothing is written.  The check-in handler has no such test of its
    own: the route stops a stranger before the handler runs, and for every
    other caller the route answers what the handler answers.  The cancel
    handler repeats the test, so the cancel route always answers what the
    handler answers. *)
Theorem reservation_access :
  (forall (env : CancelEnv) (user : User) (id : ObjectId) (reason : option string)
          (st : Store),
      cancelRoute env user id reason st = cancelReservation env id reason user st)
  /\ (forall (cenv : CancelEnv) (env : CheckInEnv) (user : User) (id : ObjectId)
             (reason : option string) (st : Store) (r : Reservation.t),
         findById Reservation._id id (reservations st) = Some r ->
         role user <> "admin" ->
         Reservation.user r <> uid user ->
         cancelReservation cenv id reason user st
           = (st, Fail 403 "Access denied" NoInfo)
         /\ checkInRoute env user id st = (st, Fail 403 "Access denied" NoInfo))
  /\ (forall (env : CheckInEnv) (user : User) (id : ObjectId) (st : Store),
         (role user = "admin"
          \/ forall r, findById Reservation._id id (reservations st) = Some r ->
                       Reservation.user r = uid user) ->
         checkInRoute env user id st = checkInReservation env id st).
Proof.
  split; [|split].
  - intros env user id reason st. unfold cancelRoute, requireReservationAccess.
    destruct (String.eqb (role user) "admin") eqn:Hrole; [reflexivity|].
    unfold cancelReservation.
    destruct (findById Reservation._id id (reservations st)) as [r|]; [|reflexivity].
    rewrite Hrole. cbn [negb andb].
    destruct (negb (Reservation.user r =? uid user)); reflexivity.
  - intros cenv env user id reason st r Hr Hrole Howner.
    apply String.eqb_neq in Hrole. apply Z.eqb_neq in Howner.
    unfold cancelReservation, checkInRoute, requireReservationAccess.
    now rewrite Hr, Hrole, Howner.
  - intros env user id st Hallowed.
    unfold checkInRoute, requireReservationAccess.
    destruct (String.eqb (role user) "admin") eqn:Hrole; [reflexivity|].
    destruct Hallowed as [Hadmin | Hown].
    { apply String.eqb_neq in Hrole. contradiction. }
    unfold checkInReservation.
    destruct (findById Reservation._id id (reservations st)) as [r|]; [|reflexivity].
    rewrite (Hown r eq_refl), Z.eqb_refl. reflexivity.
Qed.

(** ** Soft deletion of a screening *)

Lemma activeReservationOf_spec (id : ObjectId) (r : Reservation.t) :
  activeReservationOf id r = true
  <-> Reservation.showtime r = id
      /\ (Reservation.status r = "pending" \/ Reservation.status r = "confirmed").
Proof.
  unfold activeReservationOf.
  rewrite andb_true_iff, orb_true_iff, Z.eqb_eq, !String.eqb_eq. tauto.
Qed.

Lemma replaceById_length {D : Type} (idOf : D -> ObjectId) (d : D) (coll : list D) :
  List.length (replaceById idOf d coll) = List.length coll.
Proof. unfold replaceById. apply length_map. Qed.

(** X10.  Deleting a screening is a soft delete, and it is refused while a
    live reservation exists.  With a pending or confirmed reservation on the
    screening the handler answers 400 'Cannot delete showtime' and writes
    nothing.  When it answers 200, the screening had no such reservation, it
    is still stored, the same but inactive, and no document is added or
    removed; from then on a booking on it is refused with 'Invalid showtime',
    its seat map is refused with 'Showtime inactive', an anonymous or
    ordinary caller is told 'Showtime not found' while an admin still reads
    it, and it blocks no time slot of its theater. *)
Theorem deleteShowtime_is_soft :
  forall (accepted : bool) (now : Date) (id : ObjectId) (st : Store)
         (sh : Showtime.t),
    findById Showtime._id id (showtimes st) = Some sh ->
    ((exists r, In r (reservations st)
                /\ Reservation.showtime r = id
                /\ (Reservation.status r = "pending"
                    \/ Reservation.status r = "confirmed")) ->
     deleteShowtime accepted now id st = (st, Refused 400 "Cannot delete showtime"))
    /\ (forall st',
          deleteShowtime accepted now id st = (st', Done 200 tt) ->
          (forall r, In r (reservations st) -> Reservation.showtime r = id ->
                     Reservation.status r <> "pending"
                     /\ Reservation.status r <> "confirmed")
          /\ findById Showtime._id id (showtimes st')
             = Some (Showtime.withActive false sh)
          /\ List.length (showtimes st') = List.length (showtimes st)
          /\ reservations st' = reservations st
          /\ (forall env req user,
                 bookingShowtime req = id ->
                 createReservation env req user st'
                 = (st', Fail 400 "Invalid showtime" NoInfo))
          /\ (forall now', getAvailableSeats now' id st'
                           = Refused 400 "Showtime inactive")
          /\ getShowtimeById None id st' = Refused 404 "Showtime not found"
          /\ (forall u, role u <> "admin" ->
                        getShowtimeById (Some u) id st'
                        = Refused 404 "Showtime not found")
          /\ (forall u, role u = "admin" ->
                        getShowtimeById (Some u) id st'
                        = Done 200 (Showtime.withActive false sh))
          /\ (forall theater s e,
                 conflictFilter theater s e (Showtime.withActive false sh) = false)).
Proof.
  intros accepted now id st sh Hsh. split.
  - intros [r [Hin Hactive]]. unfold deleteShowtime. rewrite Hsh.
    assert (Hf : In r (filter (activeReservationOf id) (reservations st))).
    { apply filter_In. split; [assumption|]. now apply activeReservationOf_spec. }
    destruct (filter (activeReservationOf id) (reservations st));
      [destruct Hf | reflexivity].
  - intros st'. unfold deleteShowtime. rewrite Hsh.
    destruct (filter (activeReservationOf id) (reservations st)) as [|r0 l] eqn:Hf;
      [|discriminate].
    cbn [List.length Nat.ltb Nat.leb].
    destruct (saveShowtime accepted now (Showtime.withActive false sh) st)
      as [e | st1] eqn:Hsave; [discriminate|].
    apply saveShowtime_written in Hsave. destruct Hsave as [-> _].
    intros H. injection H as <-.
    assert (Hstored : findById Showtime._id id
                        (showtimes
                           (setShowtimes
                              (replaceById Showtime._id (Showtime.withActive false sh)
                                 (showtimes st)) st))
                      = Some (Showtime.withActive false sh)).
    { cbn [showtimes setShowtimes].
      apply findById_replaced with (d := sh); [exact Hsh|].
      exact (findById_id _ _ _ _ Hsh). }
    split; [|split; [exact Hstored|split; [apply replaceById_length|split;
      [reflexivity|split; [|split; [|split; [|split; [|split]]]]]]]].
    + intros r Hin Hid.
      assert (Hnot : activeReservationOf id r <> true).
      { intros Ha. assert (Hin' : In r (filter (activeReservationOf id)
                                          (reservations st)))
          by (apply filter_In; now split).
        rewrite Hf in Hin'. destruct Hin'. }
      rewrite activeReservationOf_spec in Hnot. tauto.
    + intros env req user Hreq.
      unfold createReservation, loadPhase. rewrite Hreq, Hstored. reflexivity.
    + intros now'. unfold getAvailableSeats. now rewrite Hstored.
    + unfold getShowtimeById. now rewrite Hstored.
    + intros u Hu. apply String.eqb_neq in Hu.
      unfold getShowtimeById. rewrite Hstored. simpl. now rewrite Hu.
    + intros u Hu. unfold getShowtimeById. rewrite Hstored. simpl.
      now rewrite Hu.
    + intros theater s e. unfold conflictFilter. simpl.
      now rewrite andb_false_r.
Qed.

(** X11.  A screening with a claim cannot be edited.  After a booking of
    at least one seat whose claim was written (the call that is answered
    with the refusal of the reservation by its validation), every update of
    the screening is refused, with 'Cannot update past showtime' or 'Cannot
    update showtime with reservations', and writes nothing. *)
Theorem claimed_screening_cannot_be_edited :
  forall (env : BookingEnv) (req : Booking) (user : User) (st st' : Store),
    createReservation env req user st = (st', claimedThenRefused) ->
    bookingSeats req <> [] ->
    forall (senv : ShowtimeEnv) (upd : UpdateData),
      updateShowtime senv (bookingShowtime req) upd st'
        = (st', Fail 400 "Cannot update past showtime" NoInfo)
      \/ updateShowtime senv (bookingShowtime req) upd st'
         = (st', Fail 400 "Cannot update showtime with reservations" NoInfo).
Proof.
  intros env req user st st' Hrun Hseats senv upd.
  destruct (createReservation_cases env req user st)
    as [[c [e [i [Hclaim Hans]]]] | [st1 [n [Hclaim Hans]]]];
    rewrite Hans in Hrun.
  { injection Hrun as _ -> -> ->. now apply claimPhase_not_number in Hclaim. }
  injection Hrun as <-.
  apply claimPhase_claimed in Hclaim.
  destruct Hclaim as [doc [rs [tot [claimed [claims Hc]]]]].
  destruct Hc as [Hload [_ [_ [_ [_ [_ [Hres Hsave]]]]]]].
  apply saveShowtime_written in Hsave. destruct Hsave as [-> _].
  apply reserveSeats_done in Hres.
  destruct Hres as [Hcl [Hrs [_ [_ [_ [Hid _]]]]]].
  unfold updateShowtime. cbn [showtimes setShowtimes setReservations].
  rewrite (findById_replaced Showtime._id (bookingShowtime req) (showtimes st)
             doc claimed Hload).
  2:{ rewrite Hid. exact (findById_id _ _ _ _ Hload). }
  destruct (Showtime.startTime claimed <? showtimeNow senv); [now left|].
  right. rewrite Hrs, Hcl, length_app, length_map.
  destruct (bookingSeats req) as [|k l]; [now elim Hseats|].
  simpl. replace (List.length (Showtime.reservedSeats doc) + S (List.length l))%nat
    with (S (List.length (Showtime.reservedSeats doc) + List.length l)) by lia.
  reflexivity.
Qed.

(** ** The seats that a theater generates *)

Lemma rows_div (capacity : Z) :
  Qceiling (inject_Z capacity / inject_Z 10)%Q = (capacity + 9) / 10.
Proof.
  unfold Qceiling, Qfloor, Qopp, Qdiv, Qmult, Qinv, inject_Z. simpl.
  Z.div_mod_to_equations. lia.
Qed.

Lemma generatedRow_length (capacity : Z) (i : nat) :
  List.length (generatedRow capacity i)
  = Z.to_nat (Z.min 10 (capacity - Z.of_nat i * 10)).
Proof. unfold generatedRow. now rewrite length_map, length_seq. Qed.

Lemma generatedRows_length (capacity : Z) (n : nat) :
  0 <= capacity ->
  List.length (flat_map (generatedRow capacity) (seq 0 n))
  = Z.to_nat (Z.min capacity (10 * Z.of_nat n)).
Proof.
  intros Hc. induction n as [|n IH]; [simpl; lia|].
  rewrite seq_S, flat_map_app, length_app, IH. cbn [flat_map Nat.add].
  rewrite app_nil_r, generatedRow_length. lia.
Qed.

Lemma rowName_inj (i j : nat) :
  (i < 191)%nat -> (j < 191)%nat -> rowName i = rowName j -> i = j.
Proof.
  intros Hi Hj H. unfold rowName in H.
  apply (f_equal (fun s => match s with
                           | String a _ => nat_of_ascii a
                           | EmptyString => 0%nat
                           end)) in H.
  cbv beta iota in H. rewrite !nat_ascii_embedding in H by lia. lia.
Qed.

Lemma generatedRow_In (capacity : Z) (i : nat) (s : TheaterSeat.t) :
  In s (generatedRow capacity i) ->
  TheaterSeat.row s = rowName i
  /\ 1 <= TheaterSeat.number s <= Z.min 10 (capacity - Z.of_nat i * 10)
  /\ TheaterSeat.type s = generatedType i (TheaterSeat.number s)
  /\ TheaterSeat.isActive s = true.
Proof.
  unfold generatedRow. intros H. apply in_map_iff in H.
  destruct H as [j [<- Hj]]. apply in_seq in Hj. simpl. repeat split; lia.
Qed.

Lemma generatedRow_keys_NoDup (capacity : Z) (i : nat) :
  NoDup (map keyOfTheaterSeat (generatedRow capacity i)).
Proof.
  unfold generatedRow. rewrite map_map. simpl.
  generalize (seq_NoDup (Z.to_nat (Z.min 10 (capacity - Z.of_nat i * 10))) 1).
  generalize (seq 1 (Z.to_nat (Z.min 10 (capacity - Z.of_nat i * 10)))).
  intros l Hl. induction Hl as [|j l Hnot _ IH]; simpl; constructor; [|exact IH].
  intros Hin. apply in_map_iff in Hin. destruct Hin as [j' [Heq Hj']].
  unfold keyOfTheaterSeat in Heq. simpl in Heq. injection Heq as Heq.
  apply Nat2Z.inj in Heq. now subst.
Qed.

Lemma generatedRows_keys_NoDup (capacity : Z) (n : nat) :
  (n < 191)%nat ->
  NoDup (map keyOfTheaterSeat (flat_map (generatedRow capacity) (seq 0 n))).
Proof.
  induction n as [|n IH]; intros Hn; [constructor|].
  rewrite seq_S, flat_map_app, map_app. cbn [flat_map Nat.add]. rewrite app_nil_r.
  apply NoDup_app.
  - apply IH. lia.
  - apply generatedRow_keys_NoDup.
  - intros k Hk1 Hk2.
    apply in_map_iff in Hk1. destruct Hk1 as [s1 [<- Hs1]].
    apply in_map_iff in Hk2. destruct Hk2 as [s2 [Heq Hs2]].
    apply in_flat_map in Hs1. destruct Hs1 as [i [Hi Hs1]].
    apply in_seq in Hi.
    apply generatedRow_In in Hs1. destruct Hs1 as [Hrow1 _].
    apply generatedRow_In in Hs2. destruct Hs2 as [Hrow2 _].
    unfold keyOfTheaterSeat in Heq. injection Heq as Hrow _.
    rewrite Hrow1, Hrow2 in Hrow. apply rowName_inj in Hrow; lia.
Qed.

(** X12.  The seats that a theater generates for its capacity.  For a
    capacity within the bounds of the schema (1 to 1000), [generateSeats]
    makes exactly [capacity] seats, all active, no two with the same row and
    number, numbered from 1 to at most 10 in each row; the seats 4 to 7 of
    the first row are vip, the other seats of the first two rows premium,
    all others regular.  A screening made from such a theater therefore has
    unique seat keys. *)
Theorem generated_seats_are_a_seat_plan :
  forall (capacity : Z),
    1 <= capacity <= 1000 ->
    List.length (generateSeats capacity) = Z.to_nat capacity
    /\ NoDup (map keyOfTheaterSeat (generateSeats capacity))
    /\ (forall s, In s (generateSeats capacity) ->
          TheaterSeat.isActive s = true
          /\ 1 <= TheaterSeat.number s <= 10
          /\ exists i, (Z.of_nat i * 10 < capacity)
                       /\ TheaterSeat.row s = rowName i
                       /\ TheaterSeat.type s
                          = (if (i =? 0)%nat && (4 <=? TheaterSeat.number s)
                                && (TheaterSeat.number s <=? 7) then vip
                             else if (i <? 2)%nat then premium else regular))
    /\ (forall (basePrice : Q) (th : Theater.t),
          Theater.seats th = generateSeats capacity ->
          uniqueKeys (seatsFromTheater basePrice th)).
Proof.
  intros capacity Hc.
  assert (Hrows : (Z.to_nat (Qceiling (inject_Z capacity / inject_Z 10)%Q) < 191)%nat
                  /\ capacity <= 10 * Z.of_nat
                                       (Z.to_nat (Qceiling
                                                    (inject_Z capacity / inject_Z 10)%Q))).
  { rewrite rows_div. split.
    - apply Nat2Z.inj_lt. rewrite Z2Nat.id by (apply Z.div_pos; lia).
      simpl. Z.div_mod_to_equations. lia.
    - rewrite Z2Nat.id by (apply Z.div_pos; lia). Z.div_mod_to_equations. lia. }
  destruct Hrows as [Hlt Hcover].
  assert (Hkeys : NoDup (map keyOfTheaterSeat (generateSeats capacity)))
    by (apply generatedRows_keys_NoDup; exact Hlt).
  split; [|split; [exact Hkeys|split]].
  - unfold generateSeats. rewrite generatedRows_length by lia. lia.
  - intros s Hs. unfold generateSeats in Hs. apply in_flat_map in Hs.
    destruct Hs as [i [_ Hs]]. apply generatedRow_In in Hs.
    destruct Hs as [Hrow [Hnum [Htype Hactive]]].
    split; [exact Hactive|]. split; [lia|].
    exists i. split; [lia|]. split; [exact Hrow|].
    rewrite Htype. unfold generatedType.
    destruct ((i =? 0)%nat && (4 <=? TheaterSeat.number s)
              && (TheaterSeat.number s <=? 7)); reflexivity.
  - intros basePrice th Hth. unfold uniqueKeys, seatsFromTheater.
    rewrite Hth, map_map. simpl.
    rewrite filter_keeps_all.
    + exact Hkeys.
    + intros s Hs. unfold generateSeats in Hs. apply in_flat_map in Hs.
      destruct Hs as [i [_ Hs]]. now apply generatedRow_In in Hs.
Qed.

(** ** A screening as it is created *)

Lemma seatsFromTheater_available (basePrice : Q) (th : Theater.t)
    (s : AvailableSeat.t) :
  In s (seatsFromTheater basePrice th) ->
  AvailableSeat.isAvailable s = true
  /\ AvailableSeat.price s
     = (basePrice * Theater.priceMultiplier th (AvailableSeat.type s))%Q
  /\ exists seat, In seat (Theater.seats th)
                  /\ TheaterSeat.isActive seat = true
                  /\ keyOfSeat s = keyOfTheaterSeat seat
                  /\ AvailableSeat.type s = TheaterSeat.type seat.
Proof.
  unfold seatsFromTheater. intros H. apply in_map_iff in H.
  destruct H as [seat [<- Hseat]]. apply filter_In in Hseat. simpl.
  repeat split. exists seat. tauto.
Qed.

Lemma filter_all_length {A : Type} (q : A -> bool) (l : list A) :
  (forall x, In x l -> q x = true) -> List.length (filter q l) = List.length l.
Proof. intros H. now rewrite filter_keeps_all. Qed.

Lemma mathRound_zero_over (p : positive) :
  mathRound (inject_Z 0 / inject_Z (Z.pos p) * 100)%Q = 0.
Proof.
  unfold mathRound, Qfloor, Qplus, Qmult, Qdiv, Qinv, inject_Z. simpl.
  apply Z.div_small. lia.
Qed.

(** A screening without claim records has an occupancy of zero. *)
Lemma occupancy_zero (d : Showtime.t) :
  Showtime.reservedSeats d = [] -> occupancyPercentage d = 0.
Proof.
  intros H. unfold occupancyPercentage, reservedSeatsCount. rewrite H.
  destruct (totalCapacity d) as [|n]; [reflexivity|].
  cbn [Nat.eqb List.length Z.of_nat]. apply mathRound_zero_over.
Qed.

(** X13.  A screening as [createShowtime] stores it.  When the handler
    answers 201, the theater of the request is stored and active, the new
    screening is appended to the collection, active, with the requested
    window, which is not empty and does not start before the clock reading;
    it has one seat per active seat of the theater, every one available and
    priced at the base price times the multiplier of its class, no claim
    record, an occupancy of zero, and it collides with no screening that was
    stored before. *)
Theorem created_screening_is_fresh :
  forall (env : ShowtimeEnv) (req : ShowtimeRequest) (st st' : Store)
         (code : Z) (sh : Showtime.t),
    createShowtime env req st = (st', Json code (ShowtimeBody sh)) ->
    exists th,
      findById Theater._id (reqTheater req) (theaters st) = Some th
      /\ Theater.isActive th = true
      /\ showtimes st' = showtimes st ++ [sh]
      /\ reservations st' = reservations st
      /\ Showtime._id sh = newShowtimeId env
      /\ Showtime.theater sh = reqTheater req
      /\ Showtime.startTime sh = reqStartTime req
      /\ Showtime.endTime sh = reqEndTime req
      /\ Showtime.isActive sh = true
      /\ Showtime.startTime sh < Showtime.endTime sh
      /\ showtimeNow env <= Showtime.startTime sh
      /\ Showtime.availableSeats sh = seatsFromTheater (reqBasePrice req) th
      /\ (forall s, In s (Showtime.availableSeats sh) ->
            AvailableSeat.isAvailable s = true
            /\ AvailableSeat.price s
               = (reqBasePrice req
                  * Theater.priceMultiplier th (AvailableSeat.type s))%Q)
      /\ totalCapacity sh
         = List.length (filter TheaterSeat.isActive (Theater.seats th))
      /\ availableSeatsCount sh = totalCapacity sh
      /\ reservedSeatsCount sh = 0%nat
      /\ occupancyPercentage sh = 0
      /\ consistent sh
      /\ (forall o, In o (showtimes st) ->
            ~ collides (Showtime.theater sh) (Showtime.startTime sh)
                (Showtime.endTime sh) o).
Proof.
  intros env req st st' code sh. unfold createShowtime.
  destruct (findById Movie._id (reqMovie req) (movies st)) as [m|]; [|discriminate].
  destruct (negb (Movie.isActive m)); [discriminate|].
  destruct (findById Theater._id (reqTheater req) (theaters st)) as [th|] eqn:Hth;
    [|discriminate].
  destruct (Theater.isActive th) eqn:Hact; cbn [negb]; [|discriminate].
  destruct (find (conflictFilter (reqTheater req) (reqStartTime req) (reqEndTime req))
              (showtimes st)) as [o|] eqn:Hq; [discriminate|].
  unfold insertShowtime, showtimePreSave.
  cbn [Showtime.startTime Showtime.endTime].
  destruct (reqEndTime req <=? reqStartTime req) eqn:Hle; [discriminate|].
  destruct (reqStartTime req <? showtimeNow env) eqn:Hpast; [discriminate|].
  cbn [andb]. destruct (showtimeAccepted env); [|discriminate].
  intros H. injection H as <- _ <-.
  apply Z.leb_gt in Hle. apply Z.ltb_ge in Hpast.
  exists th.
  assert (Hall : forall s, In s (seatsFromTheater (reqBasePrice req) th) ->
                           AvailableSeat.isAvailable s = true).
  { intros s Hs. now apply seatsFromTheater_available in Hs. }
  assert (Hcount : List.length (filter AvailableSeat.isAvailable
                                  (seatsFromTheater (reqBasePrice req) th))
                   = List.length (seatsFromTheater (reqBasePrice req) th))
    by now apply filter_all_length.
  rewrite occupancy_zero by reflexivity.
  unfold totalCapacity, availableSeatsCount, reservedSeatsCount.
  cbn [showtimes reservations setShowtimes Showtime._id Showtime.theater
       Showtime.startTime Showtime.endTime Showtime.isActive
       Showtime.availableSeats Showtime.reservedSeats List.length].
  repeat split; try assumption; try reflexivity.
  - now apply Hall.
  - match goal with
    | Hs : In _ (seatsFromTheater _ _) |- _ =>
        apply seatsFromTheater_available in Hs; tauto
    end.
  - unfold seatsFromTheater. now rewrite length_map.
  - intros c [].
  - intros o Hin Hcol. apply conflictFilter_collides in Hcol.
    apply (find_none _ _ Hq) in Hin. congruence.
Qed.

(** ** Refund and the clock *)

Lemma hours_above_24 (sh : Showtime.t) (now : Date) :
  Qltb 24 (Reservation.hoursUntilShowtime sh now) = true
  <-> now + 24 * hour < Showtime.startTime sh.
Proof.
  rewrite Qltb_lt.
  unfold Reservation.hoursUntilShowtime, Qlt, Qdiv, Qmult, Qinv, inject_Z, hour.
  simpl. lia.
Qed.

Lemma hours_above_2 (sh : Showtime.t) (now : Date) :
  Qltb 2 (Reservation.hoursUntilShowtime sh now) = true
  <-> now + 2 * hour < Showtime.startTime sh.
Proof.
  rewrite Qltb_lt.
  unfold Reservation.hoursUntilShowtime, Qlt, Qdiv, Qmult, Qinv, inject_Z, hour.
  simpl. lia.
Qed.

(** X14.  With one clock reading the refund is never nothing.  When the
    guard of [cancel] and its refund computation read the same time, a
    cancellation that goes through refunds nine tenths of the total if the
    start is more than 24 hours away and half of it otherwise: the branch
    without refund cannot be reached, because the guard has already refused
    every start within two hours. *)
Theorem one_clock_refund :
  forall (reason : option string) (sh : Showtime.t) (now tStamp : Date)
         (r r' : Reservation.t),
    Reservation.cancel reason (Some sh) now tStamp now r = (r', None) ->
    now + 2 * hour < Showtime.startTime sh
    /\ (now + 24 * hour < Showtime.startTime sh ->
        Reservation.refundAmount r' = Some (Reservation.totalAmount r * 0.9)%Q)
    /\ (Showtime.startTime sh <= now + 24 * hour ->
        Reservation.refundAmount r' = Some (Reservation.totalAmount r * 0.5)%Q).
Proof.
  intros reason sh now tStamp r r'. unfold Reservation.cancel.
  destruct (Reservation.isCancellable (Some sh) now r) eqn:Hc; [|discriminate].
  cbn [negb]. intros H. injection H as <-.
  unfold Reservation.isCancellable in Hc.
  destruct (String.eqb (Reservation.status r) "cancelled"
            || String.eqb (Reservation.status r) "completed"); [discriminate|].
  apply Z.ltb_lt in Hc.
  pose proof (hours_above_24 sh now) as H24.
  pose proof (hours_above_2 sh now) as H2.
  simpl. unfold Reservation.refundFor.
  destruct (Qltb 24 (Reservation.hoursUntilShowtime sh now)).
  - repeat split.
    + exact Hc.
    + intros Hle. assert (now + 24 * hour < Showtime.startTime sh) by now apply H24.
      unfold hour in *. lia.
  - assert (Hnot : ~ now + 24 * hour < Showtime.startTime sh).
    { intros Hlt. apply H24 in Hlt. discriminate. }
    assert (E : Qltb 2 (Reservation.hoursUntilShowtime sh now) = true)
      by (apply H2; exact Hc).
    rewrite E. repeat split.
    + exact Hc.
    + intros Hlt. contradiction.
Qed.

(** X15.  What can be edited can be cancelled at nine tenths.  A
    reservation that [isEditable] lets through, on a screening that is
    known, is confirmed and starts more than 24 hours after the clock
    reading; [isCancellable] lets it through at the same reading, and
    cancelling it then refunds nine tenths of the total. *)
Theorem editable_is_refundable :
  forall (sh : Showtime.t) (now tStamp : Date) (reason : option string)
         (r : Reservation.t),
    isEditable (Some sh) now r = true ->
    Reservation.status r = "confirmed"
    /\ now + 24 * hour < Showtime.startTime sh
    /\ Reservation.isCancellable (Some sh) now r = true
    /\ exists r',
         Reservation.cancel reason (Some sh) now tStamp now r = (r', None)
         /\ Reservation.status r' = "cancelled"
         /\ Reservation.refundAmount r'
            = Some (Reservation.totalAmount r * 0.9)%Q.
Proof.
  intros sh now tStamp reason r. unfold isEditable.
  destruct (String.eqb (Reservation.status r) "confirmed") eqn:Hs; [|discriminate].
  cbn [negb]. intros Hlt. apply Z.ltb_lt in Hlt. apply String.eqb_eq in Hs.
  assert (Hlt' : now + 24 * hour < Showtime.startTime sh) by exact Hlt.
  assert (Hc : Reservation.isCancellable (Some sh) now r = true).
  { unfold Reservation.isCancellable. rewrite Hs. simpl. apply Z.ltb_lt.
    unfold hour in Hlt'. lia. }
  split; [exact Hs|]. split; [exact Hlt'|]. split; [exact Hc|].
  unfold Reservation.cancel. rewrite Hc. cbn [negb].
  eexists. split; [reflexivity|]. split; [reflexivity|].
  simpl. unfold Reservation.refundFor.
  now rewrite (proj2 (hours_above_24 sh now) Hlt').
Qed.

(** ** The seat map *)

(** X16.  What the seat map shows is what can be booked.  When
    [getAvailableSeats] answers 200, the screening is active and has not
    started; the seats it lists as available are the inventory records with
    the flag set, their count is the reported count and is at most the
    capacity; a seat key can be claimed exactly when the list has a seat with
    that key; a booking at that clock reading of listed seats, each named
    once, claims them in the stored screening (and is then answered with the
    refusal of its reservation) if the screening starts later and ends after
    it starts and the write of the screening is accepted.  At the start
    instant itself the seat map still answers while a booking is refused
    with 'Showtime unavailable'. *)
Theorem seat_map_matches_booking :
  forall (now : Date) (id : ObjectId) (st : Store) (m : SeatMap),
    getAvailableSeats now id st = Done 200 m ->
    exists sh,
      findById Showtime._id id (showtimes st) = Some sh
      /\ Showtime.isActive sh = true
      /\ now <= Showtime.startTime sh
      /\ mapAvailableCount m = List.length (mapAvailable m)
      /\ (mapAvailableCount m <= mapTotalCapacity m)%nat
      /\ mapReservedCount m = List.length (mapReserved m)
      /\ (forall s, In s (mapAvailable m)
                    <-> In s (Showtime.availableSeats sh)
                        /\ AvailableSeat.isAvailable s = true)
      /\ (forall k, bookable k (Showtime.availableSeats sh)
                    <-> exists s, In s (mapAvailable m) /\ keyOfSeat s = k)
      /\ (forall env req user,
             bookingShowtime req = id ->
             bookingNow env = now ->
             now < Showtime.startTime sh ->
             Showtime.startTime sh < Showtime.endTime sh ->
             (forall k, In k (bookingSeats req) ->
                        exists s, In s (mapAvailable m) /\ keyOfSeat s = k) ->
             NoDup (bookingSeats req) ->
             showtimeSaveAccepted env = true ->
             createReservation env req user st
             = (claimedStore env req user sh st, claimedThenRefused))
      /\ (forall env req user,
             bookingShowtime req = id ->
             bookingNow env = now ->
             now = Showtime.startTime sh ->
             createReservation env req user st
             = (st, Fail 400 "Showtime unavailable" NoInfo)).
Proof.
  intros now id st m. unfold getAvailableSeats.
  destruct (findById Showtime._id id (showtimes st)) as [sh|] eqn:Hsh;
    [|discriminate].
  destruct (Showtime.isActive sh) eqn:Hact; cbn [negb]; [|discriminate].
  destruct (Showtime.startTime sh <? now) eqn:Hstarted; [discriminate|].
  intros H. injection H as <-. apply Z.ltb_ge in Hstarted.
  exists sh. cbn [mapAvailable mapReserved mapTotalCapacity mapAvailableCount
                  mapReservedCount].
  assert (Hlisted : forall k, bookable k (Showtime.availableSeats sh)
                             <-> exists s,
                                   In s (filter AvailableSeat.isAvailable
                                           (Showtime.availableSeats sh))
                                   /\ keyOfSeat s = k).
  { intros k. unfold bookable. split.
    - intros [s [Hin [Hkey Hav]]]. exists s. split; [|assumption].
      apply filter_In. now split.
    - intros [s [Hin Hkey]]. apply filter_In in Hin. exists s. tauto. }
  split; [reflexivity|]. split; [exact Hact|]. split; [exact Hstarted|].
  split; [reflexivity|].
  split; [unfold availableSeatsCount, totalCapacity; apply filter_length_le|].
  split; [reflexivity|].
  split; [intros s; apply filter_In|].
  split; [exact Hlisted|]. split.
  - intros env req user Hid Hnow Hfut Hlt Hall Hnd Hacc1.
    assert (Hload : loadPhase req st = Some sh)
      by (unfold loadPhase; now rewrite Hid).
    destruct (claim_goes_through env req user st sh) as [n Hclaim];
      try assumption.
    + now rewrite Hnow.
    + intros k Hk. apply Hlisted. now apply Hall.
    + exact (claimed_then_refused _ _ _ _ _ _ _ Hload Hclaim).
  - intros env req user Hid Hnow Hstart.
    unfold createReservation, loadPhase, claimPhase, claimPhaseWith.
    rewrite Hid, Hsh, Hact, Hnow, Hstart, Z.leb_refl. reflexivity.
Qed.

(** ** The schedule stays free of clashes *)

Lemma clash_sym (a b : Showtime.t) : clash a b -> clash b a.
Proof. unfold clash, overlaps. intuition congruence. Qed.

Lemma clash_collides (a b : Showtime.t) :
  clash a b
  <-> Showtime.isActive a = true
      /\ collides (Showtime.theater a) (Showtime.startTime a) (Showtime.endTime a) b.
Proof. unfold clash, collides, overlaps. intuition congruence. Qed.

Lemma uniqueIds_found (id : ObjectId) (coll : list Showtime.t) (d x : Showtime.t) :
  uniqueIds coll ->
  findById Showtime._id id coll = Some d ->
  In x coll -> Showtime._id x = id -> x = d.
Proof.
  unfold uniqueIds, findById. induction coll as [|y rest IH]; simpl; [tauto|].
  intros Hnd Hfind Hin Hid. inversion Hnd as [|? ? Hnot Hrest]; subst.
  destruct (Showtime._id y =? Showtime._id x) eqn:Hy.
  - injection Hfind as <-. apply Z.eqb_eq in Hy.
    destruct Hin as [-> | Hin]; [reflexivity|].
    exfalso. apply Hnot. rewrite Hy. now apply in_map.
  - apply Z.eqb_neq in Hy. destruct Hin as [-> | Hin]; [congruence|].
    now apply IH.
Qed.

Lemma conflictFree_pair (coll : list Showtime.t) (a b : Showtime.t) :
  conflictFree coll -> In a coll -> In b coll ->
  Showtime._id a <> Showtime._id b -> ~ clash a b.
Proof.
  unfold conflictFree. induction 1 as [|x l Hx _ IH]; simpl; [tauto|].
  rewrite Forall_forall in Hx.
  intros [-> | Ha] [-> | Hb] Hne.
  - congruence.
  - now apply Hx.
  - intros Hc. apply (Hx a Ha). now apply clash_sym.
  - now apply IH.
Qed.

Lemma replaceById_ids (d' : Showtime.t) (coll : list Showtime.t) :
  map Showtime._id (replaceById Showtime._id d' coll) = map Showtime._id coll.
Proof.
  unfold replaceById. rewrite map_map. apply map_ext_in. intros x _.
  destruct (Showtime._id x =? Showtime._id d') eqn:E; [|reflexivity].
  apply Z.eqb_eq in E. congruence.
Qed.

(** Rewriting one screening keeps the schedule free of clashes if the new
    document clashes with no screening of another [_id]. *)
Lemma replace_conflictFree (d' : Showtime.t) (coll : list Showtime.t) :
  uniqueIds coll ->
  conflictFree coll ->
  (forall x, In x coll -> Showtime._id x <> Showtime._id d' -> ~ clash d' x) ->
  conflictFree (replaceById Showtime._id d' coll).
Proof.
  unfold uniqueIds, conflictFree, replaceById.
  induction coll as [|a l IH]; simpl; intros Hnd Hfree Hnew; [constructor|].
  inversion Hnd as [|? ? Hnot Hrest]; subst.
  inversion Hfree as [|? ? Ha Hl]; subst.
  rewrite Forall_forall in Ha.
  constructor.
  - apply Forall_forall. intros y Hy. apply in_map_iff in Hy.
    destruct Hy as [x [<- Hx]].
    destruct (Showtime._id a =? Showtime._id d') eqn:Ea;
      destruct (Showtime._id x =? Showtime._id d') eqn:Ex.
    + apply Z.eqb_eq in Ea. apply Z.eqb_eq in Ex. exfalso. apply Hnot.
      rewrite Ea, <- Ex. now apply in_map.
    + apply Z.eqb_neq in Ex. apply Hnew; [now right | exact Ex].
    + apply Z.eqb_neq in Ea. intros Hc.
      apply (Hnew a (or_introl eq_refl) Ea). now apply clash_sym.
    + now apply Ha.
  - apply IH; try assumption. intros x Hx. apply Hnew. now right.
Qed.

Lemma append_conflictFree (sh : Showtime.t) (coll : list Showtime.t) :
  conflictFree coll ->
  (forall x, In x coll -> ~ clash x sh) ->
  conflictFree (coll ++ [sh]).
Proof.
  unfold conflictFree. induction 1 as [|a l Ha _ IH]; simpl; intros Hnew.
  - repeat constructor.
  - constructor.
    + apply Forall_app. split; [exact Ha|].
      constructor; [|constructor]. apply Hnew. now left.
    + apply IH. intros x Hx. apply Hnew. now right.
Qed.

(** What an update writes: nothing, or the document with the body assigned,
    after a conflict query that has found nothing if the body names the
    theater or a time. *)
Lemma updateShowtime_written (env : ShowtimeEnv) (id : ObjectId) (upd : UpdateData)
    (st st' : Store) (resp : Response) :
  updateShowtime env id upd st = (st', resp) ->
  st' = st
  \/ exists sh,
       findById Showtime._id id (showtimes st) = Some sh
       /\ st' = setShowtimes
                  (replaceById Showtime._id (assignUpdate upd sh) (showtimes st)) st
       /\ (present (updTheater upd) || present (updStartTime upd)
           || present (updEndTime upd) = true ->
           find (conflictFilterExcept id
                   (orElse (updTheater upd) (Showtime.theater sh))
                   (orElse (updStartTime upd) (Showtime.startTime sh))
                   (orElse (updEndTime upd) (Showtime.endTime sh)))
                (showtimes st) = None).
Proof.
  unfold updateShowtime.
  destruct (findById Showtime._id id (showtimes st)) as [sh|] eqn:Hsh;
    [|intros H; injection H as <- _; now left].
  destruct (Showtime.startTime sh <? showtimeNow env);
    [intros H; injection H as <- _; now left|].
  destruct (0 <? List.length (Showtime.reservedSeats sh))%nat;
    [intros H; injection H as <- _; now left|].
  destruct (present (updTheater upd) || present (updStartTime upd)
            || present (updEndTime upd)) eqn:Hpresent.
  - destruct (find _ (showtimes st)) as [o|] eqn:Hq;
      [intros H; injection H as <- _; now left|].
    destruct (saveShowtime (showtimeAccepted env) (showtimeNow env)
                (assignUpdate upd sh) st) as [ex | st1] eqn:Hsave;
      [intros H; injection H as <- _; now left|].
    apply saveShowtime_written in Hsave. destruct Hsave as [-> _].
    intros H. injection H as <- _. right. exists sh. now repeat split.
  - destruct (saveShowtime (showtimeAccepted env) (showtimeNow env)
                (assignUpdate upd sh) st) as [ex | st1] eqn:Hsave;
      [intros H; injection H as <- _; now left|].
    apply saveShowtime_written in Hsave. destruct Hsave as [-> _].
    intros H. injection H as <- _. right. exists sh.
    split; [reflexivity|]. split; [reflexivity | discriminate].
Qed.

(** X17.  The scheduling handlers and the clashes of the schedule.  If no
    two stored screenings clash (both active, same theater, overlapping
    windows) and their [_id]s are distinct, the same holds of the
    collection that [createShowtime] and [deleteShowtime] leave, whatever
    they answer, and of the collection that [updateShowtime] leaves when
    the body names the theater or a time (as the validator of the route
    requires, so that the conflict query runs) or does not set [isActive] to
    true.  [updateShowtime] and [deleteShowtime] keep the [_id]s. *)
Theorem schedule_stays_conflict_free :
  forall (st : Store),
    uniqueIds (showtimes st) ->
    conflictFree (showtimes st) ->
    (forall env req st' resp,
        createShowtime env req st = (st', resp) -> conflictFree (showtimes st'))
    /\ (forall env id upd st' resp,
           updateShowtime env id upd st = (st', resp) ->
           present (updTheater upd) || present (updStartTime upd)
             || present (updEndTime upd) = true
           \/ updIsActive upd <> Some true ->
           conflictFree (showtimes st'))
    /\ (forall env id upd st' resp,
           updateShowtime env id upd st = (st', resp) -> uniqueIds (showtimes st'))
    /\ (forall accepted now id st' reply,
           deleteShowtime accepted now id st = (st', reply) ->
           conflictFree (showtimes st') /\ uniqueIds (showtimes st')).
Proof.
  intros st Hu Hfree. split; [|split; [|split]].
  - intros env req st' resp. unfold createShowtime.
    destruct (findById Movie._id (reqMovie req) (movies st)) as [m|];
      [|intros H; injection H as <- _; exact Hfree].
    destruct (negb (Movie.isActive m));
      [intros H; injection H as <- _; exact Hfree|].
    destruct (findById Theater._id (reqTheater req) (theaters st)) as [th|];
      [|intros H; injection H as <- _; exact Hfree].
    destruct (negb (Theater.isActive th));
      [intros H; injection H as <- _; exact Hfree|].
    destruct (find (conflictFilter (reqTheater req) (reqStartTime req)
                      (reqEndTime req)) (showtimes st)) as [o|] eqn:Hq;
      [intros H; injection H as <- _; exact Hfree|].
    unfold insertShowtime.
    destruct (showtimePreSave true (showtimeNow env) _);
      [intros H; injection H as <- _; exact Hfree|].
    destruct (showtimeAccepted env);
      [|intros H; injection H as <- _; exact Hfree].
    intros H. injection H as <- _. cbn [showtimes setShowtimes].
    apply append_conflictFree; [exact Hfree|].
    intros x Hx Hc. apply clash_sym, clash_collides in Hc.
    destruct Hc as [_ Hc]. cbn in Hc.
    apply conflictFilter_collides in Hc.
    apply (find_none _ _ Hq) in Hx. congruence.
  - intros env id upd st' resp Hrun Hbody.
    destruct (updateShowtime_written _ _ _ _ _ _ Hrun) as [-> | [sh [Hsh [-> Hq]]]];
      [exact Hfree|].
    cbn [showtimes setShowtimes].
    apply replace_conflictFree; try assumption.
    intros x Hx Hne Hc.
    destruct (present (updTheater upd) || present (updStartTime upd)
              || present (updEndTime upd)) eqn:Hpresent.
    + specialize (Hq eq_refl).
      apply clash_collides in Hc. destruct Hc as [_ Hc]. cbn in Hc.
      apply (find_none _ _ Hq) in Hx. unfold conflictFilterExcept in Hx.
      apply conflictFilter_collides in Hc. rewrite Hc, andb_true_r in Hx.
      apply negb_false_iff, Z.eqb_eq in Hx.
      pose proof (findById_id _ _ _ _ Hsh) as Hid. cbn in Hne. congruence.
    + destruct Hbody as [Hbody | Hbody]; [discriminate|].
      cbn in Hne. unfold clash in Hc. cbn in Hc.
      apply orb_false_iff in Hpresent. destruct Hpresent as [Hp He].
      apply orb_false_iff in Hp. destruct Hp as [Ht Hs].
      destruct (updTheater upd); [discriminate|].
      destruct (updStartTime upd); [discriminate|].
      destruct (updEndTime upd); [discriminate|].
      cbn in Hc.
      assert (Hact : Showtime.isActive sh = true).
      { destruct (updIsActive upd) as [[|]|]; cbn in Hc.
        - now elim Hbody.
        - destruct Hc as [_ [Hc _]]. discriminate.
        - tauto. }
      assert (Hc' : clash sh x) by (unfold clash; tauto).
      revert Hc'. apply (conflictFree_pair (showtimes st)); try assumption.
      * exact (findById_In _ _ _ _ Hsh).
      * congruence.
  - intros env id upd st' resp Hrun.
    destruct (updateShowtime_written _ _ _ _ _ _ Hrun) as [-> | [sh [_ [-> _]]]];
      [exact Hu|].
    unfold uniqueIds. cbn [showtimes setShowtimes]. now rewrite replaceById_ids.
  - intros accepted now id st' reply. unfold deleteShowtime.
    destruct (findById Showtime._id id (showtimes st)) as [sh|] eqn:Hsh;
      [|intros H; injection H as <- _; now split].
    destruct (0 <? List.length (filter (activeReservationOf id) (reservations st)))%nat;
      [intros H; injection H as <- _; now split|].
    destruct (saveShowtime accepted now (Showtime.withActive false sh) st)
      as [ex | st1] eqn:Hsave; [intros H; injection H as <- _; now split|].
    apply saveShowtime_written in Hsave. destruct Hsave as [-> _].
    intros H. injection H as <- _. cbn [showtimes setShowtimes]. split.
    + apply replace_conflictFree; try assumption.
      intros x Hx Hne [_ [Hact _]]. discriminate.
    + unfold uniqueIds. now rewrite replaceById_ids.
Qed.

(** ** Bookings and cancellations leave the schedule alone *)

Lemma sameSchedule_refl (a : Showtime.t) : sameSchedule a a.
Proof. unfold sameSchedule. tauto. Qed.

Lemma sameSchedule_withSeats (av : list AvailableSeat.t) (rs : list ReservedSeat.t)
    (d : Showtime.t) :
  sameSchedule d (Showtime.withSeats av rs d).
Proof. unfold sameSchedule. simpl. tauto. Qed.

Lemma reserveSeats_fields (seats : list Seat.t) (userId : ObjectId) (now : Date)
    (d : Showtime.t) :
  sameSchedule d (fst (reserveSeats seats userId now d)).
Proof.
  unfold reserveSeats.
  destruct (reserveLoop seats userId now (Showtime.availableSeats d) [])
    as [av [e | claims]]; apply sameSchedule_withSeats.
Qed.

Lemma untouched_all (id : ObjectId) (coll : list Showtime.t) :
  Forall2 (touchesOnlySeatsOf id) coll coll.
Proof.
  induction coll as [|a l IH]; constructor; [|exact IH].
  split; [apply sameSchedule_refl | reflexivity].
Qed.

Lemma replace_touches_only (id : ObjectId) (coll : list Showtime.t)
    (d d' : Showtime.t) :
  uniqueIds coll ->
  findById Showtime._id id coll = Some d ->
  sameSchedule d d' ->
  Forall2 (touchesOnlySeatsOf id) coll (replaceById Showtime._id d' coll).
Proof.
  intros Hu Hd Hsame.
  assert (Hid : Showtime._id d' = id).
  { destruct Hsame as [<- _]. exact (findById_id _ _ _ _ Hd). }
  assert (Hall : forall x, In x coll -> Showtime._id x = id -> x = d)
    by (intros x Hx Hxid; now apply (uniqueIds_found id coll)).
  clear Hu Hd. unfold replaceById.
  induction coll as [|a l IH]; simpl; constructor.
  - rewrite Hid. destruct (Showtime._id a =? id) eqn:Ea.
    + apply Z.eqb_eq in Ea. rewrite (Hall a (or_introl eq_refl) Ea).
      split; [exact Hsame|]. intros Hne. destruct Hsame as [Hs _]. congruence.
    + split; [apply sameSchedule_refl | reflexivity].
  - apply IH. intros x Hx. apply Hall. now right.
Qed.

Lemma createReservation_showtimes (env : BookingEnv) (req : Booking) (user : User)
    (st st' : Store) (resp : Response) :
  createReservation env req user st = (st', resp) ->
  movies st' = movies st /\ theaters st' = theaters st
  /\ (showtimes st' = showtimes st
      \/ exists doc,
           findById Showtime._id (bookingShowtime req) (showtimes st) = Some doc
           /\ showtimes st'
              = replaceById Showtime._id
                  (fst (reserveSeats (bookingSeats req) (uid user) (bookingNow env) doc))
                  (showtimes st)).
Proof.
  unfold createReservation.
  destruct (claimPhase env req user (loadPhase req st) st)
    as [st1 [resp1 | r]] eqn:Hclaim.
  - destruct (claimPhase_refused _ _ _ _ _ _ _ Hclaim) as [-> _].
    intros H. injection H as <- _. repeat split. now left.
  - apply claimPhase_claimed in Hclaim.
    destruct Hclaim as [doc [rs [tot [claimed [claims Hc]]]]].
    destruct Hc as [Hload [_ [_ [_ [_ [_ [Hres Hsave]]]]]]].
    apply saveShowtime_written in Hsave. destruct Hsave as [-> _].
    unfold persistPhase.
    destruct (insertReservation (reservationSaveAccepted env) r _) as [e | st2] eqn:Hins.
    + intros H. injection H as <- _. repeat split. right. exists doc.
      split; [exact Hload|]. now rewrite Hres.
    + apply insertReservation_written in Hins. destruct Hins as [-> _].
      intros H. injection H as <- _. repeat split. right. exists doc.
      split; [exact Hload|]. now rewrite Hres.
Qed.

Lemma cancelReservation_showtimes (env : CancelEnv) (id : ObjectId)
    (reason : option string) (user : User) (st st' : Store) (resp : Response) :
  cancelReservation env id reason user st = (st', resp) ->
  movies st' = movies st /\ theaters st' = theaters st
  /\ (showtimes st' = showtimes st
      \/ exists r sh,
           findById Reservation._id id (reservations st) = Some r
           /\ findById Showtime._id (Reservation.showtime r) (showtimes st) = Some sh
           /\ showtimes st'
              = replaceById Showtime._id
                  (releaseSeats (map ReservationSeat.key (Reservation.seats r)) sh)
                  (showtimes st)).
Proof.
  unfold cancelReservation.
  destruct (findById Reservation._id id (reservations st)) as [r|] eqn:Hr;
    [|intros H; injection H as <- _; repeat split; now left].
  destruct (negb (String.eqb (role user) "admin")
            && negb (Reservation.user r =? uid user));
    [intros H; injection H as <- _; repeat split; now left|].
  destruct (findById Showtime._id (Reservation.showtime r) (showtimes st))
    as [sh|] eqn:Hsh.
  2:{ destruct (Reservation.isCancellable None (guardNow env) r); cbn [negb];
        [|intros H; injection H as <- _; repeat split; now left].
      unfold Reservation.cancel.
      destruct (negb (Reservation.isCancellable None (checkNow env) r));
        intros H; injection H as <- _; repeat split; now left. }
  destruct (Reservation.isCancellable (Some sh) (guardNow env) r); cbn [negb];
    [|intros H; injection H as <- _; repeat split; now left].
  unfold Reservation.cancel.
  destruct (negb (Reservation.isCancellable (Some sh) (checkNow env) r));
    [intros H; injection H as <- _; repeat split; now left|].
  set (r' := Reservation.withRefund _ _).
  destruct (saveReservation (cancelSaveAccepted env) r' st) as [e | st1] eqn:Hsave;
    [intros H; injection H as <- _; repeat split; now left|].
  apply saveReservation_written in Hsave. destruct Hsave as [-> _].
  cbn [showtimes setReservations].
  rewrite (findById_id _ _ _ _ Hsh), Hsh.
  match goal with
  | |- context [saveShowtime ?a ?n ?d ?s] =>
      destruct (saveShowtime a n d s) as [e | st2] eqn:Hsave2
  end.
  - intros H. injection H as <- _. repeat split. now left.
  - apply saveShowtime_written in Hsave2. destruct Hsave2 as [-> _].
    intros H. injection H as <- _. repeat split. right. now exists r, sh.
Qed.

(** X18.  Handlers on reservations leave the schedule alone.  With
    distinct screening [_id]s, a booking or a cancellation, whatever it
    answers, leaves every stored screening in its place with the same
    [_id], movie, theater, window, base price and active flag, changes
    nothing at all in the other screenings, and leaves movies and theaters
    as they were; a check-in and an administrative status update leave the
    whole collection of screenings as it was. *)
Theorem reservations_leave_schedule_alone :
  forall (st : Store),
    uniqueIds (showtimes st) ->
    (forall env req user st' resp,
        createReservation env req user st = (st', resp) ->
        Forall2 (touchesOnlySeatsOf (bookingShowtime req))
          (showtimes st) (showtimes st')
        /\ movies st' = movies st /\ theaters st' = theaters st)
    /\ (forall env id reason user st' resp r,
           findById Reservation._id id (reservations st) = Some r ->
           cancelReservation env id reason user st = (st', resp) ->
           Forall2 (touchesOnlySeatsOf (Reservation.showtime r))
             (showtimes st) (showtimes st')
           /\ movies st' = movies st /\ theaters st' = theaters st)
    /\ (forall env id st' resp,
           checkInReservation env id st = (st', resp) ->
           showtimes st' = showtimes st)
    /\ (forall accepted id status st' resp,
           updateReservationStatus accepted id status st = (st', resp) ->
           showtimes st' = showtimes st).
Proof.
  intros st Hu. split; [|split; [|split]].
  - intros env req user st' resp Hrun.
    apply createReservation_showtimes in Hrun.
    destruct Hrun as [Hm [Ht [-> | [doc [Hdoc ->]]]]];
      (split; [|now split]).
    + apply untouched_all.
    + apply replace_touches_only with (d := doc); try assumption.
      apply reserveSeats_fields.
  - intros env id reason user st' resp r Hr Hrun.
    apply cancelReservation_showtimes in Hrun.
    destruct Hrun as [Hm [Ht [-> | [r0 [sh [Hr0 [Hsh ->]]]]]]];
      (split; [|now split]).
    + apply untouched_all.
    + rewrite Hr in Hr0. injection Hr0 as <-.
      apply replace_touches_only with (d := sh); try assumption.
      rewrite releaseSeats_fields. apply sameSchedule_withSeats.
  - intros env id st' resp. unfold checkInReservation.
    destruct (findById Reservation._id id (reservations st)) as [r|];
      [|intros H; now injection H as <- _].
    destruct (negb (String.eqb (Reservation.status r) "confirmed"));
      [intros H; now injection H as <- _|].
    destruct (findById Showtime._id (Reservation.showtime r) (showtimes st)) as [sh|];
      [|intros H; now injection H as <- _].
    cbv zeta.
    destruct (Qltb 120 _); [intros H; now injection H as <- _|].
    destruct (Qltb _ (-30)); [intros H; now injection H as <- _|].
    destruct (saveReservation _ _ st) as [e | st1] eqn:Hsave;
      [intros H; now injection H as <- _|].
    apply saveReservation_written in Hsave. destruct Hsave as [-> _].
    intros H. now injection H as <- _.
  - intros accepted id status st' resp. unfold updateReservationStatus.
    destruct (negb (existsb (String.eqb status) validStatuses));
      [intros H; now injection H as <- _|].
    destruct (findById Reservation._id id (reservations st)) as [r|];
      [|intros H; now injection H as <- _].
    cbv zeta.
    destruct (saveReservation _ _ st) as [e | st1] eqn:Hsave;
      [intros H; now injection H as <- _|].
    apply saveReservation_written in Hsave. destruct Hsave as [-> _].
    intros H. now injection H as <- _.
Qed.

(** ** A claim without a reservation *)

(** X19.  The seats of a refused booking stay claimed.  When a booking on
    a screening with unique seat keys has written its claim and is answered
    with the refusal of its reservation, no reservation has been stored
    for the claim: a cancellation under the [_id] that the reservation had
    drawn (not in use before) answers 404 and releases nothing; and a later
    booking on that screening, before its start, that names one of the
    claimed seats is refused with 'Seats unavailable', names that seat and
    writes nothing. *)
Theorem refused_booking_keeps_seats :
  forall (env : BookingEnv) (req : Booking) (user : User) (st st' : Store)
         (doc : Showtime.t),
    loadPhase req st = Some doc ->
    uniqueKeys (Showtime.availableSeats doc) ->
    createReservation env req user st = (st', claimedThenRefused) ->
    st' = claimedStore env req user doc st
    /\ reservations st' = reservations st
    /\ (findById Reservation._id (newReservationId env) (reservations st) = None ->
        forall cenv reason canceller,
          cancelReservation cenv (newReservationId env) reason canceller st'
          = (st', Fail 404 "Reservation not found" NoInfo))
    /\ (forall env2 req2 user2 k,
          bookingShowtime req2 = bookingShowtime req ->
          In k (bookingSeats req) ->
          In k (bookingSeats req2) ->
          bookingNow env2 < Showtime.startTime doc ->
          exists unavailable,
            createReservation env2 req2 user2 st'
            = (st', Fail 400 "Seats unavailable" (SeatList unavailable))
            /\ In k unavailable).
Proof.
  intros env req user st st' doc Hload Hu Hrun.
  destruct (createReservation_cases env req user st)
    as [[c [e [i [Hclaim Hans]]]] | [st1 [n [Hclaim Hans]]]];
    rewrite Hans in Hrun.
  { injection Hrun as _ -> -> ->. now apply claimPhase_not_number in Hclaim. }
  injection Hrun as <-.
  apply claimPhase_claimed in Hclaim.
  destruct Hclaim as [doc0 [rs [tot [claimed [claims Hc]]]]].
  destruct Hc as [Hdoc [Hact [_ [_ [_ [_ [Hres Hsave]]]]]]].
  rewrite Hload in Hdoc. injection Hdoc as <-.
  apply saveShowtime_written in Hsave. destruct Hsave as [-> _].
  unfold claimedStore. rewrite Hres. cbn [fst].
  split; [reflexivity|]. split; [reflexivity|]. split.
  - intros Hfresh cenv reason canceller. unfold cancelReservation.
    cbn [reservations setShowtimes]. now rewrite Hfresh.
  - intros env2 req2 user2 k Hsame Hk Hk2 Hfut2.
    apply reserveSeats_done in Hres.
    destruct Hres as [_ [_ [Hreq [_ [Hkeys [Hid [Hstart [_ Hactive]]]]]]]].
    assert (Hload2 : loadPhase req2
                       (setShowtimes
                          (replaceById Showtime._id claimed (showtimes st)) st)
                     = Some claimed).
    { unfold loadPhase. cbn [showtimes setShowtimes]. rewrite Hsame.
      apply (findById_replaced Showtime._id (bookingShowtime req) (showtimes st)
               doc claimed Hload).
      rewrite Hid. exact (findById_id _ _ _ _ Hload). }
    assert (Hno : ~ bookable k (Showtime.availableSeats claimed)).
    { destruct (Hreq k Hk) as [s [_ Hs]].
      apply (held_not_bookable k _ _) with (3 := eq_refl) (2 := Hs).
      unfold uniqueKeys. rewrite Hkeys. exact Hu. }
    assert (Hin : In k (unavailableSeats (bookingSeats req2)
                          (Showtime.availableSeats claimed)))
      by (apply unavailableSeats_spec; tauto).
    unfold createReservation. rewrite Hload2. unfold claimPhase, claimPhaseWith.
    rewrite Hactive, Hact, Hstart. cbn [negb].
    rewrite (proj2 (Z.leb_gt _ _) Hfut2). cbv zeta.
    destruct (unavailableSeats (bookingSeats req2) (Showtime.availableSeats claimed))
      as [|u us] eqn:E; [destruct Hin|].
    cbn [List.length Nat.ltb Nat.leb]. exists (u :: us). now split.
Qed.

(** ** The books of a screening *)

Lemma NoDup_map_filter {A B : Type} (f : A -> B) (q : A -> bool) (l : list A) :
  NoDup (map f l) -> NoDup (map f (filter q l)).
Proof.
  induction l as [|x rest IH]; simpl; intros H; [constructor|].
  inversion H as [|? ? Hnot Hrest]; subst.
  destruct (q x); simpl; [|now apply IH].
  constructor; [|now apply IH].
  intros Hin. apply Hnot. apply in_map_iff in Hin. destruct Hin as [y [Hy Hin]].
  apply filter_In in Hin. rewrite <- Hy. apply in_map. tauto.
Qed.

Lemma flagAll_In (b : bool) (seats : list Seat.t) (av : list AvailableSeat.t)
    (s' : AvailableSeat.t) :
  In s' (flagAll b seats av)
  <-> exists s, In s av
                /\ s' = (if existsb (fun k => sameSeat k s) seats
                         then AvailableSeat.setAvailable b s else s).
Proof.
  unfold flagAll. rewrite in_map_iff. split; intros [s [H1 H2]]; exists s.
  - now split.
  - now split.
Qed.

Lemma named_iff (seats : list Seat.t) (s : AvailableSeat.t) :
  existsb (fun k => sameSeat k s) seats = true <-> In (keyOfSeat s) seats.
Proof.
  rewrite existsb_exists. split.
  - intros [k [Hk Hs]]. apply sameSeat_key in Hs. now rewrite Hs.
  - intros Hin. exists (keyOfSeat s). split; [assumption|]. now apply sameSeat_key.
Qed.

Lemma claimFor_keys (userId : ObjectId) (now : Date) (seats : list Seat.t) :
  map keyOfClaim (map (claimFor userId now) seats) = seats.
Proof.
  rewrite map_map. apply map_fixed. intros k _. now destruct k.
Qed.

(** With the books in order, the counters add up. *)
Lemma accounted_balanced (d : Showtime.t) :
  accounted d ->
  (availableSeatsCount d + reservedSeatsCount d = totalCapacity d)%nat.
Proof.
  intros [Hu [Hnd Hiff]].
  unfold availableSeatsCount, reservedSeatsCount, totalCapacity.
  rewrite <- (filter_length AvailableSeat.isAvailable (Showtime.availableSeats d)).
  f_equal.
  rewrite <- (length_map keyOfClaim).
  rewrite <- (length_map keyOfSeat
                (filter (fun x => negb (AvailableSeat.isAvailable x))
                   (Showtime.availableSeats d))).
  apply Permutation_length, NoDup_Permutation.
  - exact Hnd.
  - now apply NoDup_map_filter.
  - intros k. rewrite Hiff. rewrite in_map_iff. split.
    + intros [s [Hin [Hkey Hav]]]. exists s. split; [assumption|].
      apply filter_In. split; [assumption|]. now rewrite Hav.
    + intros [s [Hkey Hin]]. apply filter_In in Hin. destruct Hin as [Hin Hav].
      exists s. apply negb_true_iff in Hav. tauto.
Qed.

Lemma reserveSeats_accounted (seats : list Seat.t) (userId : ObjectId) (now : Date)
    (d claimed : Showtime.t) (claims : list ReservedSeat.t) :
  accounted d ->
  reserveSeats seats userId now d = (claimed, inr claims) ->
  accounted claimed.
Proof.
  intros [Hu [Hnd Hiff]] H.
  pose proof (reserveSeats_done _ _ _ _ _ _ H) as [Hcl [Hrs [Hreq [_ [Hkeys _]]]]].
  assert (Hloop : Showtime.availableSeats claimed
                  = flagAll false seats (Showtime.availableSeats d)
                  /\ (forall s, In s (Showtime.availableSeats d) ->
                                existsb (fun k => sameSeat k s) seats = true ->
                                AvailableSeat.isAvailable s = true)
                  /\ NoDup seats).
  { unfold reserveSeats in H.
    destruct (reserveLoop seats userId now (Showtime.availableSeats d) [])
      as [av [e | cl]] eqn:Hloop; [discriminate|].
    injection H as <- _. simpl.
    destruct (reserveLoop_flagAll _ _ _ _ _ _ _ Hu Hloop) as [H1 H2].
    split; [exact H1|]. split; [exact H2|].
    eapply reserveLoop_named_once; eauto. }
  destruct Hloop as [Hav [Hwere Hnamed]].
  unfold accounted. rewrite Hrs, Hcl, map_app, claimFor_keys.
  split; [unfold uniqueKeys; now rewrite Hkeys|]. split.
  - apply NoDup_app; try assumption.
    intros k Hold Hnew. apply Hiff in Hold. destruct Hold as [s [Hin [Hkey Hflag]]].
    rewrite (Hwere s Hin) in Hflag; [discriminate|].
    apply named_iff. now rewrite Hkey.
  - intros k. rewrite in_app_iff, Hiff, Hav. split.
    + intros [[s [Hin [Hkey Hflag]]] | Hnew].
      * exists (if existsb (fun k0 => sameSeat k0 s) seats
                then AvailableSeat.setAvailable false s else s).
        split; [apply flagAll_In; now exists s|].
        destruct (existsb (fun k0 => sameSeat k0 s) seats); now split.
      * destruct (Hreq k Hnew) as [s [_ Hs]]. rewrite Hav in Hs.
        apply find_some in Hs. destruct Hs as [Hin Hsame].
        exists (AvailableSeat.setAvailable false s).
        split; [exact Hin|]. split; [now apply sameSeat_key | reflexivity].
    + intros [s' [Hin [Hkey Hflag]]]. apply flagAll_In in Hin.
      destruct Hin as [s [Hin ->]].
      destruct (existsb (fun k0 => sameSeat k0 s) seats) eqn:Hex.
      * right. apply named_iff in Hex. now rewrite <- Hkey.
      * left. now exists s.
Qed.

Lemma releaseSeats_accounted (seats : list Seat.t) (d : Showtime.t) :
  accounted d -> accounted (releaseSeats seats d).
Proof.
  intros [Hu [Hnd Hiff]]. unfold accounted.
  rewrite releaseSeats_flagAll, releaseSeats_reserved by exact Hu.
  assert (Hkept : forall c, In c (Showtime.reservedSeats d) ->
                            (negb (existsb (fun k => sameClaim k c) seats) = true
                             <-> ~ In (keyOfClaim c) seats)).
  { intros c _. rewrite negb_true_iff. split.
    - intros Hex Hin. assert (Ht : existsb (fun k => sameClaim k c) seats = true).
      { apply existsb_exists. exists (keyOfClaim c). split; [assumption|].
        now apply sameClaim_key. }
      congruence.
    - intros Hnot. destruct (existsb (fun k => sameClaim k c) seats) eqn:Hex;
        [|reflexivity].
      apply existsb_exists in Hex. destruct Hex as [k [Hk Hkc]].
      apply sameClaim_key in Hkc. subst k. contradiction. }
  split; [unfold uniqueKeys; now rewrite flagAll_keys|]. split.
  - now apply NoDup_map_filter.
  - intros k. rewrite in_map_iff. split.
    + intros [c [Hkey Hin]]. apply filter_In in Hin. destruct Hin as [Hin Hkeep].
      apply (Hkept c Hin) in Hkeep. rewrite Hkey in Hkeep.
      assert (Hk : In k (map keyOfClaim (Showtime.reservedSeats d)))
        by (rewrite <- Hkey; now apply in_map).
      apply Hiff in Hk. destruct Hk as [s [Hs [Hks Hflag]]].
      exists s. split; [|now split].
      apply flagAll_In. exists s. split; [assumption|].
      destruct (existsb (fun k0 => sameSeat k0 s) seats) eqn:Hex; [|reflexivity].
      apply named_iff in Hex. rewrite Hks in Hex. contradiction.
    + intros [s' [Hin [Hkey Hflag]]]. apply flagAll_In in Hin.
      destruct Hin as [s [Hin ->]].
      destruct (existsb (fun k0 => sameSeat k0 s) seats) eqn:Hex;
        [discriminate|].
      assert (Hk : In k (map keyOfClaim (Showtime.reservedSeats d)))
        by (apply Hiff; now exists s).
      apply in_map_iff in Hk. destruct Hk as [c [Hc Hcin]].
      exists c. split; [assumption|]. apply filter_In. split; [assumption|].
      apply (Hkept c Hcin). rewrite Hc, <- Hkey. intros Hnamed.
      apply named_iff in Hnamed. congruence.
Qed.

(** X20.  The books of a screening stay in order.  They are in order when
    seat keys are unique, no key carries two claim records, and the keys
    under a claim record are exactly the keys of the seats flagged
    unavailable.  A screening with unique keys, every seat available and no
    claim record is in order; [reserveSeats], when it returns, and
    [releaseSeats] keep the books in order; and with the books in order the
    number of available seats plus the number of claim records is the
    capacity, so the reserved count is the number of seats that cannot be
    booked. *)
Theorem books_stay_in_order :
  (forall d, uniqueKeys (Showtime.availableSeats d) ->
             Showtime.reservedSeats d = [] ->
             (forall s, In s (Showtime.availableSeats d) ->
                        AvailableSeat.isAvailable s = true) ->
             accounted d)
  /\ (forall seats userId now d claimed claims,
         accounted d ->
         reserveSeats seats userId now d = (claimed, inr claims) ->
         accounted claimed)
  /\ (forall seats d, accounted d -> accounted (releaseSeats seats d))
  /\ (forall d, accounted d ->
                (availableSeatsCount d + reservedSeatsCount d = totalCapacity d)%nat
                /\ consistent d).
Proof.
  split; [|split; [|split]].
  - intros d Hu Hrs Hall. unfold accounted. rewrite Hrs. simpl.
    split; [exact Hu|]. split; [constructor|].
    intros k. split; [tauto|].
    intros [s [Hin [_ Hflag]]]. rewrite (Hall s Hin) in Hflag. discriminate.
  - intros seats userId now d claimed claims. apply reserveSeats_accounted.
  - intros seats d. apply releaseSeats_accounted.
  - intros d Hacc. split; [now apply accounted_balanced|].
    destruct Hacc as [Hu [_ Hiff]]. intros c Hc.
    assert (Hk : In (keyOfClaim c) (map keyOfClaim (Showtime.reservedSeats d)))
      by now apply in_map.
    apply Hiff in Hk. destruct Hk as [s [Hin [Hkey Hflag]]].
    unfold flagOf.
    destruct (find (sameSeat (keyOfClaim c)) (Showtime.availableSeats d))
      as [t|] eqn:Ht.
    + apply find_some in Ht. destruct Ht as [Htin Hts].
      apply sameSeat_key in Hts.
      assert (t = s) by (apply (unique_key_record (Showtime.availableSeats d));
                         congruence).
      subst t. simpl. now rewrite Hflag.
    + apply (find_none _ _ Ht) in Hin. apply sameSeat_key in Hkey. congruence.
Qed.

(** ** Check-in and cancellation do not meet *)

(** A check-in that is answered 200, taken apart. *)
Lemma checkIn_done (env : CheckInEnv) (id : ObjectId) (st st' : Store)
    (code : Z) (b : Body) :
  checkInReservation env id st = (st', Json code b) ->
  exists r sh,
    findById Reservation._id id (reservations st) = Some r
    /\ findById Showtime._id (Reservation.showtime r) (showtimes st) = Some sh
    /\ Reservation.status r = "confirmed"
    /\ inCheckInWindow (Showtime.startTime sh) (checkInNow env)
    /\ st' = setReservations
               (replaceById Reservation._id
                  (Reservation.checkIn (checkInStamp env) r) (reservations st)) st.
Proof.
  unfold checkInReservation.
  destruct (findById Reservation._id id (reservations st)) as [r|] eqn:Hr;
    [|discriminate].
  destruct (String.eqb (Reservation.status r) "confirmed") eqn:Hs; cbn [negb];
    [|discriminate].
  destruct (findById Showtime._id (Reservation.showtime r) (showtimes st))
    as [sh|] eqn:Hsh; [|discriminate].
  cbv zeta.
  destruct (Qltb 120 (timeDiff (Showtime.startTime sh) (checkInNow env))) eqn:E1;
    [discriminate|].
  destruct (Qltb (timeDiff (Showtime.startTime sh) (checkInNow env)) (-30)) eqn:E2;
    [discriminate|].
  destruct (saveReservation (checkInSaveAccepted env)
              (Reservation.checkIn (checkInStamp env) r) st) as [e | st1] eqn:Hsave;
    [discriminate|].
  apply saveReservation_written in Hsave. destruct Hsave as [-> _].
  intros H. injection H as <- _ _.
  exists r, sh. apply String.eqb_eq in Hs.
  repeat split; try assumption.
  - destruct (Z.lt_ge_cases (checkInNow env) (Showtime.startTime sh - 2 * hour))
      as [Hlt | Hge]; [|exact Hge].
    apply timeDiff_early in Hlt. congruence.
  - destruct (Z.lt_ge_cases (Showtime.startTime sh + 30 * minute) (checkInNow env))
      as [Hlt | Hge]; [|exact Hge].
    apply timeDiff_late in Hlt. congruence.
Qed.

(** X21.  Check-in and cancellation do not meet.  At a clock reading at
    which a check-in is answered 200, [isCancellable] refuses the
    reservation, before the check-in and after it: the check-in window opens
    two hours before the start, which is where the cancellation window
    closes.  A cancellation at that reading is refused and writes nothing. *)
Theorem checked_in_cannot_cancel :
  forall (env : CheckInEnv) (id : ObjectId) (st st' : Store) (code : Z) (b : Body),
    checkInReservation env id st = (st', Json code b) ->
    exists r sh,
      findById Reservation._id id (reservations st) = Some r
      /\ findById Showtime._id (Reservation.showtime r) (showtimes st) = Some sh
      /\ Reservation.isCancellable (Some sh) (checkInNow env) r = false
      /\ findById Reservation._id id (reservations st')
         = Some (Reservation.checkIn (checkInStamp env) r)
      /\ (forall cenv reason user,
             guardNow cenv = checkInNow env ->
             cancelReservation cenv id reason user st'
               = (st', Fail 403 "Access denied" NoInfo)
             \/ cancelReservation cenv id reason user st'
                = (st', Fail 400 "Cannot cancel reservation" NoInfo)).
Proof.
  intros env id st st' code b Hrun. apply checkIn_done in Hrun.
  destruct Hrun as [r [sh [Hr [Hsh [Hstatus [[Hfrom _] ->]]]]]].
  assert (Hno : forall r0, Reservation.isCancellable (Some sh) (checkInNow env) r0
                           = false).
  { intros r0.
    apply (proj2 (isCancellable_false_cases (Some sh) (checkInNow env) r0) sh eq_refl).
    lia. }
  assert (Hstored : findById Reservation._id id
                      (replaceById Reservation._id
                         (Reservation.checkIn (checkInStamp env) r) (reservations st))
                    = Some (Reservation.checkIn (checkInStamp env) r)).
  { apply findById_replaced with (d := r); [exact Hr|].
    exact (findById_id _ _ _ _ Hr). }
  exists r, sh. split; [exact Hr|]. split; [exact Hsh|]. split; [apply Hno|].
  split; [exact Hstored|].
  intros cenv reason user Hclock. unfold cancelReservation.
  cbn [reservations showtimes setReservations]. rewrite Hstored.
  cbn [Reservation.user Reservation.showtime Reservation.checkIn
       Reservation.withCheckInTime].
  destruct (negb (String.eqb (role user) "admin")
            && negb (Reservation.user r =? uid user)); [now left|].
  right. rewrite Hsh, Hclock, Hno. reflexivity.
Qed.

(** ** Looking a seat up in the generated plan *)

Lemma find_by_unique_key (l : list TheaterSeat.t) (s : TheaterSeat.t) :
  NoDup (map keyOfTheaterSeat l) ->
  In s l ->
  find (fun seat => String.eqb (TheaterSeat.row seat) (TheaterSeat.row s)
                    && (TheaterSeat.number seat =? TheaterSeat.number s)) l
  = Some s.
Proof.
  induction l as [|x rest IH]; simpl; [tauto|].
  intros Hnd Hin. inversion Hnd as [|? ? Hnot Hrest]; subst.
  destruct (String.eqb (TheaterSeat.row x) (TheaterSeat.row s)
            && (TheaterSeat.number x =? TheaterSeat.number s)) eqn:E.
  - apply andb_true_iff in E. destruct E as [Er En].
    apply String.eqb_eq in Er. apply Z.eqb_eq in En.
    destruct Hin as [-> | Hin]; [reflexivity|].
    exfalso. apply Hnot.
    replace (keyOfTheaterSeat x) with (keyOfTheaterSeat s)
      by (unfold keyOfTheaterSeat; congruence).
    now apply in_map.
  - destruct Hin as [-> | Hin]; [|now apply IH].
    rewrite String.eqb_refl, Z.eqb_refl in E. discriminate.
Qed.

(** X22.  Looking a seat up in the generated plan.  In a theater whose
    seats were generated for a capacity within the bounds of the schema,
    [getSeat] finds seat [j] of row [i] whenever [10 i + j] is within the
    capacity and [j] is between 1 and 10, and gives it back with the class of
    its place; it finds nothing for a seat number below 1 or above 10. *)
Theorem generated_seat_lookup :
  forall (capacity : Z) (th : Theater.t),
    1 <= capacity <= 1000 ->
    Theater.seats th = generateSeats capacity ->
    (forall (i : nat) (j : Z),
        1 <= j <= 10 ->
        Z.of_nat i * 10 + j <= capacity ->
        getSeat (rowName i) j th
        = Some (TheaterSeat.mk (rowName i) j (generatedType i j) true))
    /\ (forall (row : string) (number : Z),
           number < 1 \/ 10 < number ->
           getSeat row number th = None).
Proof.
  intros capacity th Hc Hth. unfold getSeat. rewrite Hth. split.
  - intros i j Hj Hfit.
    apply (find_by_unique_key (generateSeats capacity)
             (TheaterSeat.mk (rowName i) j (generatedType i j) true)).
    + apply generatedRows_keys_NoDup. rewrite rows_div.
      apply Nat2Z.inj_lt. rewrite Z2Nat.id by (apply Z.div_pos; lia).
      simpl. Z.div_mod_to_equations. lia.
    + unfold generateSeats. apply in_flat_map. exists i. split.
      * apply in_seq. rewrite rows_div. split; [lia|].
        apply Nat2Z.inj_lt. rewrite Nat.add_0_l, Z2Nat.id by (apply Z.div_pos; lia).
        Z.div_mod_to_equations. lia.
      * unfold generatedRow. apply in_map_iff. exists (Z.to_nat j).
        rewrite Z2Nat.id by lia. split; [reflexivity|].
        apply in_seq. lia.
  - intros row number Hout. apply find_all_false. intros s Hs.
    unfold generateSeats in Hs. apply in_flat_map in Hs.
    destruct Hs as [i [_ Hs]]. apply generatedRow_In in Hs.
    destruct Hs as [_ [Hnum _]].
    destruct (TheaterSeat.number s =? number) eqn:E;
      [|now rewrite andb_false_r].
    apply Z.eqb_eq in E. lia.
Qed.

(** * The further properties on the sample data *)

Lemma sample_uniqueKeys : uniqueKeys (Showtime.availableSeats screeningS).
Proof.
  unfold uniqueKeys. simpl. constructor; [|constructor; [|constructor]].
  - intros [H | []]. discriminate H.
  - intros [].
Qed.

Lemma sample_consistent : consistent screeningS.
Proof. intros c []. Qed.

Lemma sample_uniqueIds : uniqueIds (showtimes storeS).
Proof. unfold uniqueIds. simpl. constructor; [intros [] | constructor]. Qed.

Lemma sample_conflictFree : conflictFree (showtimes storeS).
Proof. unfold conflictFree. simpl. repeat constructor. Qed.

Lemma sample_bookable :
  forall k, In k [seatA1; seatA2] -> bookable k (Showtime.availableSeats screeningS).
Proof.
  intros k [<- | [<- | []]].
  - exists (AvailableSeat.mk "A" 1 regular 10 true). simpl. tauto.
  - exists (AvailableSeat.mk "A" 2 regular 10 true). simpl. tauto.
Qed.

Lemma sample_named_once : NoDup [seatA1; seatA2].
Proof.
  constructor; [|constructor; [|constructor]].
  - intros [H | []]. discriminate H.
  - intros [].
Qed.

(** Claiming A1 on the sample screening leaves one seat available. *)
Lemma reserveSeats_counts_witness :
  Nat.add (availableSeatsCount (fst (reserveSeats [seatA1] 10 (9 * hour) screeningS)))
          (List.length [seatA1])
  = availableSeatsCount screeningS.
Proof.
  destruct (reserveSeats_counts [seatA1] 10 (9 * hour) screeningS _ _ eq_refl)
    as [H _].
  exact H.
Defined.

(** Claiming A1 and A2 and releasing them gives the sample screening
    back. *)
Lemma release_undoes_reserve_witness :
  releaseSeats [seatA1; seatA2]
    (fst (reserveSeats [seatA1; seatA2] 10 (9 * hour) screeningS))
  = screeningS.
Proof.
  exact (release_undoes_reserve [seatA1; seatA2] 10 (9 * hour) screeningS _ _
           sample_uniqueKeys sample_consistent eq_refl).
Defined.

(** The booking of U claims A1 and A2 and is refused on its reservation. *)
Lemma booking_claims_iff_witness :
  createReservation (bookingEnv 501 true) bookingOfU userU storeS
  = (storeClaimed, claimedThenRefused).
Proof.
  destruct (booking_claims_iff (bookingEnv 501 true) bookingOfU userU storeS
              screeningS eq_refl sample_uniqueKeys) as [Hiff _].
  apply (proj2 Hiff).
  split; [reflexivity|]. split; [reflexivity|]. split; [reflexivity|].
  split; [exact sample_bookable|]. split; [exact sample_named_once|].
  reflexivity.
Defined.

(** The request of V for the held seat A1 leaves the store as it was. *)
Lemma refused_booking_writes_nothing_witness :
  fst (createReservation (bookingEnv 502 true) (mkBooking 1 [seatA1]) userV
         (storeWith "confirmed"))
  = storeWith "confirmed".
Proof.
  destruct (refused_booking_writes_nothing (bookingEnv 502 true)
              (mkBooking 1 [seatA1]) userV (storeWith "confirmed")
              (storeWith "confirmed")
              (Fail 400 "Seats unavailable" (SeatList [seatA1]))
              eq_refl) as [_ [_ [_ [_ H]]]].
  apply H. unfold claimedThenRefused. discriminate.
Defined.

(** The reservation that the handler builds for U: pending, two seats, a
    total that is the sum of its seat prices, and refused by the
    validation. *)
Lemma built_reservation_is_priced_witness :
  Reservation.status (NewReservation.fields reservationBuilt) = "pending"
  /\ seatCount (NewReservation.fields reservationBuilt) = 2%nat
  /\ Reservation.totalAmount (NewReservation.fields reservationBuilt)
     = sumOfPrices (Reservation.seats (NewReservation.fields reservationBuilt))
  /\ insertReservation true reservationBuilt storeClaimed = inl NumberRequired.
Proof.
  destruct (built_reservation_is_priced (bookingEnv 501 true) bookingOfU userU
              storeS storeClaimed reservationBuilt screeningS eq_refl)
    as [_ [_ [_ [Hs [_ [_ [_ [Hn [_ [Ht [_ [_ [_ [_ [Hins _]]]]]]]]]]]]]]].
  split; [exact Hs|]. split; [exact Hn|]. split; [exact Ht|]. apply Hins.
Defined.

(** U cancels 30 hours before the start: the stored reservation is
    cancelled. *)
Lemma cancellation_is_stored_witness :
  exists r',
    findById Reservation._id 501
      (reservations
         (fst (cancelReservation (cancelEnvAt (-11 * hour)) 501
                 (Some "plans changed") userU (storeWith "confirmed"))))
    = Some r'
    /\ Reservation.status r' = "cancelled".
Proof.
  edestruct (cancellation_is_stored (cancelEnvAt (-11 * hour)) 501
               (Some "plans changed") userU (storeWith "confirmed"))
    as [r [sh [r' [sh' [_ [_ [Hr' [_ [Hs _]]]]]]]]].
  - cbv. reflexivity.
  - exists r'. split; [exact Hr' | exact Hs].
Defined.

(** After that cancellation a check-in is refused. *)
Lemma cancelled_reservation_is_closed_witness :
  snd (checkInReservation (checkInEnvAt (18 * hour)) 501
         (fst (cancelReservation (cancelEnvAt (-11 * hour)) 501
                 (Some "plans changed") userU (storeWith "confirmed"))))
  = Fail 400 "Invalid reservation status" NoInfo.
Proof.
  edestruct (cancelled_reservation_is_closed (cancelEnvAt (-11 * hour)) 501
               (Some "plans changed") userU (storeWith "confirmed"))
    as [_ H].
  - cbv. reflexivity.
  - specialize (H (checkInEnvAt (18 * hour))).
    apply (f_equal snd) in H. exact H.
Defined.

(** V is stopped on the check-in route of the reservation of U. *)
Lemma reservation_access_witness :
  checkInRoute (checkInEnvAt (18 * hour)) userV 501 (storeWith "confirmed")
  = (storeWith "confirmed", Fail 403 "Access denied" NoInfo).
Proof.
  destruct reservation_access as [_ [H _]].
  destruct (H (cancelEnvAt 0) (checkInEnvAt (18 * hour)) userV 501 None
              (storeWith "confirmed") (reservationOfU "confirmed") eq_refl)
    as [_ Hroute].
  - discriminate.
  - discriminate.
  - exact Hroute.
Defined.

(** The sample screening cannot be deleted while U holds a confirmed
    reservation on it; without reservations it is deactivated, and its seat
    map is then refused. *)
Lemma deleteShowtime_is_soft_witness :
  deleteShowtime true (9 * hour) 1 (storeWith "confirmed")
  = (storeWith "confirmed", Refused 400 "Cannot delete showtime")
  /\ getAvailableSeats (9 * hour) 1 (fst (deleteShowtime true (9 * hour) 1 storeS))
     = Refused 400 "Showtime inactive".
Proof.
  split.
  - apply (proj1 (deleteShowtime_is_soft true (9 * hour) 1 (storeWith "confirmed")
                    screeningHeld eq_refl)).
    exists (reservationOfU "confirmed"). split; [now left|].
    split; [reflexivity | now right].
  - destruct (deleteShowtime_is_soft true (9 * hour) 1 storeS screeningS eq_refl)
      as [_ H].
    destruct (H (fst (deleteShowtime true (9 * hour) 1 storeS)) eq_refl)
      as [_ [_ [_ [_ [_ [Hmap _]]]]]].
    exact (Hmap (9 * hour)).
Defined.

(** After the booking of U the sample screening cannot be moved. *)
Lemma claimed_screening_cannot_be_edited_witness :
  updateShowtime showtimeEnv 1 (moveTo (20 * hour) (22 * hour)) storeClaimed
    = (storeClaimed, Fail 400 "Cannot update past showtime" NoInfo)
  \/ updateShowtime showtimeEnv 1 (moveTo (20 * hour) (22 * hour)) storeClaimed
     = (storeClaimed, Fail 400 "Cannot update showtime with reservations" NoInfo).
Proof.
  apply (claimed_screening_cannot_be_edited (bookingEnv 501 true) bookingOfU userU
           storeS storeClaimed eq_refl).
  discriminate.
Defined.

(** A theater of 25 places gets 25 seats. *)
Lemma generated_seats_are_a_seat_plan_witness :
  List.length (generateSeats 25) = 25%nat
  /\ uniqueKeys (seatsFromTheater 10 theaterGenerated).
Proof.
  destruct (generated_seats_are_a_seat_plan 25) as [Hlen [_ [_ Hkeys]]].
  - lia.
  - split; [exact Hlen|]. apply Hkeys. reflexivity.
Defined.

(** The screening created from 21:00 to 23:00 on the sample store. *)
Lemma created_screening_is_fresh_witness :
  exists sh,
    snd (createShowtime showtimeEnv (requestAt (21 * hour) (23 * hour)) storeS)
    = Json 201 (ShowtimeBody sh)
    /\ availableSeatsCount sh = totalCapacity sh
    /\ occupancyPercentage sh = 0.
Proof.
  eexists. split; [reflexivity|].
  edestruct (created_screening_is_fresh showtimeEnv
               (requestAt (21 * hour) (23 * hour)) storeS)
    as [th [_ [_ [_ [_ [_ [_ [_ [_ [_ [_ [_ [_ [_ [_ [Hcount [_ [Hocc _]]]]]]]]]]]]]]]]]].
  - reflexivity.
  - split; [exact Hcount | exact Hocc].
Defined.

(** Ten hours before the start, on one clock reading, half is refunded. *)
Lemma one_clock_refund_witness :
  Reservation.refundAmount
    (fst (Reservation.cancel None (Some screeningS) (9 * hour) (9 * hour) (9 * hour)
            (reservationOfU "confirmed")))
  = Some (20 * 0.5)%Q.
Proof.
  destruct (one_clock_refund None screeningS (9 * hour) (9 * hour)
              (reservationOfU "confirmed") _ eq_refl) as [_ [_ H]].
  apply H. discriminate.
Defined.

(** Thirty hours before the start the reservation of U can be edited, and
    so cancelled. *)
Lemma editable_is_refundable_witness :
  Reservation.isCancellable (Some screeningS) (-11 * hour)
    (reservationOfU "confirmed") = true.
Proof.
  destruct (editable_is_refundable screeningS (-11 * hour) (-11 * hour) None
              (reservationOfU "confirmed") eq_refl) as [_ [_ [H _]]].
  exact H.
Defined.

(** The seat map of the sample screening at 09:00 lists two seats. *)
Lemma seat_map_matches_booking_witness :
  exists m,
    getAvailableSeats (9 * hour) 1 storeS = Done 200 m
    /\ mapAvailableCount m = List.length (mapAvailable m)
    /\ bookable seatA1 (Showtime.availableSeats screeningS).
Proof.
  eexists. split; [reflexivity|].
  edestruct (seat_map_matches_booking (9 * hour) 1 storeS)
    as [sh [Hsh [_ [_ [Hcount [_ [_ [_ [Hbook _]]]]]]]]].
  - reflexivity.
  - split; [exact Hcount|].
    injection Hsh as <-. apply Hbook.
    exists (AvailableSeat.mk "A" 1 regular 10 true). simpl. tauto.
Defined.

(** The sample store with a screening added from 21:00 to 23:00, and with
    the sample screening moved to 17:00, has no clash. *)
Lemma schedule_stays_conflict_free_witness :
  conflictFree
    (showtimes (fst (createShowtime showtimeEnv
                       (requestAt (21 * hour) (23 * hour)) storeS)))
  /\ conflictFree
       (showtimes (fst (updateShowtime showtimeEnv 1
                          (moveTo (17 * hour) (19 * hour)) storeS))).
Proof.
  destruct (schedule_stays_conflict_free storeS sample_uniqueIds sample_conflictFree)
    as [Hcreate [Hupdate _]].
  split.
  - apply (Hcreate showtimeEnv (requestAt (21 * hour) (23 * hour)) _ _ eq_refl).
  - apply (Hupdate showtimeEnv 1 (moveTo (17 * hour) (19 * hour)) _ _ eq_refl).
    left. reflexivity.
Defined.

(** The booking of U touches only the seats of the sample screening. *)
Lemma reservations_leave_schedule_alone_witness :
  Forall2 (touchesOnlySeatsOf 1) (showtimes storeS) (showtimes storeClaimed).
Proof.
  destruct (reservations_leave_schedule_alone storeS sample_uniqueIds) as [H _].
  destruct (H (bookingEnv 501 true) bookingOfU userU storeClaimed
              claimedThenRefused eq_refl) as [Hall _].
  exact Hall.
Defined.

(** After the booking of U, the request of V for A1 is refused and names
    A1, and there is no reservation 501 to cancel. *)
Lemma refused_booking_keeps_seats_witness :
  (exists unavailable,
      createReservation (bookingEnv 502 true) (mkBooking 1 [seatA1]) userV storeClaimed
      = (storeClaimed, Fail 400 "Seats unavailable" (SeatList unavailable))
      /\ In seatA1 unavailable)
  /\ cancelReservation (cancelEnvAt (-11 * hour)) 501 None userU storeClaimed
     = (storeClaimed, Fail 404 "Reservation not found" NoInfo).
Proof.
  destruct (refused_booking_keeps_seats (bookingEnv 501 true) bookingOfU userU
              storeS storeClaimed screeningS eq_refl sample_uniqueKeys eq_refl)
    as [_ [_ [Hcancel Hlater]]].
  split.
  - apply (Hlater (bookingEnv 502 true) (mkBooking 1 [seatA1]) userV seatA1 eq_refl).
    + left. reflexivity.
    + left. reflexivity.
    + reflexivity.
  - apply (Hcancel eq_refl).
Defined.

(** The books of the sample screening are in order, and stay so when A1
    is claimed. *)
Lemma books_stay_in_order_witness :
  accounted screeningS
  /\ accounted (fst (reserveSeats [seatA1] 10 (9 * hour) screeningS)).
Proof.
  destruct books_stay_in_order as [Hfresh [Hres _]].
  assert (H : accounted screeningS).
  { apply Hfresh; [exact sample_uniqueKeys | reflexivity|].
    intros s [<- | [<- | []]]; reflexivity. }
  split; [exact H|].
  exact (Hres [seatA1] 10 (9 * hour) screeningS _ _ H eq_refl).
Defined.

(** U checks in one hour before the start; at that hour the reservation
    cannot be cancelled. *)
Lemma checked_in_cannot_cancel_witness :
  exists r sh,
    findById Reservation._id 501 (reservations (storeWith "confirmed")) = Some r
    /\ findById Showtime._id (Reservation.showtime r)
         (showtimes (storeWith "confirmed")) = Some sh
    /\ Reservation.isCancellable (Some sh) (18 * hour) r = false.
Proof.
  edestruct (checked_in_cannot_cancel (checkInEnvAt (18 * hour)) 501
               (storeWith "confirmed"))
    as [r [sh [Hr [Hsh [Hno _]]]]].
  - cbv. reflexivity.
  - exists r, sh. split; [exact Hr|]. split; [exact Hsh | exact Hno].
Defined.

(** Seat 5 of the third row of the theater of 25 places. *)
Lemma generated_seat_lookup_witness :
  getSeat (rowName 2) 5 theaterGenerated
  = Some (TheaterSeat.mk (rowName 2) 5 (generatedType 2 5) true).
Proof.
  destruct (generated_seat_lookup 25 theaterGenerated) as [H _].
  - lia.
  - reflexivity.
  - apply (H 2%nat 5); lia.
Defined.

(** The condition on the body of an update is needed: on a store whose
    second screening is inactive and overlaps the first, a body that only
    sets [isActive] skips the conflict query and stores a clash. *)
Example reactivation_stores_a_clash :
  conflictFree (showtimes storeDormant)
  /\ ~ conflictFree
        (showtimes (fst (updateShowtime showtimeEnv 2 reactivate storeDormant))).
Proof.
  split.
  - unfold conflictFree. simpl. constructor; [|repeat constructor].
    constructor; [|constructor]. intros [_ [_ [H _]]]. discriminate H.
  - assert (E : showtimes (fst (updateShowtime showtimeEnv 2 reactivate storeDormant))
                = [screeningS; Showtime.withActive true screeningDormant])
      by reflexivity.
    rewrite E. intros H.
    apply (conflictFree_pair _ screeningS (Showtime.withActive true screeningDormant) H).
    + now left.
    + right. now left.
    + discriminate.
    + unfold clash, overlaps. repeat split.
Qed.
